(** * The e-commerce data pipeline: staging -> production -> warehouse

    A shallow embedding of [scripts/transformation/staging_to_production.py]
    and [scripts/transformation/load_warehouse.py].

    - The relational store is a record of tables; a table is the list of its
      rows (order and duplicates are kept: the scripts write through
      [DataFrame.to_sql(..., if_exists="append")], which only appends).
    - SQL [NULL] is [None]. A text cell read by [pd.read_sql] is Python
      [None] or a [str]; a numeric cell is a number or NaN, and every
      comparison with NaN is false.
    - A [str] is the string of its UTF-8 bytes; [str.strip] and [str.lower]
      work on its code points, with the whitespace and the case mappings of
      Unicode.
    - Numbers are exact rationals ([Q]): the comparisons of the scripts are
      exact on floats as well, and sums are the store's (exact NUMERIC) sums.
    - Every statement sent over the connection may fail (store error); Python
      exceptions and store errors abort the enclosing [engine.begin()] block,
      which rolls the transaction back. *)

From Stdlib Require Import ZArith QArith Qabs String Ascii List.
From Equations Require Import Equations.
From stdpp Require Import base decidable option list gmap strings numbers pretty.

Open Scope Z_scope.

(** ** Python results and exceptions *)

Inductive exn : Type :=
| AttributeError
| OverflowError
| StoreError (stmt : nat).

Inductive result (A : Type) : Type :=
| Ok (a : A)
| Raise (e : exn).
Arguments Ok {A} a.
Arguments Raise {A} e.

Definition is_ok {A} (r : result A) : bool :=
  match r with Ok _ => true | Raise _ => false end.

(** Python-level computations that may raise. *)
Definition rbind {A B} (r : result A) (f : A -> result B) : result B :=
  match r with Ok a => f a | Raise e => Raise e end.

Fixpoint rmap {A B} (f : A -> result B) (l : list A) : result (list B) :=
  match l with
  | [] => Ok []
  | x :: l' => rbind (f x) (fun y => rbind (rmap f l') (fun ys => Ok (y :: ys)))
  end.

(** ** Cell values *)

(** A text cell of the store, and of a DataFrame column of Python objects. *)
Abbreviation text := (option string).
(** A numeric cell; [None] is SQL NULL, read by pandas as NaN. *)
Abbreviation num := (option Q).

Definition Qlt_b (x y : Q) : bool := negb (Qle_bool y x).

(** [a > b] and [a < b] on a pandas numeric column: false on NaN. *)
Definition num_gt (a b : num) : bool :=
  match a, b with
  | Some x, Some y => Qlt_b y x
  | _, _ => false
  end.

Definition num_lt (a b : num) : bool := num_gt b a.

(** The Python objects the cleansing helpers can be called with. *)
Inductive pyval : Type :=
| PNone
| PNaN
| PStr (s : string).

Definition py_of_text (c : text) : pyval :=
  match c with None => PNone | Some s => PStr s end.

(** What [to_sql] stores for a Python object: None and NaN become NULL. *)
Definition text_of_py (v : pyval) : text :=
  match v with PStr s => Some s | PNone | PNaN => None end.

(** ** Python strings *)

(** A Python [str] is a sequence of Unicode code points. It is represented
    by the string of its UTF-8 bytes: equal strings stand for equal texts,
    and [+:+] is the concatenation of texts. A string of bytes that is not
    UTF-8 stands for no [str]; the string methods leave it as it is. *)

(** The UTF-8 bytes of a code point. *)
Definition utf8 (c : N) : string :=
  if (c <? 0x80)%N then String (ascii_of_N c) EmptyString
  else if (c <? 0x800)%N then
    String (ascii_of_N (0xC0 + c / 0x40))
      (String (ascii_of_N (0x80 + c mod 0x40)) EmptyString)
  else if (c <? 0x10000)%N then
    String (ascii_of_N (0xE0 + c / 0x1000))
      (String (ascii_of_N (0x80 + c / 0x40 mod 0x40))
         (String (ascii_of_N (0x80 + c mod 0x40)) EmptyString))
  else if (c <? 0x110000)%N then
    String (ascii_of_N (0xF0 + c / 0x40000))
      (String (ascii_of_N (0x80 + c / 0x1000 mod 0x40))
         (String (ascii_of_N (0x80 + c / 0x40 mod 0x40))
            (String (ascii_of_N (0x80 + c mod 0x40)) EmptyString)))
  else EmptyString.

(** [''.join(chr(c) for c in cps)] *)
Fixpoint encode (cps : list N) : string :=
  match cps with
  | [] => EmptyString
  | c :: cps' => utf8 c +:+ encode cps'
  end.

(** The six low bits of a continuation byte. *)
Definition continuation (b : ascii) : option N :=
  let n := N_of_ascii b in
  if ((0x80 <=? n) && (n <? 0xC0))%N then Some (n - 0x80)%N else None.

(** [[ord(x) for x in s]], for the bytes of a text in shortest form. *)
Fixpoint decode (s : string) : option (list N) :=
  match s with
  | EmptyString => Some []
  | String b0 s1 =>
      let n0 := N_of_ascii b0 in
      if (n0 <? 0x80)%N then cons n0 <$> decode s1
      else if (n0 <? 0xC0)%N then None
      else if (n0 <? 0xE0)%N then
        match s1 with
        | String b1 s2 =>
            match continuation b1 with
            | Some n1 =>
                let c := ((n0 - 0xC0) * 0x40 + n1)%N in
                if (0x80 <=? c)%N then cons c <$> decode s2 else None
            | None => None
            end
        | _ => None
        end
      else if (n0 <? 0xF0)%N then
        match s1 with
        | String b1 (String b2 s3) =>
            match continuation b1, continuation b2 with
            | Some n1, Some n2 =>
                let c := ((n0 - 0xE0) * 0x1000 + n1 * 0x40 + n2)%N in
                if (0x800 <=? c)%N then cons c <$> decode s3 else None
            | _, _ => None
            end
        | _ => None
        end
      else if (n0 <? 0xF8)%N then
        match s1 with
        | String b1 (String b2 (String b3 s4)) =>
            match continuation b1, continuation b2, continuation b3 with
            | Some n1, Some n2, Some n3 =>
                let c :=
                  ((n0 - 0xF0) * 0x40000 + n1 * 0x1000 + n2 * 0x40 + n3)%N in
                if ((0x10000 <=? c) && (c <? 0x110000))%N
                then cons c <$> decode s4 else None
            | _, _, _ => None
            end
        | _ => None
        end
      else None
  end.

(** [chr(c).isspace()] *)
Definition is_space (c : N) : bool :=
  ((9 <=? c) && (c <=? 13) || (28 <=? c) && (c <=? 32)
   || (c =? 0x85) || (c =? 0xA0) || (c =? 0x1680)
   || (0x2000 <=? c) && (c <=? 0x200A)
   || (c =? 0x2028) || (c =? 0x2029) || (c =? 0x202F) || (c =? 0x205F)
   || (c =? 0x3000))%N.

Fixpoint lstrip (cps : list N) : list N :=
  match cps with
  | [] => []
  | c :: cps' => if is_space c then lstrip cps' else cps
  end.

Definition rstrip (cps : list N) : list N := reverse (lstrip (reverse cps)).

(** [s.strip()] *)
Definition strip (s : string) : string :=
  match decode s with
  | Some cps => encode (rstrip (lstrip cps))
  | None => s
  end.

(** *** Lower case *)

(** The simple lower case mapping of the Unicode Character Database, version
    14.0 (CPython 3.11), in runs: the code points from the first to the
    second bound, in steps of the third, are mapped by adding the fourth. *)
Definition LOWER : list (N * N * N * Z) :=
  [(65, 90, 1, 32%Z); (192, 214, 1, 32%Z); (216, 222, 1, 32%Z);
   (256, 302, 2, 1%Z); (306, 310, 2, 1%Z); (313, 327, 2, 1%Z);
   (330, 374, 2, 1%Z); (376, 376, 1, (-121)%Z); (377, 381, 2, 1%Z);
   (385, 385, 1, 210%Z); (386, 388, 2, 1%Z); (390, 390, 1, 206%Z);
   (391, 391, 1, 1%Z); (393, 394, 1, 205%Z); (395, 395, 1, 1%Z);
   (398, 398, 1, 79%Z); (399, 399, 1, 202%Z); (400, 400, 1, 203%Z);
   (401, 401, 1, 1%Z); (403, 403, 1, 205%Z); (404, 404, 1, 207%Z);
   (406, 406, 1, 211%Z); (407, 407, 1, 209%Z); (408, 408, 1, 1%Z);
   (412, 412, 1, 211%Z); (413, 413, 1, 213%Z); (415, 415, 1, 214%Z);
   (416, 420, 2, 1%Z); (422, 422, 1, 218%Z); (423, 423, 1, 1%Z);
   (425, 425, 1, 218%Z); (428, 428, 1, 1%Z); (430, 430, 1, 218%Z);
   (431, 431, 1, 1%Z); (433, 434, 1, 217%Z); (435, 437, 2, 1%Z);
   (439, 439, 1, 219%Z); (440, 440, 1, 1%Z); (444, 444, 1, 1%Z);
   (452, 452, 1, 2%Z); (453, 453, 1, 1%Z); (455, 455, 1, 2%Z);
   (456, 456, 1, 1%Z); (458, 458, 1, 2%Z); (459, 475, 2, 1%Z);
   (478, 494, 2, 1%Z); (497, 497, 1, 2%Z); (498, 500, 2, 1%Z);
   (502, 502, 1, (-97)%Z); (503, 503, 1, (-56)%Z); (504, 542, 2, 1%Z);
   (544, 544, 1, (-130)%Z); (546, 562, 2, 1%Z); (570, 570, 1, 10795%Z);
   (571, 571, 1, 1%Z); (573, 573, 1, (-163)%Z); (574, 574, 1, 10792%Z);
   (577, 577, 1, 1%Z); (579, 579, 1, (-195)%Z); (580, 580, 1, 69%Z);
   (581, 581, 1, 71%Z); (582, 590, 2, 1%Z); (880, 882, 2, 1%Z);
   (886, 886, 1, 1%Z); (895, 895, 1, 116%Z); (902, 902, 1, 38%Z);
   (904, 906, 1, 37%Z); (908, 908, 1, 64%Z); (910, 911, 1, 63%Z);
   (913, 929, 1, 32%Z); (931, 939, 1, 32%Z); (975, 975, 1, 8%Z);
   (984, 1006, 2, 1%Z); (1012, 1012, 1, (-60)%Z); (1015, 1015, 1, 1%Z);
   (1017, 1017, 1, (-7)%Z); (1018, 1018, 1, 1%Z); (1021, 1023, 1, (-130)%Z);
   (1024, 1039, 1, 80%Z); (1040, 1071, 1, 32%Z); (1120, 1152, 2, 1%Z);
   (1162, 1214, 2, 1%Z); (1216, 1216, 1, 15%Z); (1217, 1229, 2, 1%Z);
   (1232, 1326, 2, 1%Z); (1329, 1366, 1, 48%Z); (4256, 4293, 1, 7264%Z);
   (4295, 4295, 1, 7264%Z); (4301, 4301, 1, 7264%Z);
   (5024, 5103, 1, 38864%Z); (5104, 5109, 1, 8%Z);
   (7312, 7354, 1, (-3008)%Z); (7357, 7359, 1, (-3008)%Z);
   (7680, 7828, 2, 1%Z); (7838, 7838, 1, (-7615)%Z); (7840, 7934, 2, 1%Z);
   (7944, 7951, 1, (-8)%Z); (7960, 7965, 1, (-8)%Z);
   (7976, 7983, 1, (-8)%Z); (7992, 7999, 1, (-8)%Z);
   (8008, 8013, 1, (-8)%Z); (8025, 8031, 2, (-8)%Z);
   (8040, 8047, 1, (-8)%Z); (8072, 8079, 1, (-8)%Z);
   (8088, 8095, 1, (-8)%Z); (8104, 8111, 1, (-8)%Z);
   (8120, 8121, 1, (-8)%Z); (8122, 8123, 1, (-74)%Z);
   (8124, 8124, 1, (-9)%Z); (8136, 8139, 1, (-86)%Z);
   (8140, 8140, 1, (-9)%Z); (8152, 8153, 1, (-8)%Z);
   (8154, 8155, 1, (-100)%Z); (8168, 8169, 1, (-8)%Z);
   (8170, 8171, 1, (-112)%Z); (8172, 8172, 1, (-7)%Z);
   (8184, 8185, 1, (-128)%Z); (8186, 8187, 1, (-126)%Z);
   (8188, 8188, 1, (-9)%Z); (8486, 8486, 1, (-7517)%Z);
   (8490, 8490, 1, (-8383)%Z); (8491, 8491, 1, (-8262)%Z);
   (8498, 8498, 1, 28%Z); (8544, 8559, 1, 16%Z); (8579, 8579, 1, 1%Z);
   (9398, 9423, 1, 26%Z); (11264, 11311, 1, 48%Z); (11360, 11360, 1, 1%Z);
   (11362, 11362, 1, (-10743)%Z); (11363, 11363, 1, (-3814)%Z);
   (11364, 11364, 1, (-10727)%Z); (11367, 11371, 2, 1%Z);
   (11373, 11373, 1, (-10780)%Z); (11374, 11374, 1, (-10749)%Z);
   (11375, 11375, 1, (-10783)%Z); (11376, 11376, 1, (-10782)%Z);
   (11378, 11378, 1, 1%Z); (11381, 11381, 1, 1%Z);
   (11390, 11391, 1, (-10815)%Z); (11392, 11490, 2, 1%Z);
   (11499, 11501, 2, 1%Z); (11506, 11506, 1, 1%Z); (42560, 42604, 2, 1%Z);
   (42624, 42650, 2, 1%Z); (42786, 42798, 2, 1%Z); (42802, 42862, 2, 1%Z);
   (42873, 42875, 2, 1%Z); (42877, 42877, 1, (-35332)%Z);
   (42878, 42886, 2, 1%Z); (42891, 42891, 1, 1%Z);
   (42893, 42893, 1, (-42280)%Z); (42896, 42898, 2, 1%Z);
   (42902, 42920, 2, 1%Z); (42922, 42922, 1, (-42308)%Z);
   (42923, 42923, 1, (-42319)%Z); (42924, 42924, 1, (-42315)%Z);
   (42925, 42925, 1, (-42305)%Z); (42926, 42926, 1, (-42308)%Z);
   (42928, 42928, 1, (-42258)%Z); (42929, 42929, 1, (-42282)%Z);
   (42930, 42930, 1, (-42261)%Z); (42931, 42931, 1, 928%Z);
   (42932, 42946, 2, 1%Z); (42948, 42948, 1, (-48)%Z);
   (42949, 42949, 1, (-42307)%Z); (42950, 42950, 1, (-35384)%Z);
   (42951, 42953, 2, 1%Z); (42960, 42960, 1, 1%Z); (42966, 42968, 2, 1%Z);
   (42997, 42997, 1, 1%Z); (65313, 65338, 1, 32%Z); (66560, 66599, 1, 40%Z);
   (66736, 66771, 1, 40%Z); (66928, 66938, 1, 39%Z);
   (66940, 66954, 1, 39%Z); (66956, 66962, 1, 39%Z);
   (66964, 66965, 1, 39%Z); (68736, 68786, 1, 64%Z);
   (71840, 71871, 1, 32%Z); (93760, 93791, 1, 32%Z);
   (125184, 125217, 1, 34%Z)]%N.

Definition CASED : list (N * N) :=
  [(65, 90); (97, 122); (170, 170); (181, 181); (186, 186); (192, 214);
   (216, 246); (248, 442); (444, 447); (452, 659); (661, 696); (704, 705);
   (736, 740); (837, 837); (880, 883); (886, 887); (890, 893); (895, 895);
   (902, 902); (904, 906); (908, 908); (910, 929); (931, 1013);
   (1015, 1153); (1162, 1327); (1329, 1366); (1376, 1416); (4256, 4293);
   (4295, 4295); (4301, 4301); (4304, 4346); (4349, 4351); (5024, 5109);
   (5112, 5117); (7296, 7304); (7312, 7354); (7357, 7359); (7424, 7615);
   (7680, 7957); (7960, 7965); (7968, 8005); (8008, 8013); (8016, 8023);
   (8025, 8025); (8027, 8027); (8029, 8029); (8031, 8061); (8064, 8116);
   (8118, 8124); (8126, 8126); (8130, 8132); (8134, 8140); (8144, 8147);
   (8150, 8155); (8160, 8172); (8178, 8180); (8182, 8188); (8305, 8305);
   (8319, 8319); (8336, 8348); (8450, 8450); (8455, 8455); (8458, 8467);
   (8469, 8469); (8473, 8477); (8484, 8484); (8486, 8486); (8488, 8488);
   (8490, 8493); (8495, 8500); (8505, 8505); (8508, 8511); (8517, 8521);
   (8526, 8526); (8544, 8575); (8579, 8580); (9398, 9449); (11264, 11492);
   (11499, 11502); (11506, 11507); (11520, 11557); (11559, 11559);
   (11565, 11565); (42560, 42605); (42624, 42653); (42786, 42887);
   (42891, 42894); (42896, 42954); (42960, 42961); (42963, 42963);
   (42965, 42969); (42997, 42998); (43000, 43002); (43824, 43866);
   (43868, 43880); (43888, 43967); (64256, 64262); (64275, 64279);
   (65313, 65338); (65345, 65370); (66560, 66639); (66736, 66771);
   (66776, 66811); (66928, 66938); (66940, 66954); (66956, 66962);
   (66964, 66965); (66967, 66977); (66979, 66993); (66995, 67001);
   (67003, 67004); (67456, 67456); (67459, 67461); (67463, 67504);
   (67506, 67514); (68736, 68786); (68800, 68850); (71840, 71903);
   (93760, 93823); (119808, 119892); (119894, 119964); (119966, 119967);
   (119970, 119970); (119973, 119974); (119977, 119980); (119982, 119993);
   (119995, 119995); (119997, 120003); (120005, 120069); (120071, 120074);
   (120077, 120084); (120086, 120092); (120094, 120121); (120123, 120126);
   (120128, 120132); (120134, 120134); (120138, 120144); (120146, 120485);
   (120488, 120512); (120514, 120538); (120540, 120570); (120572, 120596);
   (120598, 120628); (120630, 120654); (120656, 120686); (120688, 120712);
   (120714, 120744); (120746, 120770); (120772, 120779); (122624, 122633);
   (122635, 122654); (125184, 125251); (127280, 127305); (127312, 127337);
   (127344, 127369)]%N.

Definition CASE_IGNORABLE : list (N * N) :=
  [(39, 39); (46, 46); (58, 58); (94, 94); (96, 96); (168, 168); (173, 173);
   (175, 175); (180, 180); (183, 184); (688, 879); (884, 885); (890, 890);
   (900, 901); (903, 903); (1155, 1161); (1369, 1369); (1375, 1375);
   (1425, 1469); (1471, 1471); (1473, 1474); (1476, 1477); (1479, 1479);
   (1524, 1524); (1536, 1541); (1552, 1562); (1564, 1564); (1600, 1600);
   (1611, 1631); (1648, 1648); (1750, 1757); (1759, 1768); (1770, 1773);
   (1807, 1807); (1809, 1809); (1840, 1866); (1958, 1968); (2027, 2037);
   (2042, 2042); (2045, 2045); (2070, 2093); (2137, 2139); (2184, 2184);
   (2192, 2193); (2200, 2207); (2249, 2306); (2362, 2362); (2364, 2364);
   (2369, 2376); (2381, 2381); (2385, 2391); (2402, 2403); (2417, 2417);
   (2433, 2433); (2492, 2492); (2497, 2500); (2509, 2509); (2530, 2531);
   (2558, 2558); (2561, 2562); (2620, 2620); (2625, 2626); (2631, 2632);
   (2635, 2637); (2641, 2641); (2672, 2673); (2677, 2677); (2689, 2690);
   (2748, 2748); (2753, 2757); (2759, 2760); (2765, 2765); (2786, 2787);
   (2810, 2815); (2817, 2817); (2876, 2876); (2879, 2879); (2881, 2884);
   (2893, 2893); (2901, 2902); (2914, 2915); (2946, 2946); (3008, 3008);
   (3021, 3021); (3072, 3072); (3076, 3076); (3132, 3132); (3134, 3136);
   (3142, 3144); (3146, 3149); (3157, 3158); (3170, 3171); (3201, 3201);
   (3260, 3260); (3263, 3263); (3270, 3270); (3276, 3277); (3298, 3299);
   (3328, 3329); (3387, 3388); (3393, 3396); (3405, 3405); (3426, 3427);
   (3457, 3457); (3530, 3530); (3538, 3540); (3542, 3542); (3633, 3633);
   (3636, 3642); (3654, 3662); (3761, 3761); (3764, 3772); (3782, 3782);
   (3784, 3789); (3864, 3865); (3893, 3893); (3895, 3895); (3897, 3897);
   (3953, 3966); (3968, 3972); (3974, 3975); (3981, 3991); (3993, 4028);
   (4038, 4038); (4141, 4144); (4146, 4151); (4153, 4154); (4157, 4158);
   (4184, 4185); (4190, 4192); (4209, 4212); (4226, 4226); (4229, 4230);
   (4237, 4237); (4253, 4253); (4348, 4348); (4957, 4959); (5906, 5908);
   (5938, 5939); (5970, 5971); (6002, 6003); (6068, 6069); (6071, 6077);
   (6086, 6086); (6089, 6099); (6103, 6103); (6109, 6109); (6155, 6159);
   (6211, 6211); (6277, 6278); (6313, 6313); (6432, 6434); (6439, 6440);
   (6450, 6450); (6457, 6459); (6679, 6680); (6683, 6683); (6742, 6742);
   (6744, 6750); (6752, 6752); (6754, 6754); (6757, 6764); (6771, 6780);
   (6783, 6783); (6823, 6823); (6832, 6862); (6912, 6915); (6964, 6964);
   (6966, 6970); (6972, 6972); (6978, 6978); (7019, 7027); (7040, 7041);
   (7074, 7077); (7080, 7081); (7083, 7085); (7142, 7142); (7144, 7145);
   (7149, 7149); (7151, 7153); (7212, 7219); (7222, 7223); (7288, 7293);
   (7376, 7378); (7380, 7392); (7394, 7400); (7405, 7405); (7412, 7412);
   (7416, 7417); (7468, 7530); (7544, 7544); (7579, 7679); (8125, 8125);
   (8127, 8129); (8141, 8143); (8157, 8159); (8173, 8175); (8189, 8190);
   (8203, 8207); (8216, 8217); (8228, 8228); (8231, 8231); (8234, 8238);
   (8288, 8292); (8294, 8303); (8305, 8305); (8319, 8319); (8336, 8348);
   (8400, 8432); (11388, 11389); (11503, 11505); (11631, 11631);
   (11647, 11647); (11744, 11775); (11823, 11823); (12293, 12293);
   (12330, 12333); (12337, 12341); (12347, 12347); (12441, 12446);
   (12540, 12542); (40981, 40981); (42232, 42237); (42508, 42508);
   (42607, 42610); (42612, 42621); (42623, 42623); (42652, 42655);
   (42736, 42737); (42752, 42785); (42864, 42864); (42888, 42890);
   (42994, 42996); (43000, 43001); (43010, 43010); (43014, 43014);
   (43019, 43019); (43045, 43046); (43052, 43052); (43204, 43205);
   (43232, 43249); (43263, 43263); (43302, 43309); (43335, 43345);
   (43392, 43394); (43443, 43443); (43446, 43449); (43452, 43453);
   (43471, 43471); (43493, 43494); (43561, 43566); (43569, 43570);
   (43573, 43574); (43587, 43587); (43596, 43596); (43632, 43632);
   (43644, 43644); (43696, 43696); (43698, 43700); (43703, 43704);
   (43710, 43711); (43713, 43713); (43741, 43741); (43756, 43757);
   (43763, 43764); (43766, 43766); (43867, 43871); (43881, 43883);
   (44005, 44005); (44008, 44008); (44013, 44013); (64286, 64286);
   (64434, 64450); (65024, 65039); (65043, 65043); (65056, 65071);
   (65106, 65106); (65109, 65109); (65279, 65279); (65287, 65287);
   (65294, 65294); (65306, 65306); (65342, 65342); (65344, 65344);
   (65392, 65392); (65438, 65439); (65507, 65507); (65529, 65531);
   (66045, 66045); (66272, 66272); (66422, 66426); (67456, 67461);
   (67463, 67504); (67506, 67514); (68097, 68099); (68101, 68102);
   (68108, 68111); (68152, 68154); (68159, 68159); (68325, 68326);
   (68900, 68903); (69291, 69292); (69446, 69456); (69506, 69509);
   (69633, 69633); (69688, 69702); (69744, 69744); (69747, 69748);
   (69759, 69761); (69811, 69814); (69817, 69818); (69821, 69821);
   (69826, 69826); (69837, 69837); (69888, 69890); (69927, 69931);
   (69933, 69940); (70003, 70003); (70016, 70017); (70070, 70078);
   (70089, 70092); (70095, 70095); (70191, 70193); (70196, 70196);
   (70198, 70199); (70206, 70206); (70367, 70367); (70371, 70378);
   (70400, 70401); (70459, 70460); (70464, 70464); (70502, 70508);
   (70512, 70516); (70712, 70719); (70722, 70724); (70726, 70726);
   (70750, 70750); (70835, 70840); (70842, 70842); (70847, 70848);
   (70850, 70851); (71090, 71093); (71100, 71101); (71103, 71104);
   (71132, 71133); (71219, 71226); (71229, 71229); (71231, 71232);
   (71339, 71339); (71341, 71341); (71344, 71349); (71351, 71351);
   (71453, 71455); (71458, 71461); (71463, 71467); (71727, 71735);
   (71737, 71738); (71995, 71996); (71998, 71998); (72003, 72003);
   (72148, 72151); (72154, 72155); (72160, 72160); (72193, 72202);
   (72243, 72248); (72251, 72254); (72263, 72263); (72273, 72278);
   (72281, 72283); (72330, 72342); (72344, 72345); (72752, 72758);
   (72760, 72765); (72767, 72767); (72850, 72871); (72874, 72880);
   (72882, 72883); (72885, 72886); (73009, 73014); (73018, 73018);
   (73020, 73021); (73023, 73029); (73031, 73031); (73104, 73105);
   (73109, 73109); (73111, 73111); (73459, 73460); (78896, 78904);
   (92912, 92916); (92976, 92982); (92992, 92995); (94031, 94031);
   (94095, 94111); (94176, 94177); (94179, 94180); (110576, 110579);
   (110581, 110587); (110589, 110590); (113821, 113822); (113824, 113827);
   (118528, 118573); (118576, 118598); (119143, 119145); (119155, 119170);
   (119173, 119179); (119210, 119213); (119362, 119364); (121344, 121398);
   (121403, 121452); (121461, 121461); (121476, 121476); (121499, 121503);
   (121505, 121519); (122880, 122886); (122888, 122904); (122907, 122913);
   (122915, 122916); (122918, 122922); (123184, 123197); (123566, 123566);
   (123628, 123631); (125136, 125142); (125252, 125259); (127995, 127999);
   (917505, 917505); (917536, 917631); (917760, 917999)]%N.

Definition in_ranges (ranges : list (N * N)) (c : N) : bool :=
  existsb (fun r => (r.1 <=? c) && (c <=? r.2))%N ranges.

Definition is_cased (c : N) : bool := in_ranges CASED c.
Definition is_case_ignorable (c : N) : bool := in_ranges CASE_IGNORABLE c.

Definition in_run (c : N) (run : N * N * N * Z) : bool :=
  let '(first, last, step, _) := run in
  ((first <=? c) && (c <=? last) && ((c - first) mod step =? 0))%N.

Definition to_lower (c : N) : N :=
  match find (in_run c) LOWER with
  | Some (_, _, _, delta) => Z.to_N (Z.of_N c + delta)
  | None => c
  end.

(** The full mapping: one code point has a lower case of two. *)
Definition to_lower_full (c : N) : list N :=
  if (c =? 0x130)%N then [0x69; 0x307]%N else [to_lower c].

(** Is the nearest code point that is not case-ignorable a cased one? *)
Fixpoint next_cased (cps : list N) : bool :=
  match cps with
  | [] => false
  | c :: cps' => if is_case_ignorable c then next_cased cps' else is_cased c
  end.

(** Capital sigma becomes a final sigma after a cased letter when no cased
    letter follows; [before] holds the code points before it, the nearest
    first. *)
Definition lower_sigma (before after : list N) : N :=
  if next_cased before && negb (next_cased after) then 0x3C2%N else 0x3C3%N.

Fixpoint lower_from (before cps : list N) : list N :=
  match cps with
  | [] => []
  | c :: cps' =>
      (if (c =? 0x3A3)%N then [lower_sigma before cps'] else to_lower_full c)
      ++ lower_from (c :: before) cps'
  end.

(** [s.lower()] *)
Definition lower (s : string) : string :=
  match decode s with
  | Some cps => encode (lower_from [] cps)
  | None => s
  end.

(** [pd.isna(val)] on a scalar. *)
Definition isna (v : pyval) : bool :=
  match v with PNone | PNaN => true | PStr _ => false end.

(** Python truth value: None and the empty string are false, NaN is true. *)
Definition truthy (v : pyval) : bool :=
  match v with
  | PNone => false
  | PNaN => true
  | PStr EmptyString => false
  | PStr _ => true
  end.

(** [str(val)] on the values that reach it. *)
Definition str (v : pyval) : string :=
  match v with
  | PStr s => s
  | PNone => "None"
  | PNaN => "nan"
  end.

(** [v.lower()]: only [str] has the method. *)
Definition py_lower (v : pyval) : result pyval :=
  match v with
  | PStr s => Ok (PStr (lower s))
  | PNone | PNaN => Raise AttributeError
  end.

(** ** Helper cleansing functions *)

Definition clean_text (val : pyval) : pyval :=
  if isna val then PNone else PStr (strip (str val)).

Definition clean_email (email : pyval) : result pyval :=
  if truthy email then py_lower (clean_text email) else Ok PNone.

(** ** Tables *)

Record customer_row : Type := CustomerRow {
  c_customer_id : text;
  c_first_name : text;
  c_last_name : text;
  c_email : text;
  c_phone : text;
  c_registration_date : option Z;
  c_city : text;
  c_state : text;
  c_country : text;
  c_age_group : text
}.

Record product_row : Type := ProductRow {
  p_product_id : text;
  p_product_name : text;
  p_category : text;
  p_sub_category : text;
  p_price : num;
  p_cost : num;
  p_brand : text;
  p_stock_quantity : num;
  p_supplier_id : text
}.

(** Dates are proleptic Gregorian ordinals (day 1 is 0001-01-01), as
    [datetime.date.toordinal]. *)
Record transaction_row : Type := TransactionRow {
  t_transaction_id : text;
  t_customer_id : text;
  t_transaction_date : option Z;
  t_transaction_time : text;
  t_payment_method : text;
  t_shipping_address : text;
  t_total_amount : num
}.

Record item_row : Type := ItemRow {
  i_item_id : text;
  i_transaction_id : text;
  i_product_id : text;
  i_quantity : num;
  i_unit_price : num;
  i_discount_percentage : num;
  i_line_total : num
}.

(** A staging row: the columns of the record set plus [loaded_at]. *)
Record staged (R : Type) : Type := Staged {
  payload : R;
  loaded_at : option Z
}.
Arguments Staged {R} payload loaded_at.
Arguments payload {R} s.
Arguments loaded_at {R} s.

Record dim_date_row : Type := DimDateRow {
  dd_date_key : Z;
  dd_full_date : Z;
  dd_year : Z;
  dd_quarter : Z;
  dd_month : Z;
  dd_day : Z;
  dd_month_name : string;
  dd_day_name : string;
  dd_week_of_year : Z;
  dd_is_weekend : bool
}.

Record dim_payment_method_row : Type := DimPaymentMethodRow {
  dpm_payment_method_key : Z;
  dpm_payment_method_name : text;
  dpm_payment_type : text
}.

Record dim_customer_row : Type := DimCustomerRow {
  dc_customer_key : Z;
  dc_customer_id : text;
  dc_full_name : text;
  dc_email : text;
  dc_city : text;
  dc_state : text;
  dc_country : text;
  dc_age_group : text;
  dc_registration_date : option Z;
  dc_effective_date : option Z;
  dc_end_date : option Z;
  dc_is_current : bool
}.

Record dim_product_row : Type := DimProductRow {
  dp_product_key : Z;
  dp_product_id : text;
  dp_product_name : text;
  dp_category : text;
  dp_sub_category : text;
  dp_brand : text;
  dp_price_range : text;
  dp_effective_date : option Z;
  dp_end_date : option Z;
  dp_is_current : bool
}.

Record fact_sales_row : Type := FactSalesRow {
  f_date_key : Z;
  f_customer_key : Z;
  f_product_key : Z;
  f_payment_method_key : Z;
  f_transaction_id : text;
  f_quantity : num;
  f_unit_price : num;
  f_discount_amount : num;
  f_line_total : num;
  f_profit : num
}.

(** Modelled from the spec: the column names of [warehouse.agg_daily_sales]
    (the table's declaration is not part of the scripts; the INSERT fills it
    by position): one row per [date_key] with the distinct transaction count,
    total revenue, total profit and distinct customer count. *)
Record agg_daily_sales_row : Type := AggDailySalesRow {
  a_date_key : Z;
  a_total_transactions : nat;
  a_total_revenue : num;
  a_total_profit : num;
  a_unique_customers : nat
}.

Record staging_schema : Type := StagingSchema {
  staging_customers : list (staged customer_row);
  staging_products : list (staged product_row);
  staging_transactions : list (staged transaction_row);
  staging_transaction_items : list (staged item_row)
}.

Record production_schema : Type := ProductionSchema {
  production_customers : list customer_row;
  production_products : list product_row;
  production_transactions : list transaction_row;
  production_transaction_items : list item_row
}.

(** Modelled from the spec: the surrogate keys of the dimensions are assigned
    by the store at insert time (the frames written by the load carry no key
    column); each dimension has a sequence, which TRUNCATE does not reset. *)
Record warehouse_schema : Type := WarehouseSchema {
  dim_date : list dim_date_row;
  dim_payment_method : list dim_payment_method_row;
  dim_customers : list dim_customer_row;
  dim_products : list dim_product_row;
  fact_sales : list fact_sales_row;
  agg_daily_sales : list agg_daily_sales_row;
  seq_payment_method_key : Z;
  seq_customer_key : Z;
  seq_product_key : Z
}.

Record database : Type := Database {
  staging : staging_schema;
  production : production_schema;
  warehouse : warehouse_schema
}.

Definition set_production (f : production_schema -> production_schema)
    (d : database) : database :=
  Database (staging d) (f (production d)) (warehouse d).

Definition set_warehouse (f : warehouse_schema -> warehouse_schema)
    (d : database) : database :=
  Database (staging d) (production d) (f (warehouse d)).

(** ** The connection: a state and error monad *)

(** [db] is the state seen inside the open transaction, [pc] counts the
    statements sent so far, [fault] is the statement (if any) at which the
    store fails. A computation returns its result, or the exception it
    raised, together with the state the connection was left in. *)
Record conn : Type := Conn {
  db : database;
  pc : nat;
  fault : option nat
}.

Definition M (A : Type) : Type := conn -> result A * conn.

#[global] Instance M_ret : MRet M := fun A a c => (Ok a, c).
#[global] Instance M_bind : MBind M := fun A B f m c =>
  match m c with
  | (Ok a, c') => f a c'
  | (Raise e, c') => (Raise e, c')
  end.

(** Does the store fail at statement [n]? *)
Definition faults_at (flt : option nat) (n : nat) : bool :=
  match flt with
  | Some k => Nat.eqb k n
  | None => false
  end.

(** One round trip to the store. *)
Definition tick : M unit := fun c =>
  if faults_at (fault c) (pc c) then (Raise (StoreError (pc c)), c)
  else (Ok tt, Conn (db c) (S (pc c)) (fault c)).

(** [pd.read_sql(query, conn)] *)
Definition read_sql {A} (query : database -> A) : M A := fun c =>
  match tick c with
  | (Ok _, c') => (Ok (query (db c')), c')
  | (Raise e, c') => (Raise e, c')
  end.

(** [conn.execute(text(stmt))] and [df.to_sql(..., conn, if_exists="append")] *)
Definition execute (stmt : database -> database) : M unit := fun c =>
  match tick c with
  | (Ok _, c') => (Ok tt, Conn (stmt (db c')) (pc c') (fault c'))
  | (Raise e, c') => (Raise e, c')
  end.

(** A Python computation between two statements. *)
Definition py {A} (r : result A) : M A := fun c => (r, c).

(** ROLLBACK restores every table; the sequences that hand out surrogate
    keys are not transactional and keep the values they reached. *)
Definition rollback (committed working : database) : database :=
  set_warehouse (fun w =>
    WarehouseSchema (dim_date w) (dim_payment_method w) (dim_customers w)
      (dim_products w) (fact_sales w) (agg_daily_sales w)
      (seq_payment_method_key (warehouse working))
      (seq_customer_key (warehouse working))
      (seq_product_key (warehouse working))) committed.

(** [with engine.begin() as conn: body]: commit when the body returns,
    roll back when it raises. *)
Definition engine_begin {A} (body : M A) (committed : database)
    (flt : option nat) : result A * database :=
  match body (Conn committed 0 flt) with
  | (Ok a, c) => (Ok a, db c)
  | (Raise e, c) => (Raise e, rollback committed (db c))
  end.

(** * staging_to_production.py *)

Module StagingToProduction.

(** One entry of [summary["records_processed"]]. *)
Record table_summary : Type := TableSummary {
  input : nat;
  output : nat;
  filtered : nat;
  rejected_reasons : list (string * nat)
}.

(** [summary["records_processed"]], the part of the run summary that depends
    on the data. *)
Record summary : Type := Summary {
  s_customers : table_summary;
  s_products : table_summary;
  s_transactions : table_summary;
  s_transaction_items : table_summary
}.

(** *** Queries and statements *)

Definition SELECT_staging_customers (d : database) := staging_customers (staging d).
Definition SELECT_staging_products (d : database) := staging_products (staging d).
Definition SELECT_staging_transactions (d : database) := staging_transactions (staging d).
Definition SELECT_staging_transaction_items (d : database) :=
  staging_transaction_items (staging d).

(** [SELECT transaction_id FROM production.transactions] *)
Definition SELECT_production_transaction_ids (d : database) : list text :=
  t_transaction_id <$> production_transactions (production d).

(** [SELECT item_id FROM production.transaction_items] *)
Definition SELECT_production_item_ids (d : database) : list text :=
  i_item_id <$> production_transaction_items (production d).

Definition TRUNCATE_production_customers : database -> database :=
  set_production (fun p =>
    ProductionSchema [] (production_products p) (production_transactions p)
      (production_transaction_items p)).

Definition TRUNCATE_production_products : database -> database :=
  set_production (fun p =>
    ProductionSchema (production_customers p) [] (production_transactions p)
      (production_transaction_items p)).

Definition to_sql_customers (df : list customer_row) : database -> database :=
  set_production (fun p =>
    ProductionSchema (production_customers p ++ df) (production_products p)
      (production_transactions p) (production_transaction_items p)).

Definition to_sql_products (df : list product_row) : database -> database :=
  set_production (fun p =>
    ProductionSchema (production_customers p) (production_products p ++ df)
      (production_transactions p) (production_transaction_items p)).

Definition to_sql_transactions (df : list transaction_row) : database -> database :=
  set_production (fun p =>
    ProductionSchema (production_customers p) (production_products p)
      (production_transactions p ++ df) (production_transaction_items p)).

Definition to_sql_transaction_items (df : list item_row) : database -> database :=
  set_production (fun p =>
    ProductionSchema (production_customers p) (production_products p)
      (production_transactions p) (production_transaction_items p ++ df)).

(** *** DataFrame operations *)

Definition set_first_name (v : text) (r : customer_row) : customer_row :=
  CustomerRow (c_customer_id r) v (c_last_name r) (c_email r) (c_phone r)
    (c_registration_date r) (c_city r) (c_state r) (c_country r) (c_age_group r).

Definition set_last_name (v : text) (r : customer_row) : customer_row :=
  CustomerRow (c_customer_id r) (c_first_name r) v (c_email r) (c_phone r)
    (c_registration_date r) (c_city r) (c_state r) (c_country r) (c_age_group r).

Definition set_email (v : text) (r : customer_row) : customer_row :=
  CustomerRow (c_customer_id r) (c_first_name r) (c_last_name r) v (c_phone r)
    (c_registration_date r) (c_city r) (c_state r) (c_country r) (c_age_group r).

(** [df[col] = df[col].apply(f)] on a column of Python objects: [f] is called
    on every cell in row order; the first exception aborts. *)
Definition apply_column {R} (get : R -> text) (set : text -> R -> R)
    (f : pyval -> result pyval) (df : list (staged R)) : result (list (staged R)) :=
  rmap (fun r =>
          rbind (f (py_of_text (get (payload r))))
                (fun v => Ok (Staged (set (text_of_py v) (payload r)) (loaded_at r))))
       df.

(** [df.drop(columns=["loaded_at"])] *)
Definition drop_loaded_at {R} (df : list (staged R)) : list R := payload <$> df.

(** [series.isin(values)]: membership, with None equal to None. *)
Definition isin (k : text) (values : list text) : bool := bool_decide (k ∈ values).

(** *** Main ETL *)

Definition main_body : M summary :=
  (* CUSTOMERS (truncate & reload) *)
  customers ← read_sql SELECT_staging_customers;
  customers ← py (apply_column c_first_name set_first_name
                    (fun v => Ok (clean_text v)) customers);
  customers ← py (apply_column c_last_name set_last_name
                    (fun v => Ok (clean_text v)) customers);
  customers ← py (apply_column c_email set_email clean_email customers);
  execute TRUNCATE_production_customers;;
  let customers := drop_loaded_at customers in
  execute (to_sql_customers customers);;
  let sum_customers :=
    TableSummary (length customers) (length customers) 0 [] in
  (* PRODUCTS (truncate & reload) *)
  products ← read_sql SELECT_staging_products;
  let products :=
    filter (fun r => num_gt (p_price (payload r)) (Some 0%Q) = true) products in
  let products :=
    filter (fun r => num_lt (p_cost (payload r)) (p_price (payload r)) = true)
      products in
  execute TRUNCATE_production_products;;
  let products := drop_loaded_at products in
  execute (to_sql_products products);;
  let sum_products :=
    TableSummary (length products) (length products) 0 [] in
  (* TRANSACTIONS (append-only) *)
  transactions ← read_sql SELECT_staging_transactions;
  let transactions :=
    filter (fun r => num_gt (t_total_amount (payload r)) (Some 0%Q) = true)
      transactions in
  existing_txns ← read_sql SELECT_production_transaction_ids;
  let transactions :=
    filter (fun r => negb (isin (t_transaction_id (payload r)) existing_txns) = true)
      transactions in
  let transactions := drop_loaded_at transactions in
  execute (to_sql_transactions transactions);;
  let sum_transactions :=
    TableSummary (length transactions) (length transactions) 0 [] in
  (* TRANSACTION ITEMS (append-only) *)
  items ← read_sql SELECT_staging_transaction_items;
  let items :=
    filter (fun r => num_gt (i_quantity (payload r)) (Some 0%Q) = true) items in
  existing_items ← read_sql SELECT_production_item_ids;
  let items :=
    filter (fun r => negb (isin (i_item_id (payload r)) existing_items) = true)
      items in
  let items := drop_loaded_at items in
  execute (to_sql_transaction_items items);;
  let sum_items := TableSummary (length items) (length items) 0 [] in
  mret (Summary sum_customers sum_products sum_transactions sum_items).

(** [main()]: the summary is written to [transformation_summary.json] after
    the [with] block, so only when the block did not raise. *)
Definition main (d : database) (flt : option nat) : result summary * database :=
  engine_begin main_body d flt.

End StagingToProduction.

(** * datetime.date *)

(** The part of Python's [datetime] module the warehouse load relies on. A
    [date] is represented by its proleptic Gregorian ordinal
    ([date.toordinal()], 1 for 0001-01-01, [MAXORDINAL] for 9999-12-31);
    year, month and day are computed from it as [datetime._ord2ymd] does. *)
Module Calendar.

Definition MAXORDINAL : Z := 3652059.

Definition DAYS_IN_MONTH : list Z :=
  [-1; 31; 28; 31; 30; 31; 30; 31; 31; 30; 31; 30; 31].

Definition DAYS_BEFORE_MONTH : list Z :=
  [-1; 0; 31; 59; 90; 120; 151; 181; 212; 243; 273; 304; 334].

Definition tab (t : list Z) (i : Z) : Z := nth (Z.to_nat i) t (-1).

Definition is_leap (year : Z) : bool :=
  (year mod 4 =? 0) && (negb (year mod 100 =? 0) || (year mod 400 =? 0)).

Definition days_before_year (year : Z) : Z :=
  let y := year - 1 in
  y * 365 + y / 4 - y / 100 + y / 400.

Definition days_before_month (year month : Z) : Z :=
  tab DAYS_BEFORE_MONTH month + (if (2 <? month) && is_leap year then 1 else 0).

Definition ymd2ord (year month day : Z) : Z :=
  days_before_year year + days_before_month year month + day.

Definition DI400Y : Z := 146097.
Definition DI100Y : Z := 36524.
Definition DI4Y : Z := 1461.

Definition ord2ymd (n : Z) : Z * Z * Z :=
  let n := n - 1 in
  let n400 := n / DI400Y in
  let n := n mod DI400Y in
  let year := n400 * 400 + 1 in
  let n100 := n / DI100Y in
  let n := n mod DI100Y in
  let n4 := n / DI4Y in
  let n := n mod DI4Y in
  let n1 := n / 365 in
  let n := n mod 365 in
  let year := year + n100 * 100 + n4 * 4 + n1 in
  if (n1 =? 4) || (n100 =? 4) then (year - 1, 12, 31)
  else
    let leapyear := (n1 =? 3) && (negb (n4 =? 24) || (n100 =? 3)) in
    let month := Z.shiftr (n + 50) 5 in
    let preceding :=
      tab DAYS_BEFORE_MONTH month + (if (2 <? month) && leapyear then 1 else 0) in
    if n <? preceding then
      let month := month - 1 in
      let preceding :=
        preceding
        - (tab DAYS_IN_MONTH month + (if (month =? 2) && leapyear then 1 else 0)) in
      (year, month, n - preceding + 1)
    else (year, month, n - preceding + 1).

Definition year (d : Z) : Z := (ord2ymd d).1.1.
Definition month (d : Z) : Z := (ord2ymd d).1.2.
Definition day (d : Z) : Z := (ord2ymd d).2.

(** [d.weekday()]: Monday is 0, Sunday is 6. *)
Definition weekday (d : Z) : Z := (d + 6) mod 7.

(** [d + timedelta(days=n)] *)
Definition add_days (d n : Z) : result Z :=
  let o := d + n in
  if (0 <? o) && (o <=? MAXORDINAL) then Ok o else Raise OverflowError.

Definition isoweek1monday (y : Z) : Z :=
  let firstday := ymd2ord y 1 1 in
  let firstweekday := (firstday + 6) mod 7 in
  let week1monday := firstday - firstweekday in
  if 3 <? firstweekday then week1monday + 7 else week1monday.

(** [d.isocalendar()[1]] *)
Definition iso_week (d : Z) : Z :=
  let y := year d in
  let week1monday := isoweek1monday y in
  let week := (d - week1monday) / 7 in
  if week <? 0 then (d - isoweek1monday (y - 1)) / 7 + 1
  else if (52 <=? week) && (isoweek1monday (y + 1) <=? d) then 1
  else week + 1.

Definition DAY_NAMES : list string :=
  ["Monday"; "Tuesday"; "Wednesday"; "Thursday"; "Friday"; "Saturday"; "Sunday"]%string.

Definition MONTH_NAMES : list string :=
  [""; "January"; "February"; "March"; "April"; "May"; "June"; "July";
   "August"; "September"; "October"; "November"; "December"]%string.

(** [d.strftime("%A")] and [d.strftime("%B")] in the C locale. *)
Definition day_name (d : Z) : string := nth (Z.to_nat (weekday d)) DAY_NAMES ""%string.
Definition month_name (d : Z) : string := nth (Z.to_nat (month d)) MONTH_NAMES ""%string.

(** [int(d.strftime("%Y%m%d"))] *)
Definition yyyymmdd (d : Z) : Z := year d * 10000 + month d * 100 + day d.

End Calendar.

(** * load_warehouse.py *)

Module LoadWarehouse.

(** *** Warehouse statements *)

Definition TRUNCATE_dim_date : database -> database :=
  set_warehouse (fun w =>
    WarehouseSchema [] (dim_payment_method w) (dim_customers w) (dim_products w)
      (fact_sales w) (agg_daily_sales w)
      (seq_payment_method_key w) (seq_customer_key w) (seq_product_key w)).

Definition to_sql_dim_date (df : list dim_date_row) : database -> database :=
  set_warehouse (fun w =>
    WarehouseSchema (dim_date w ++ df) (dim_payment_method w) (dim_customers w)
      (dim_products w) (fact_sales w) (agg_daily_sales w)
      (seq_payment_method_key w) (seq_customer_key w) (seq_product_key w)).

Definition TRUNCATE_dim_payment_method : database -> database :=
  set_warehouse (fun w =>
    WarehouseSchema (dim_date w) [] (dim_customers w) (dim_products w)
      (fact_sales w) (agg_daily_sales w)
      (seq_payment_method_key w) (seq_customer_key w) (seq_product_key w)).

Definition TRUNCATE_dim_customers : database -> database :=
  set_warehouse (fun w =>
    WarehouseSchema (dim_date w) (dim_payment_method w) [] (dim_products w)
      (fact_sales w) (agg_daily_sales w)
      (seq_payment_method_key w) (seq_customer_key w) (seq_product_key w)).

Definition TRUNCATE_dim_products : database -> database :=
  set_warehouse (fun w =>
    WarehouseSchema (dim_date w) (dim_payment_method w) (dim_customers w) []
      (fact_sales w) (agg_daily_sales w)
      (seq_payment_method_key w) (seq_customer_key w) (seq_product_key w)).

Definition TRUNCATE_fact_sales : database -> database :=
  set_warehouse (fun w =>
    WarehouseSchema (dim_date w) (dim_payment_method w) (dim_customers w)
      (dim_products w) [] (agg_daily_sales w)
      (seq_payment_method_key w) (seq_customer_key w) (seq_product_key w)).

Definition TRUNCATE_agg_daily_sales : database -> database :=
  set_warehouse (fun w =>
    WarehouseSchema (dim_date w) (dim_payment_method w) (dim_customers w)
      (dim_products w) (fact_sales w) []
      (seq_payment_method_key w) (seq_customer_key w) (seq_product_key w)).

(** A frame written to a dimension has no key column: each inserted row
    takes the next value of the dimension's sequence. *)
Definition with_keys {B} (seq : Z) (df : list (Z -> B)) : list B :=
  imap (fun i r => r (seq + Z.of_nat i)) df.

Definition to_sql_dim_payment_method
    (df : list (Z -> dim_payment_method_row)) : database -> database :=
  set_warehouse (fun w =>
    WarehouseSchema (dim_date w)
      (dim_payment_method w ++ with_keys (seq_payment_method_key w) df)
      (dim_customers w) (dim_products w) (fact_sales w) (agg_daily_sales w)
      (seq_payment_method_key w + Z.of_nat (length df))
      (seq_customer_key w) (seq_product_key w)).

Definition to_sql_dim_customers
    (df : list (Z -> dim_customer_row)) : database -> database :=
  set_warehouse (fun w =>
    WarehouseSchema (dim_date w) (dim_payment_method w)
      (dim_customers w ++ with_keys (seq_customer_key w) df)
      (dim_products w) (fact_sales w) (agg_daily_sales w)
      (seq_payment_method_key w)
      (seq_customer_key w + Z.of_nat (length df)) (seq_product_key w)).

Definition to_sql_dim_products
    (df : list (Z -> dim_product_row)) : database -> database :=
  set_warehouse (fun w =>
    WarehouseSchema (dim_date w) (dim_payment_method w) (dim_customers w)
      (dim_products w ++ with_keys (seq_product_key w) df)
      (fact_sales w) (agg_daily_sales w)
      (seq_payment_method_key w) (seq_customer_key w)
      (seq_product_key w + Z.of_nat (length df))).

Definition to_sql_fact_sales (df : list fact_sales_row) : database -> database :=
  set_warehouse (fun w =>
    WarehouseSchema (dim_date w) (dim_payment_method w) (dim_customers w)
      (dim_products w) (fact_sales w ++ df) (agg_daily_sales w)
      (seq_payment_method_key w) (seq_customer_key w) (seq_product_key w)).

(** *** DIM DATE *)

(** The dict appended for [current]. *)
Definition dim_date_entry (current : Z) : dim_date_row :=
  DimDateRow (Calendar.yyyymmdd current) current (Calendar.year current)
    ((Calendar.month current - 1) / 3 + 1) (Calendar.month current)
    (Calendar.day current) (Calendar.month_name current)
    (Calendar.day_name current) (Calendar.iso_week current)
    (5 <=? Calendar.weekday current).

Definition inspect {A} (a : A) : {b : A | a = b} := exist _ a eq_refl.

(** The [while current <= end_date] loop; [dates] is the list built so far. *)
Equations? dates_loop (current end_date : Z) (dates : list dim_date_row)
    : result (list dim_date_row)
    by wf (Z.to_nat (end_date + 1 - current)) lt :=
  dates_loop current end_date dates with decide (current <= end_date) := {
    | right _ := Ok dates
    | left _ with inspect (Calendar.add_days current 1) := {
        | exist _ (Ok next) _ :=
            dates_loop next end_date (dates ++ [dim_date_entry current])
        | exist _ (Raise e) _ := Raise e } }.
Proof.
  unfold Calendar.add_days in e.
  destruct ((0 <? current + 1) && (current + 1 <=? Calendar.MAXORDINAL));
    [injection e as <- | discriminate].
  lia.
Qed.

Definition build_dim_date (start_date end_date : Z) : M unit :=
  dates ← py (dates_loop start_date end_date []);
  execute TRUNCATE_dim_date;;
  execute (to_sql_dim_date dates).

(** *** SQL and pandas operators *)

(** SQL [a = b]: never true on NULL. *)
Definition sql_eq (a b : text) : bool :=
  match a, b with
  | Some x, Some y => bool_decide (x = y)
  | _, _ => false
  end.

(** Arithmetic on nullable numbers (SQL NULL, pandas NaN). *)
Definition num_op (op : Q -> Q -> Q) (a b : num) : num :=
  match a, b with
  | Some x, Some y => Some (op x y)
  | _, _ => None
  end.

(** [a + b] on two columns of Python strings: missing when either is. *)
Definition text_concat (a b : text) : text :=
  match a, b with
  | Some x, Some y => Some (x +:+ y)
  | _, _ => None
  end.

(** [left.merge(right, left_on=lkey, right_on=rkey)], an inner join on equal
    keys in the order of the left frame; pandas matches a missing key with a
    missing key. *)
Definition merge {L R} (lkey : L -> text) (rkey : R -> text)
    (left : list L) (right : list R) : list (L * R) :=
  l ← left; (fun r => (l, r)) <$> filter (fun r => lkey l = rkey r) right.

(** *** DIM PAYMENT METHOD *)

(** [SELECT DISTINCT payment_method FROM production.transactions] *)
Definition SELECT_DISTINCT_payment_method (d : database) : list text :=
  remove_dups (t_payment_method <$> production_transactions (production d)).

Definition payment_type (x : text) : text :=
  if decide (x = Some "Cash on Delivery"%string) then Some "Offline"%string
  else Some "Online"%string.

(** *** DIM CUSTOMERS *)

Definition SELECT_production_customers (d : database) : list customer_row :=
  production_customers (production d).

Definition dim_customer_frame (today : Z) (r : customer_row)
    : Z -> dim_customer_row := fun key =>
  DimCustomerRow key (c_customer_id r)
    (text_concat (text_concat (c_first_name r) (Some " "%string)) (c_last_name r))
    (c_email r) (c_city r) (c_state r) (c_country r) (c_age_group r)
    (c_registration_date r) (Some today) None true.

(** *** DIM PRODUCTS *)

Definition SELECT_production_products (d : database) : list product_row :=
  production_products (production d).

Definition price_range (price : num) : string :=
  if num_lt price (Some 50%Q) then "Budget"
  else if num_lt price (Some 200%Q) then "Mid-range"
  else "Premium".

Definition dim_product_frame (today : Z) (r : product_row)
    : Z -> dim_product_row := fun key =>
  DimProductRow key (p_product_id r) (p_product_name r) (p_category r)
    (p_sub_category r) (p_brand r) (Some (price_range (p_price r)))
    (Some today) None true.

(** *** FACT SALES *)

Record fact_query_row : Type := FactQueryRow {
  q_transaction_id : text;
  q_quantity : num;
  q_unit_price : num;
  q_discount_percentage : num;
  q_line_total : num;
  q_profit : num;
  q_transaction_date : option Z;
  q_payment_method : text;
  q_customer_id : text;
  q_product_id : text
}.

(** The three-table inner join. *)
Definition SELECT_fact (d : database) : list fact_query_row :=
  ti ← production_transaction_items (production d);
  t ← filter (fun t => sql_eq (i_transaction_id ti) (t_transaction_id t) = true)
        (production_transactions (production d));
  p ← filter (fun p => sql_eq (i_product_id ti) (p_product_id p) = true)
        (production_products (production d));
  [FactQueryRow (i_transaction_id ti) (i_quantity ti) (i_unit_price ti)
     (i_discount_percentage ti) (i_line_total ti)
     (num_op Qminus (i_line_total ti) (num_op Qmult (p_cost p) (i_quantity ti)))
     (t_transaction_date t) (t_payment_method t) (t_customer_id t)
     (i_product_id ti)].

(** [lambda d: int(d.strftime("%Y%m%d"))]: None has no [strftime]. *)
Definition date_key_of (d : option Z) : result Z :=
  match d with
  | Some d => Ok (Calendar.yyyymmdd d)
  | None => Raise AttributeError
  end.

Definition discount_amount (r : fact_query_row) : num :=
  num_op Qmult (num_op Qmult (q_unit_price r) (q_quantity r))
    (num_op Qdiv (q_discount_percentage r) (Some 100%Q)).

(** [SELECT customer_key, customer_id FROM warehouse.dim_customers
     WHERE is_current = TRUE] *)
Definition SELECT_current_customer_keys (d : database) : list (Z * text) :=
  (fun r => (dc_customer_key r, dc_customer_id r))
    <$> filter (fun r => dc_is_current r = true) (dim_customers (warehouse d)).

Definition SELECT_current_product_keys (d : database) : list (Z * text) :=
  (fun r => (dp_product_key r, dp_product_id r))
    <$> filter (fun r => dp_is_current r = true) (dim_products (warehouse d)).

Definition SELECT_payment_method_keys (d : database) : list (Z * text) :=
  (fun r => (dpm_payment_method_key r, dpm_payment_method_name r))
    <$> dim_payment_method (warehouse d).

(** The frame after the three merges: the joined row, its [date_key] and
    [discount_amount], and the matched rows of the three dimensions. *)
Definition fact_frame_row : Type :=
  fact_query_row * Z * num * (Z * text) * (Z * text) * (Z * text).

Definition project_fact (x : fact_frame_row) : fact_sales_row :=
  let '(r, date_key, discount, c, p, pm) := x in
  FactSalesRow date_key c.1 p.1 pm.1 (q_transaction_id r) (q_quantity r)
    (q_unit_price r) discount (q_line_total r) (q_profit r).

(** *** AGGREGATES *)

(** The accumulator of one group. *)
Record agg_state : Type := AggState {
  g_transactions : gset string;
  g_revenue : num;
  g_profit : num;
  g_customers : gset Z
}.

Definition agg_init : agg_state := AggState ∅ None None ∅.

(** [SUM]: NULL inputs are skipped, the sum of no value is NULL. *)
Definition sum_step (acc v : num) : num :=
  match v with
  | None => acc
  | Some x => Some (match acc with None => x | Some a => (a + x)%Q end)
  end.

(** [COUNT(DISTINCT ...)] does not count NULL. *)
Definition agg_step (st : agg_state) (r : fact_sales_row) : agg_state :=
  AggState
    (match f_transaction_id r with
     | Some t => {[ t ]} ∪ g_transactions st
     | None => g_transactions st
     end)
    (sum_step (g_revenue st) (f_line_total r))
    (sum_step (g_profit st) (f_profit r))
    ({[ f_customer_key r ]} ∪ g_customers st).

(** [GROUP BY date_key], evaluated as a hash aggregate: one pass over the
    rows in scan order, one accumulator per key. *)
Definition group_by_date_key (rows : list fact_sales_row) : gmap Z agg_state :=
  foldl (fun m r =>
           <[ f_date_key r := agg_step (default agg_init (m !! f_date_key r)) r ]> m)
        ∅ rows.

(** [SELECT date_key, COUNT(DISTINCT transaction_id), SUM(line_total),
    SUM(profit), COUNT(DISTINCT customer_key) ... GROUP BY date_key] *)
Definition daily_sales (rows : list fact_sales_row) : list agg_daily_sales_row :=
  (fun kv => AggDailySalesRow kv.1 (size (g_transactions kv.2)) (g_revenue kv.2)
               (g_profit kv.2) (size (g_customers kv.2)))
    <$> map_to_list (group_by_date_key rows).

Definition SELECT_daily_sales (d : database) : list agg_daily_sales_row :=
  daily_sales (fact_sales (warehouse d)).

(** [INSERT INTO warehouse.agg_daily_sales SELECT ... GROUP BY date_key] *)
Definition INSERT_agg_daily_sales (d : database) : database :=
  set_warehouse (fun w =>
    WarehouseSchema (dim_date w) (dim_payment_method w) (dim_customers w)
      (dim_products w) (fact_sales w)
      (agg_daily_sales w ++ SELECT_daily_sales d)
      (seq_payment_method_key w) (seq_customer_key w) (seq_product_key w)) d.

(** *** MAIN LOAD *)

(** [today] is [datetime.utcnow().date()]. *)
Definition main_body (today : Z) : M unit :=
  (* DIM DATE *)
  build_dim_date (Calendar.ymd2ord 2024 1 1) (Calendar.ymd2ord 2024 12 31);;
  (* DIM PAYMENT METHOD *)
  payment_methods ← read_sql SELECT_DISTINCT_payment_method;
  let payment_methods :=
    (fun x key => DimPaymentMethodRow key x (payment_type x)) <$> payment_methods in
  execute TRUNCATE_dim_payment_method;;
  execute (to_sql_dim_payment_method payment_methods);;
  (* DIM CUSTOMERS *)
  customers ← read_sql SELECT_production_customers;
  execute TRUNCATE_dim_customers;;
  let customers := dim_customer_frame today <$> customers in
  execute (to_sql_dim_customers customers);;
  (* DIM PRODUCTS *)
  products ← read_sql SELECT_production_products;
  let products := dim_product_frame today <$> products in
  execute TRUNCATE_dim_products;;
  execute (to_sql_dim_products products);;
  (* FACT SALES *)
  fact ← read_sql SELECT_fact;
  fact ← py (rmap (fun r => rbind (date_key_of (q_transaction_date r))
                              (fun k => Ok (r, k))) fact);
  let fact := (fun x => (x, discount_amount x.1)) <$> fact in
  customer_keys ← read_sql SELECT_current_customer_keys;
  let fact := merge (fun x => q_customer_id x.1.1) snd fact customer_keys in
  product_keys ← read_sql SELECT_current_product_keys;
  let fact := merge (fun x => q_product_id x.1.1.1) snd fact product_keys in
  payment_method_keys ← read_sql SELECT_payment_method_keys;
  let fact : list fact_frame_row :=
    merge (fun x => q_payment_method x.1.1.1.1) snd fact payment_method_keys in
  let fact := project_fact <$> fact in
  execute TRUNCATE_fact_sales;;
  execute (to_sql_fact_sales fact);;
  (* AGGREGATES *)
  execute TRUNCATE_agg_daily_sales;;
  execute INSERT_agg_daily_sales.

Definition main (today : Z) (d : database) (flt : option nat)
    : result unit * database :=
  engine_begin (main_body today) d flt.

End LoadWarehouse.

(** * Notions used in the statements *)

(** What the three column [apply] calls make of a customers row: names are
    stripped, the email is stripped and lowercased unless it is missing or
    empty, in which case it is missing afterwards. *)
Definition email_clean (c : text) : text :=
  match c with
  | None => None
  | Some EmptyString => None
  | Some s => Some (lower (strip s))
  end.

Definition cleanse_customer (r : customer_row) : customer_row :=
  CustomerRow (c_customer_id r) (strip <$> c_first_name r)
    (strip <$> c_last_name r) (email_clean (c_email r)) (c_phone r)
    (c_registration_date r) (c_city r) (c_state r) (c_country r)
    (c_age_group r).

(** The text normalization as the specification words it: trim the names,
    lowercase and trim the email, null stays null. *)
Definition spec_normalize_customer (r : customer_row) : customer_row :=
  CustomerRow (c_customer_id r) (strip <$> c_first_name r)
    (strip <$> c_last_name r) ((fun s => lower (strip s)) <$> c_email r)
    (c_phone r) (c_registration_date r) (c_city r) (c_state r) (c_country r)
    (c_age_group r).

(** The frames a completed run of the Cleansing Stage writes. *)
Definition cleansed_customers (stg : list (staged customer_row))
    : list customer_row :=
  cleanse_customer <$> (payload <$> stg).

Definition cleansed_products (stg : list (staged product_row))
    : list product_row :=
  payload <$>
    filter (fun r => num_lt (p_cost (payload r)) (p_price (payload r)) = true)
      (filter (fun r => num_gt (p_price (payload r)) (Some 0%Q) = true) stg).

Definition new_transactions (d : database) : list transaction_row :=
  payload <$>
    filter (fun r => negb (StagingToProduction.isin (t_transaction_id (payload r))
                             (t_transaction_id <$> production_transactions (production d)))
                     = true)
      (filter (fun r => num_gt (t_total_amount (payload r)) (Some 0%Q) = true)
         (staging_transactions (staging d))).

Definition new_items (d : database) : list item_row :=
  payload <$>
    filter (fun r => negb (StagingToProduction.isin (i_item_id (payload r))
                             (i_item_id <$> production_transaction_items (production d)))
                     = true)
      (filter (fun r => num_gt (i_quantity (payload r)) (Some 0%Q) = true)
         (staging_transaction_items (staging d))).

(** The business rules. *)
Definition product_ok (r : product_row) : Prop :=
  exists price cost, p_price r = Some price /\ p_cost r = Some cost
                     /\ (0 < price)%Q /\ (cost < price)%Q.

Definition transaction_ok (r : transaction_row) : Prop :=
  exists amount, t_total_amount r = Some amount /\ (0 < amount)%Q.

Definition item_ok (r : item_row) : Prop :=
  exists quantity, i_quantity r = Some quantity /\ (0 < quantity)%Q.

Definition validated (p : production_schema) : Prop :=
  Forall product_ok (production_products p)
  /\ Forall transaction_ok (production_transactions p)
  /\ Forall item_ok (production_transaction_items p).

(** The states of the store the pipeline can be in: production starts empty,
    the bulk loader replaces staging, and the two stages run, completing or
    failing at any statement. *)
Inductive reachable : database -> Prop :=
| reachable_empty stg wh :
    reachable (Database stg (ProductionSchema [] [] [] []) wh)
| reachable_ingest d stg :
    reachable d -> reachable (Database stg (production d) (warehouse d))
| reachable_cleansing d flt :
    reachable d -> reachable (StagingToProduction.main d flt).2
| reachable_load d today flt :
    reachable d -> reachable (LoadWarehouse.main today d flt).2.

(** The contents of all tables (the sequences are not tables). *)
Definition tables (d : database) :=
  (staging d, production d,
   (dim_date (warehouse d), dim_payment_method (warehouse d),
    dim_customers (warehouse d), dim_products (warehouse d),
    fact_sales (warehouse d), agg_daily_sales (warehouse d))).

(** The two stages. *)
Inductive stage : Type :=
| Cleansing
| WarehouseLoad (today : Z).

Definition run_stage (st : stage) (d : database) (flt : option nat)
    : option exn * database :=
  match st with
  | Cleansing =>
      let r := StagingToProduction.main d flt in
      (match r.1 with Ok _ => None | Raise e => Some e end, r.2)
  | WarehouseLoad today =>
      let r := LoadWarehouse.main today d flt in
      (match r.1 with Ok _ => None | Raise e => Some e end, r.2)
  end.

(** A computation that completes under some fault schedule completes with the
    same result when the store never fails. *)
Definition fault_free {A} (m : M A) : Prop :=
  forall c a c', m c = (Ok a, c') ->
    m (Conn (db c) (pc c) None) = (Ok a, Conn (db c') (pc c') None).

(** A computation that keeps a property of the store. *)
Definition keeps {A} (P : database -> Prop) (m : M A) : Prop :=
  forall c r c', P (db c) -> m c = (r, c') -> P (db c').

(** *** Example stores *)

Definition no_warehouse : warehouse_schema :=
  WarehouseSchema [] [] [] [] [] [] 1 1 1.

Definition ex_customer (id : string) (first_name email : text) : customer_row :=
  CustomerRow (Some id) first_name (Some "Lee"%string) email None None None None
    None None.

Definition ex_product (id : string) (price cost : Q) : product_row :=
  ProductRow (Some id) (Some "Widget"%string) None None (Some price) (Some cost)
    None None None.

Definition ex_transaction (id : string) (amount : Q) : transaction_row :=
  TransactionRow (Some id) (Some "CUST0001"%string) (Some 738886) None
    (Some "UPI"%string) None (Some amount).

Definition ex_item (id txn : string) (quantity : Q) : item_row :=
  ItemRow (Some id) (Some txn) (Some "PROD0001"%string) (Some quantity)
    (Some 100%Q) (Some 0%Q) (Some (100 * quantity)%Q).

(** A small snapshot: three customers (one with missing name and email, one
    with empty ones), a valid product and one priced 0, one transaction and
    one item. *)
Definition ex_staging : staging_schema :=
  StagingSchema
    [Staged (ex_customer "CUST0001" (Some "  Ann "%string)
               (Some " Ann.LEE@Example.com "%string)) None;
     Staged (ex_customer "CUST0002" None None) None;
     Staged (ex_customer "CUST0003" (Some ""%string) (Some ""%string)) None]
    [Staged (ex_product "PROD0001" 100 60) None;
     Staged (ex_product "PROD0002" 0 (-1)) None]
    [Staged (ex_transaction "TXN00001" 200) None]
    [Staged (ex_item "ITEM00001" "TXN00001" 2) None].

Definition ex_empty : database :=
  Database ex_staging (ProductionSchema [] [] [] []) no_warehouse.

(** A snapshot in which one transaction and one item appear twice. *)
Definition ex_duplicates : database :=
  Database
    (StagingSchema []
       [Staged (ex_product "PROD0001" 100 60) None]
       [Staged (ex_transaction "TXN00001" 200) None;
        Staged (ex_transaction "TXN00001" 200) None]
       [Staged (ex_item "ITEM00001" "TXN00001" 2) None;
        Staged (ex_item "ITEM00001" "TXN00001" 2) None])
    (ProductionSchema [] [] [] []) no_warehouse.


(** *** Notions for the warehouse load *)

(** The rows of dim_date for the year 2024, which the load always builds. *)
Definition dim_date_2024 : list dim_date_row :=
  LoadWarehouse.dim_date_entry <$> seqZ (Calendar.ymd2ord 2024 1 1) 366.

(** The frame of joined rows with its [date_key] column. *)
Definition keyed_fact (d : database)
    : result (list (LoadWarehouse.fact_query_row * Z)) :=
  rmap (fun r => rbind (LoadWarehouse.date_key_of (LoadWarehouse.q_transaction_date r))
                       (fun k => Ok (r, k)))
       (LoadWarehouse.SELECT_fact d).

(** The store after the four dimensions have been reloaded. *)
Definition loaded_dimensions (today : Z) (d : database) : database :=
  let w := warehouse d in
  let payment_methods :=
    (fun x key => DimPaymentMethodRow key x (LoadWarehouse.payment_type x))
      <$> LoadWarehouse.SELECT_DISTINCT_payment_method d in
  let customers :=
    LoadWarehouse.dim_customer_frame today <$> production_customers (production d) in
  let products :=
    LoadWarehouse.dim_product_frame today <$> production_products (production d) in
  Database (staging d) (production d)
    (WarehouseSchema dim_date_2024
       (LoadWarehouse.with_keys (seq_payment_method_key w) payment_methods)
       (LoadWarehouse.with_keys (seq_customer_key w) customers)
       (LoadWarehouse.with_keys (seq_product_key w) products)
       (fact_sales w) (agg_daily_sales w)
       (seq_payment_method_key w + Z.of_nat (length payment_methods))
       (seq_customer_key w + Z.of_nat (length customers))
       (seq_product_key w + Z.of_nat (length products))).

(** The three merges against the dimensions of [dims], and the projection. *)
Definition assembled_fact (dims : database)
    (keyed : list (LoadWarehouse.fact_query_row * Z)) : list fact_sales_row :=
  LoadWarehouse.project_fact <$>
    LoadWarehouse.merge (fun x => LoadWarehouse.q_payment_method x.1.1.1.1) snd
      (LoadWarehouse.merge (fun x => LoadWarehouse.q_product_id x.1.1.1) snd
         (LoadWarehouse.merge (fun x => LoadWarehouse.q_customer_id x.1.1) snd
            ((fun x => (x, LoadWarehouse.discount_amount x.1)) <$> keyed)
            (LoadWarehouse.SELECT_current_customer_keys dims))
         (LoadWarehouse.SELECT_current_product_keys dims))
      (LoadWarehouse.SELECT_payment_method_keys dims).

(** The store a completed load leaves. *)
Definition loaded (today : Z) (d : database)
    (keyed : list (LoadWarehouse.fact_query_row * Z)) : database :=
  let dims := loaded_dimensions today d in
  let fact := assembled_fact dims keyed in
  set_warehouse (fun w =>
    WarehouseSchema (dim_date w) (dim_payment_method w) (dim_customers w)
      (dim_products w) fact (LoadWarehouse.daily_sales fact)
      (seq_payment_method_key w) (seq_customer_key w) (seq_product_key w)) dims.

(** SQL [SUM] over a column, in scan order. *)
Definition SUM (column : list num) : num := foldl LoadWarehouse.sum_step None column.

(** The sum of the values of a column that are not NULL. *)
Definition exact_sum (column : list num) : Q := foldr Qplus 0%Q (omap id column).

(** The fact rows of one day. *)
Definition date_group (k : Z) (rows : list fact_sales_row) : list fact_sales_row :=
  filter (fun r => f_date_key r = k) rows.

(** The items whose transaction and product exist in production. *)
Definition references_exist (d : database) : Prop :=
  Forall (fun ti =>
            Exists (fun t => LoadWarehouse.sql_eq (i_transaction_id ti)
                               (t_transaction_id t) = true)
              (production_transactions (production d))
            /\ Exists (fun p => LoadWarehouse.sql_eq (i_product_id ti)
                                  (p_product_id p) = true)
                 (production_products (production d)))
    (production_transaction_items (production d)).

(** The customer, product and payment method of a joined row have exactly
    one matching (current) row in their dimensions of [wh]. *)
Definition keys_resolve_once (wh : database) (r : LoadWarehouse.fact_query_row)
    : Prop :=
  length (filter (fun k => LoadWarehouse.q_customer_id r = k.2)
            (LoadWarehouse.SELECT_current_customer_keys wh)) = 1%nat
  /\ length (filter (fun k => LoadWarehouse.q_product_id r = k.2)
               (LoadWarehouse.SELECT_current_product_keys wh)) = 1%nat
  /\ length (filter (fun k => LoadWarehouse.q_payment_method r = k.2)
               (LoadWarehouse.SELECT_payment_method_keys wh)) = 1%nat.

(** Clean input as the specification words it, the dimensions being those
    the load leaves. *)
Definition clean_input_as_specified (today : Z) (d : database) : Prop :=
  references_exist d
  /\ Forall (keys_resolve_once (LoadWarehouse.main today d None).2)
       (LoadWarehouse.SELECT_fact d).

(** Every item matches exactly one row of production.transactions. *)
Definition transactions_resolve_once (d : database) : Prop :=
  Forall (fun ti =>
            length (filter (fun t => LoadWarehouse.sql_eq (i_transaction_id ti)
                                       (t_transaction_id t) = true)
                      (production_transactions (production d))) = 1%nat)
    (production_transaction_items (production d)).

(** Every joined row has a transaction date. *)
Definition dates_present (d : database) : Prop :=
  Forall (fun r => is_Some (LoadWarehouse.q_transaction_date r))
    (LoadWarehouse.SELECT_fact d).

(** Production with one customer, one product, one item, and the item's
    transaction stored twice. *)
Definition ex_double_transaction : database :=
  Database (StagingSchema [] [] [] [])
    (ProductionSchema
       [ex_customer "CUST0001" (Some "Ann"%string) None]
       [ex_product "PROD0001" 100 60]
       [ex_transaction "TXN00001" 200; ex_transaction "TXN00001" 200]
       [ex_item "ITEM00001" "TXN00001" 2])
    no_warehouse.

(** Production after the stage ran on [ex_staging]. *)
Definition ex_production : database :=
  Database ex_staging
    (ProductionSchema
       [ex_customer "CUST0001" (Some "Ann"%string) (Some "ann.lee@example.com"%string)]
       [ex_product "PROD0001" 100 60]
       [ex_transaction "TXN00001" 200]
       [ex_item "ITEM00001" "TXN00001" 2])
    no_warehouse.

(** The same with a transaction that has no date. *)
Definition ex_no_date : database :=
  Database ex_staging
    (ProductionSchema
       [ex_customer "CUST0001" (Some "Ann"%string) None]
       [ex_product "PROD0001" 100 60]
       [TransactionRow (Some "TXN00001"%string) (Some "CUST0001"%string) None
          None (Some "UPI"%string) None (Some 200%Q)]
       [ex_item "ITEM00001" "TXN00001" 2])
    no_warehouse.
(** *** Notions for the text helpers *)

(** A text of whitespace only. *)
Definition whitespace (s : string) : Prop :=
  exists cps, decode s = Some cps /\ Forall (fun c => is_space c = true) cps.

(** No whitespace at the start and none at the end. *)
Definition trimmed_cps (cps : list N) : Prop :=
  (forall c l, cps = c :: l -> is_space c = false)
  /\ (forall c l, cps = l ++ [c] -> is_space c = false).

Definition trimmed (s : string) : Prop :=
  forall cps, decode s = Some cps -> trimmed_cps cps.

(** [t] is [s] without the whitespace at its two ends. *)
Definition trims (s t : string) : Prop :=
  (exists l r, s = l +:+ (t +:+ r) /\ whitespace l /\ whitespace r)
  /\ trimmed t.

(** No capital letter of the ASCII alphabet. *)
Definition no_capital (s : string) : Prop :=
  forall cps, decode s = Some cps ->
    Forall (fun c => ~ (65 <= c <= 90)%N) cps.

(** The lower case of an ASCII character. *)
Definition ascii_lower (c : N) : N :=
  if ((65 <=? c) && (c <=? 90))%N then (c + 32)%N else c.

(** [t] is [s] in lower case: no ASCII capital is left, lowering [t] again
    changes nothing, and a text of ASCII characters is lowered character by
    character. *)
Definition lowers (s t : string) : Prop :=
  no_capital t
  /\ lower t = t
  /\ forall cps, decode s = Some cps -> Forall (fun c => (c < 128)%N) cps ->
       t = encode (ascii_lower <$> cps).

(** The code points that [LOWER] maps. *)
Definition run_keys (run : N * N * N * Z) : list N :=
  let '(first, last, step, _) := run in
  (fun i => (first + N.of_nat i * step)%N)
    <$> seq 0 (S (N.to_nat ((last - first) / step))).

Definition lower_keys : list N := LOWER ≫= run_keys.

(** [x] is its own lower case, and it is not the capital sigma, whose lower
    case depends on its neighbours. *)
Definition lowered (x : N) : Prop :=
  to_lower_full x = [x] /\ x <> 0x3A3%N.

(** What the lower case of [c] may hold: [x] is a code point when [c] is,
    whitespace only when [c] is, no ASCII capital, and its own lower
    case. *)
Definition lower_ok (c x : N) : bool :=
  (implb (c <? 0x110000) (x <? 0x110000)
   && (bool_decide (is_space x = is_space c))
   && negb ((65 <=? x) && (x <=? 90))
   && (to_lower x =? x) && negb (x =? 0x3A3) && negb (x =? 0x130))%N.

(** A name with a no-break space before it and a line separator after it,
    and an address that starts with a capital E with an acute accent. *)
Definition ex_name : string := utf8 0xA0 +:+ ("Ann" +:+ utf8 0x2028).

Definition ex_address : string := " " +:+ (utf8 0xC9 +:+ "ve@Example.com").

(** *** Notions for the normalization of a customers row *)

(** A missing name stays missing, any other name is trimmed. *)
Definition name_normalized (staged out : text) : Prop :=
  match staged with
  | None => out = None
  | Some s => out = Some (strip s) /\ trims s (strip s)
  end.

(** A missing address stays missing, the empty address becomes missing, any
    other address is trimmed and then lowered. *)
Definition email_normalized (staged out : text) : Prop :=
  match staged with
  | None => out = None
  | Some EmptyString => out = None
  | Some e =>
      out = Some (lower (strip e))
      /\ trims e (strip e)
      /\ lowers (strip e) (lower (strip e))
      /\ trimmed (lower (strip e))
  end.

(** [r] is the staged row [st] with its names and its address normalized,
    the other columns being those of [st]. *)
Definition customer_normalized (st r : customer_row) : Prop :=
  c_customer_id r = c_customer_id st
  /\ name_normalized (c_first_name st) (c_first_name r)
  /\ name_normalized (c_last_name st) (c_last_name r)
  /\ email_normalized (c_email st) (c_email r)
  /\ c_phone r = c_phone st
  /\ c_registration_date r = c_registration_date st
  /\ c_city r = c_city st
  /\ c_state r = c_state st
  /\ c_country r = c_country st
  /\ c_age_group r = c_age_group st.

(** *** Notions for the warehouse load *)

(** A sale without a date: an item of production that joins a transaction
    and a product, the transaction having no date. *)
Definition undated_sale (d : database) : Prop :=
  exists ti t p,
    ti ∈ production_transaction_items (production d)
    /\ t ∈ production_transactions (production d)
    /\ p ∈ production_products (production d)
    /\ (exists id, i_transaction_id ti = Some id /\ t_transaction_id t = Some id)
    /\ (exists id, i_product_id ti = Some id /\ p_product_id p = Some id)
    /\ t_transaction_date t = None.

(** [ex_production] with a warehouse left by an earlier load of other data. *)
Definition ex_stale_warehouse : database :=
  Database ex_staging (production ex_production)
    (WarehouseSchema []
       [DimPaymentMethodRow 7 (Some "Cheque"%string) (Some "Online"%string)]
       [] []
       [FactSalesRow 20230101 5 5 7 (Some "TXN99999"%string) (Some 1%Q)
          (Some 10%Q) (Some 0%Q) (Some 10%Q) (Some 4%Q)]
       [AggDailySalesRow 20230101 1 (Some 10%Q) (Some 4%Q) 1]
       1 1 1).

(** * validate_data.py *)

(** The quality report of [scripts/quality_checks/validate_data.py], a
    reader of the production tables. *)
Module ValidateData.

(** [SELECT COUNT( * ) FROM production.customers WHERE email IS NULL] *)
Definition COUNT_null_emails (d : database) : nat :=
  length (filter (fun c => c_email c = None) (production_customers (production d))).

(** [SELECT COUNT( * ) FROM (SELECT email FROM production.customers
     GROUP BY email HAVING COUNT( * ) > 1) x]; GROUP BY puts the rows
    without email into one group. *)
Definition COUNT_duplicate_emails (d : database) : nat :=
  let emails := c_email <$> production_customers (production d) in
  length (filter (fun e => (1 < length (filter (fun e' => e' = e) emails))%nat)
            (remove_dups emails)).

(** [production.transactions t LEFT JOIN production.customers c
     ON t.customer_id = c.customer_id]: a transaction with every customer
    of its id, or once with no customer when there is none. *)
Definition LEFT_JOIN_customers (d : database)
    : list (transaction_row * option customer_row) :=
  t ← production_transactions (production d);
  match filter (fun c => LoadWarehouse.sql_eq (t_customer_id t) (c_customer_id c)
                         = true)
          (production_customers (production d)) with
  | [] => [(t, None)]
  | matching => (fun c => (t, Some c)) <$> matching
  end.

(** [SELECT COUNT( * ) FROM ... WHERE c.customer_id IS NULL] *)
Definition COUNT_orphans (d : database) : nat :=
  length (filter (fun tc => tc.2 ≫= c_customer_id = None) (LEFT_JOIN_customers d)).

(** One entry of [checks]: its status and its count. *)
Record check_result : Type := CheckResult {
  status : string;
  violations : nat
}.

Definition check (count : nat) : check_result :=
  CheckResult (if (count =? 0)%nat then "passed" else "failed") count.

Record report : Type := Report {
  null_checks : check_result;
  duplicate_checks : check_result;
  referential_integrity : check_result;
  data_consistency : check_result;
  overall_quality_score : Z;
  quality_grade : string
}.

Definition grade (score : Z) : string :=
  if 90 <=? score then "A"
  else if 80 <=? score then "B"
  else if 70 <=? score then "C"
  else if 60 <=? score then "D"
  else "F".

(** [run_query]: one statement on a connection of its own. *)
Definition run_query {A} (query : database -> A) : M A := read_sql query.

(** [main()]. The consistency check compares [line_total] with an
    expression whose value depends on the column types of
    production.transaction_items, which the scripts do not declare: its
    count is the query [COUNT_mismatches], left open. *)
Definition main (COUNT_mismatches : database -> nat) : M report :=
  let total_violations := 0%nat in
  nulls ← run_query COUNT_null_emails;
  let total_violations := (total_violations + nulls)%nat in
  duplicates ← run_query COUNT_duplicate_emails;
  let total_violations := (total_violations + duplicates)%nat in
  orphans ← run_query COUNT_orphans;
  let total_violations := (total_violations + orphans)%nat in
  mismatches ← run_query COUNT_mismatches;
  let total_violations := (total_violations + mismatches)%nat in
  let score := Z.max 0 (100 - Z.of_nat total_violations) in
  mret (Report (check nulls) (check duplicates) (check orphans)
          (check mismatches) score (grade score)).

End ValidateData.

(** * ingest_to_staging.py *)

(** The bulk loader of [scripts/ingestion/ingest_to_staging.py]: every file
    of data/raw replaces the content of its staging table, in one
    transaction. *)
Module IngestToStaging.

(** What the run can raise: the missing file, or an error of the store. *)
Inductive error : Type :=
| FileNotFoundError (message : string)
| SQLAlchemyError (e : exn).

Inductive outcome (A : Type) : Type :=
| Returned (a : A)
| Raised (e : error).
Arguments Returned {A} a.
Arguments Raised {A} e.

(** One entry of [summary["tables_loaded"]]. *)
Record entry : Type := Entry {
  rows_loaded : nat;
  status : string;
  error_message : option string
}.

(** The part of the summary that depends on the data: the entries by table
    name and, after a failure, the exception [summary["error"]] is the text
    of. *)
Record summary : Type := Summary {
  tables_loaded : gmap string entry;
  summary_error : option error
}.

(** The files of data/raw as [pd.read_csv] parses them; [None] when the file
    does not exist. *)
Record raw_data : Type := RawData {
  customers_csv : option (list customer_row);
  products_csv : option (list product_row);
  transactions_csv : option (list transaction_row);
  transaction_items_csv : option (list item_row)
}.

(** *** Statements on the staging tables *)

Definition set_staging (f : staging_schema -> staging_schema)
    (d : database) : database :=
  Database (f (staging d)) (production d) (warehouse d).

(** The frames have no [loaded_at] column: the store gives every inserted
    row the value [now] of the column's default. *)
Definition stamp {R} (now : option Z) (df : list R) : list (staged R) :=
  (fun r => Staged r now) <$> df.

Definition TRUNCATE_customers : database -> database :=
  set_staging (fun s =>
    StagingSchema [] (staging_products s) (staging_transactions s)
      (staging_transaction_items s)).

Definition TRUNCATE_products : database -> database :=
  set_staging (fun s =>
    StagingSchema (staging_customers s) [] (staging_transactions s)
      (staging_transaction_items s)).

Definition TRUNCATE_transactions : database -> database :=
  set_staging (fun s =>
    StagingSchema (staging_customers s) (staging_products s) []
      (staging_transaction_items s)).

Definition TRUNCATE_transaction_items : database -> database :=
  set_staging (fun s =>
    StagingSchema (staging_customers s) (staging_products s)
      (staging_transactions s) []).

Definition to_sql_customers (now : option Z) (df : list customer_row)
    : database -> database :=
  set_staging (fun s =>
    StagingSchema (staging_customers s ++ stamp now df) (staging_products s)
      (staging_transactions s) (staging_transaction_items s)).

Definition to_sql_products (now : option Z) (df : list product_row)
    : database -> database :=
  set_staging (fun s =>
    StagingSchema (staging_customers s) (staging_products s ++ stamp now df)
      (staging_transactions s) (staging_transaction_items s)).

Definition to_sql_transactions (now : option Z) (df : list transaction_row)
    : database -> database :=
  set_staging (fun s =>
    StagingSchema (staging_customers s) (staging_products s)
      (staging_transactions s ++ stamp now df) (staging_transaction_items s)).

Definition to_sql_transaction_items (now : option Z) (df : list item_row)
    : database -> database :=
  set_staging (fun s =>
    StagingSchema (staging_customers s) (staging_products s)
      (staging_transactions s) (staging_transaction_items s ++ stamp now df)).

(** [SELECT COUNT( * ) FROM staging.<table>] *)
Definition COUNT_customers (d : database) : nat :=
  length (staging_customers (staging d)).
Definition COUNT_products (d : database) : nat :=
  length (staging_products (staging d)).
Definition COUNT_transactions (d : database) : nat :=
  length (staging_transactions (staging d)).
Definition COUNT_transaction_items (d : database) : nat :=
  length (staging_transaction_items (staging d)).

(** *** Ingestion and validation *)

(** [ingest_table(conn, table_name, csv_file)], [df] being the frame read
    from the file. *)
Definition ingest_table {R} (TRUNCATE : database -> database)
    (to_sql : list R -> database -> database) (df : list R) : M nat :=
  execute TRUNCATE;;
  execute (to_sql df);;
  mret (length df).

(** [validate_staging_load(conn, table_name, expected_count)] *)
Definition validate_staging_load (COUNT : database -> nat)
    (expected_count : nat) : M (bool * nat) :=
  actual_count ← read_sql COUNT;
  mret ((actual_count =? expected_count)%nat, actual_count).

(** *** Main execution *)

(** The state of a run: the connection and [summary["tables_loaded"]], which
    the loop fills as it goes. *)
Record run : Type := Run {
  connection : conn;
  loaded : gmap string entry
}.

Definition I (A : Type) : Type := run -> outcome A * run.

#[global] Instance I_ret : MRet I := fun A a s => (Returned a, s).
#[global] Instance I_bind : MBind I := fun A B f m s =>
  match m s with
  | (Returned a, s') => f a s'
  | (Raised e, s') => (Raised e, s')
  end.

(** A statement sent over the connection. *)
Definition lift {A} (m : M A) : I A := fun s =>
  match m (connection s) with
  | (Ok a, c) => (Returned a, Run c (loaded s))
  | (Raise e, c) => (Raised (SQLAlchemyError e), Run c (loaded s))
  end.

Definition raise {A} (e : error) : I A := fun s => (Raised e, s).

(** [summary["tables_loaded"][key] = value] *)
Definition set_entry (key : string) (value : entry) : I unit := fun s =>
  (Returned tt, Run (connection s) (<[ key := value ]> (loaded s))).

(** The body of the loop for one table; [csv] is the file at [csv_path]. *)
Definition load_one {R} (table file : string) (csv : option (list R))
    (TRUNCATE : database -> database)
    (to_sql : list R -> database -> database)
    (COUNT : database -> nat) : I unit :=
  match csv with
  | None => raise (FileNotFoundError ("Missing file: " +:+ file))
  | Some df =>
      rows_loaded ← lift (ingest_table TRUNCATE to_sql df);
      validation ← lift (validate_staging_load COUNT rows_loaded);
      let valid : bool := fst (validation : bool * nat) in
      set_entry ("staging." +:+ table)
        (Entry rows_loaded
           (if valid then "success" else "failed")
           (if valid then None else Some "Row count mismatch"%string))
  end.

(** The loop over the four tables, in the order of the dict. *)
Definition main_body (raw : raw_data) (now : option Z) : I unit :=
  load_one "customers" "customers.csv" (customers_csv raw)
    TRUNCATE_customers (to_sql_customers now) COUNT_customers;;
  load_one "products" "products.csv" (products_csv raw)
    TRUNCATE_products (to_sql_products now) COUNT_products;;
  load_one "transactions" "transactions.csv" (transactions_csv raw)
    TRUNCATE_transactions (to_sql_transactions now) COUNT_transactions;;
  load_one "transaction_items" "transaction_items.csv"
    (transaction_items_csv raw)
    TRUNCATE_transaction_items (to_sql_transaction_items now)
    COUNT_transaction_items.

(** [main()]: the exception the run raised, if any, the summary written to
    ingestion_summary.json (in the [finally] clause, so in every case) and
    the store after the run. The transaction commits when the loop ends and
    rolls back when it raises. *)
Definition main (raw : raw_data) (now : option Z) (d : database)
    (flt : option nat) : option error * summary * database :=
  match main_body raw now (Run (Conn d 0 flt) ∅) with
  | (Returned _, s) => (None, Summary (loaded s) None, db (connection s))
  | (Raised e, s) =>
      (Some e, Summary (loaded s) (Some e), rollback d (db (connection s)))
  end.

End IngestToStaging.

(** *** Notions for the ingestion *)

(** The number of rows of the file behind an entry of the summary. *)
Definition file_rows (raw : IngestToStaging.raw_data) (key : string)
    : option nat :=
  if decide (key = "staging.customers"%string)
  then length <$> IngestToStaging.customers_csv raw
  else if decide (key = "staging.products"%string)
  then length <$> IngestToStaging.products_csv raw
  else if decide (key = "staging.transactions"%string)
  then length <$> IngestToStaging.transactions_csv raw
  else if decide (key = "staging.transaction_items"%string)
  then length <$> IngestToStaging.transaction_items_csv raw
  else None.

(** Every entry reports a successful load of all rows of its file. *)
Definition entries_ok (raw : IngestToStaging.raw_data)
    (entries : gmap string IngestToStaging.entry) : Prop :=
  forall key e,
    entries !! key = Some e ->
    IngestToStaging.status e = "success"%string
    /\ IngestToStaging.error_message e = None
    /\ file_rows raw key = Some (IngestToStaging.rows_loaded e).

(** A property of the state of a run that a computation keeps, whatever its
    outcome. *)
Definition ingest_keeps {A} (P : IngestToStaging.run -> Prop)
    (m : IngestToStaging.I A) : Prop :=
  forall s r s', P s -> m s = (r, s') -> P s'.

(** The loader leaves production and the warehouse alone, and its entries
    are right. *)
Definition ingest_invariant (raw : IngestToStaging.raw_data) (d : database)
    (s : IngestToStaging.run) : Prop :=
  production (db (IngestToStaging.connection s)) = production d
  /\ warehouse (db (IngestToStaging.connection s)) = warehouse d
  /\ entries_ok raw (IngestToStaging.loaded s).

(** Files for the example snapshot, transactions.csv missing. *)
Definition ex_raw_missing : IngestToStaging.raw_data :=
  IngestToStaging.RawData
    (Some (payload <$> staging_customers ex_staging))
    (Some (payload <$> staging_products ex_staging))
    None
    (Some (payload <$> staging_transaction_items ex_staging)).

(** All four files of the example snapshot. *)
Definition ex_raw : IngestToStaging.raw_data :=
  IngestToStaging.RawData
    (Some (payload <$> staging_customers ex_staging))
    (Some (payload <$> staging_products ex_staging))
    (Some (payload <$> staging_transactions ex_staging))
    (Some (payload <$> staging_transaction_items ex_staging)).

(** * generate_data.py *)

(** The identifiers of [scripts/data_generation/generate_data.py]; the other
    columns of the generated data are random. *)
Module GenerateData.

Fixpoint zeros (n : nat) : string :=
  match n with
  | O => EmptyString
  | S n' => String "0" (zeros n')
  end.

(** [f"{number:0{pad}d}"]: the decimal digits of [number], after its sign
    when it is negative, filled up with zeros to [pad] characters. *)
Definition format_0d (number : Z) (pad : nat) : string :=
  match number with
  | Zneg p =>
      String "-"
        (zeros (pad - 1 - String.length (pretty (Npos p))) +:+ pretty (Npos p))
  | _ =>
      zeros (pad - String.length (pretty (Z.to_N number)))
      +:+ pretty (Z.to_N number)
  end.

Definition generate_id (prefix : string) (number : Z) (pad : nat) : string :=
  prefix +:+ format_0d number pad.

(** The [customer_id] column of [generate_customers()], [count] being
    [customers_count]: [generate_id("CUST", i, 4)] for [i] in
    [range(1, count + 1)]. *)
Definition customer_ids (count : Z) : list string :=
  (fun i => generate_id "CUST" i 4) <$> seqZ 1 count.

(** The [product_id] column of [generate_products()]. *)
Definition product_ids (count : Z) : list string :=
  (fun i => generate_id "PROD" i 4) <$> seqZ 1 count.

(** The [transaction_id] column of the first frame of
    [generate_transactions()]. *)
Definition transaction_ids (count : Z) : list string :=
  (fun i => generate_id "TXN" i 5) <$> seqZ 1 count.

(** The [item_id] column of its second frame, of [count] items: an item is
    numbered [len(items) + 1] when it is appended. *)
Definition item_ids (count : nat) : list string :=
  (fun i => generate_id "ITEM" (Z.of_nat (i + 1)) 5) <$> seq 0 count.

End GenerateData.

(** *** Notions for the identifiers *)

(** The number a string of decimal digits stands for. *)
Definition digit_value (c : ascii) : N := N.of_nat (nat_of_ascii c) - 48.

Fixpoint decimal_value (s : string) : N :=
  match s with
  | EmptyString => 0
  | String c s' =>
      digit_value c * 10 ^ N.of_nat (String.length s') + decimal_value s'
  end.

(** * Python strings *)

Lemma string_app_cons c (s t : string) : String c s +:+ t = String c (s +:+ t).
Proof. reflexivity. Qed.

Lemma string_app_nil_r (s : string) : s +:+ "" = s.
Proof. induction s as [|c s IH]; [done|]. by rewrite string_app_cons, IH. Qed.

Lemma string_app_assoc (s t u : string) : (s +:+ t) +:+ u = s +:+ (t +:+ u).
Proof.
  induction s as [|c s IH]; [done|]. by rewrite !string_app_cons, IH.
Qed.

(** * UTF-8 *)

Lemma decode_cons b0 s1 :
  decode (String b0 s1) =
  let n0 := N_of_ascii b0 in
  if (n0 <? 0x80)%N then cons n0 <$> decode s1
  else if (n0 <? 0xC0)%N then None
  else if (n0 <? 0xE0)%N then
    match s1 with
    | String b1 s2 =>
        match continuation b1 with
        | Some n1 =>
            let c := ((n0 - 0xC0) * 0x40 + n1)%N in
            if (0x80 <=? c)%N then cons c <$> decode s2 else None
        | None => None
        end
    | _ => None
    end
  else if (n0 <? 0xF0)%N then
    match s1 with
    | String b1 (String b2 s3) =>
        match continuation b1, continuation b2 with
        | Some n1, Some n2 =>
            let c := ((n0 - 0xE0) * 0x1000 + n1 * 0x40 + n2)%N in
            if (0x800 <=? c)%N then cons c <$> decode s3 else None
        | _, _ => None
        end
    | _ => None
    end
  else if (n0 <? 0xF8)%N then
    match s1 with
    | String b1 (String b2 (String b3 s4)) =>
        match continuation b1, continuation b2, continuation b3 with
        | Some n1, Some n2, Some n3 =>
            let c :=
              ((n0 - 0xF0) * 0x40000 + n1 * 0x1000 + n2 * 0x40 + n3)%N in
            if ((0x10000 <=? c) && (c <? 0x110000))%N
            then cons c <$> decode s4 else None
        | _, _, _ => None
        end
    | _ => None
    end
  else None.
Proof. reflexivity. Qed.

Lemma continuation_byte (n : N) :
  (n < 0x40)%N -> continuation (ascii_of_N (0x80 + n)) = Some n.
Proof.
  intros Hn. unfold continuation. rewrite N_ascii_embedding by lia.
  destruct (N.leb_spec 0x80 (0x80 + n)); [|lia].
  destruct (N.ltb_spec (0x80 + n) 0xC0); [|lia].
  simpl. f_equal. lia.
Qed.

Lemma decode_utf8 (c : N) (s : string) :
  (c < 0x110000)%N -> decode (utf8 c +:+ s) = cons c <$> decode s.
Proof.
  intros Hc. unfold utf8.
  destruct (N.ltb_spec c 0x80) as [H1|H1].
  { rewrite string_app_cons, decode_cons. cbv zeta.
    rewrite N_ascii_embedding by lia.
    destruct (N.ltb_spec c 0x80); [done|lia]. }
  destruct (N.ltb_spec c 0x800) as [H2|H2].
  { rewrite !string_app_cons, decode_cons. cbv zeta.
    assert (c / 0x40 < 0x20)%N by (apply N.Div0.div_lt_upper_bound; lia).
    assert (2 <= c / 0x40)%N by (apply N.div_le_lower_bound; lia).
    rewrite N_ascii_embedding by lia.
    destruct (N.ltb_spec (0xC0 + c / 0x40) 0x80); [lia|].
    destruct (N.ltb_spec (0xC0 + c / 0x40) 0xC0); [lia|].
    destruct (N.ltb_spec (0xC0 + c / 0x40) 0xE0); [|lia].
    rewrite continuation_byte by (apply N.mod_lt; lia).
    replace ((0xC0 + c / 0x40 - 0xC0) * 0x40 + c mod 0x40)%N with c.
    - destruct (N.leb_spec 0x80 c); [done|lia].
    - pose proof (N.div_mod c 0x40 ltac:(lia)). lia. }
  destruct (N.ltb_spec c 0x10000) as [H3|H3].
  { rewrite !string_app_cons, decode_cons. cbv zeta.
    assert (c / 0x1000 < 0x10)%N by (apply N.Div0.div_lt_upper_bound; lia).
    pose proof (N.le_0_l (c / 0x1000)).
    rewrite N_ascii_embedding by lia.
    destruct (N.ltb_spec (0xE0 + c / 0x1000) 0x80); [lia|].
    destruct (N.ltb_spec (0xE0 + c / 0x1000) 0xC0); [lia|].
    destruct (N.ltb_spec (0xE0 + c / 0x1000) 0xE0); [lia|].
    destruct (N.ltb_spec (0xE0 + c / 0x1000) 0xF0); [|lia].
    rewrite !continuation_byte by (apply N.mod_lt; lia).
    replace ((0xE0 + c / 0x1000 - 0xE0) * 0x1000 + c / 0x40 mod 0x40 * 0x40
             + c mod 0x40)%N with c.
    - destruct (N.leb_spec 0x800 c); [done|lia].
    - pose proof (N.div_mod c 0x40 ltac:(lia)).
      pose proof (N.div_mod (c / 0x40) 0x40 ltac:(lia)).
      replace (c / 0x1000)%N with (c / 0x40 / 0x40)%N
        by (rewrite N.Div0.div_div; done).
      generalize dependent (c / 0x40 / 0x40)%N.
      generalize dependent ((c / 0x40) mod 0x40)%N.
      generalize dependent (c / 0x40)%N.
      generalize dependent (c mod 0x40)%N. intros. lia. }
  destruct (N.ltb_spec c 0x110000) as [H4|H4]; [|lia].
  rewrite !string_app_cons, decode_cons. cbv zeta.
  assert (c / 0x40000 < 0x5)%N by (apply N.Div0.div_lt_upper_bound; lia).
  pose proof (N.le_0_l (c / 0x40000)).
  rewrite N_ascii_embedding by lia.
  destruct (N.ltb_spec (0xF0 + c / 0x40000) 0x80); [lia|].
  destruct (N.ltb_spec (0xF0 + c / 0x40000) 0xC0); [lia|].
  destruct (N.ltb_spec (0xF0 + c / 0x40000) 0xE0); [lia|].
  destruct (N.ltb_spec (0xF0 + c / 0x40000) 0xF0); [lia|].
  destruct (N.ltb_spec (0xF0 + c / 0x40000) 0xF8); [|lia].
  rewrite !continuation_byte by (apply N.mod_lt; lia).
  replace ((0xF0 + c / 0x40000 - 0xF0) * 0x40000 + c / 0x1000 mod 0x40 * 0x1000
           + c / 0x40 mod 0x40 * 0x40 + c mod 0x40)%N with c.
  - destruct (N.leb_spec 0x10000 c); [|lia].
    destruct (N.ltb_spec c 0x110000); [done|lia].
  - pose proof (N.div_mod c 0x40 ltac:(lia)).
    pose proof (N.div_mod (c / 0x40) 0x40 ltac:(lia)).
    pose proof (N.div_mod (c / 0x40 / 0x40) 0x40 ltac:(lia)).
    replace (c / 0x1000)%N with (c / 0x40 / 0x40)%N
      by (rewrite N.Div0.div_div; done).
    replace (c / 0x40000)%N with (c / 0x40 / 0x40 / 0x40)%N
      by (rewrite !N.Div0.div_div; done).
    generalize dependent (c / 0x40 / 0x40 / 0x40)%N.
    generalize dependent ((c / 0x40 / 0x40) mod 0x40)%N.
    generalize dependent (c / 0x40 / 0x40)%N.
    generalize dependent ((c / 0x40) mod 0x40)%N.
    generalize dependent (c / 0x40)%N.
    generalize dependent (c mod 0x40)%N. intros. lia.
Qed.

Lemma encode_app (l1 l2 : list N) : encode (l1 ++ l2) = encode l1 +:+ encode l2.
Proof.
  induction l1 as [|c l1 IH]; [done|].
  cbn [encode app]. by rewrite IH, string_app_assoc.
Qed.

Lemma decode_encode_app (l : list N) (s : string) :
  Forall (fun c => (c < 0x110000)%N) l ->
  decode (encode l +:+ s) = (l ++.) <$> decode s.
Proof.
  induction 1 as [|c l Hc _ IH]; cbn [encode].
  - change ("" +:+ s) with s. by destruct (decode s).
  - rewrite string_app_assoc, decode_utf8, IH by done. by destruct (decode s).
Qed.

Lemma decode_encode (l : list N) :
  Forall (fun c => (c < 0x110000)%N) l -> decode (encode l) = Some l.
Proof.
  intros H. rewrite <- (string_app_nil_r (encode l)), decode_encode_app by done.
  cbn [decode fmap option_fmap option_map]. by rewrite app_nil_r.
Qed.

Lemma continuation_Some b n :
  continuation b = Some n -> (n < 0x40)%N /\ N_of_ascii b = (0x80 + n)%N.
Proof.
  unfold continuation.
  destruct (N.leb_spec 0x80 (N_of_ascii b)); [|done].
  destruct (N.ltb_spec (N_of_ascii b) 0xC0); [|done].
  simpl. intros [= <-]. lia.
Qed.

Lemma utf8_2 (a n1 : N) :
  (a < 0x20)%N -> (n1 < 0x40)%N -> (0x80 <= a * 0x40 + n1)%N ->
  utf8 (a * 0x40 + n1)
  = String (ascii_of_N (0xC0 + a)) (String (ascii_of_N (0x80 + n1)) "").
Proof.
  intros Ha H1 Hc. unfold utf8.
  destruct (N.ltb_spec (a * 0x40 + n1) 0x80); [lia|].
  destruct (N.ltb_spec (a * 0x40 + n1) 0x800); [|lia].
  assert ((a * 0x40 + n1) / 0x40 = a)%N as ->
    by (symmetry; apply (N.div_unique _ _ _ n1); lia).
  assert ((a * 0x40 + n1) mod 0x40 = n1)%N as ->
    by (symmetry; apply (N.mod_unique _ _ a); lia).
  done.
Qed.

Lemma utf8_3 (a n1 n2 : N) :
  (a < 0x10)%N -> (n1 < 0x40)%N -> (n2 < 0x40)%N ->
  (0x800 <= a * 0x1000 + n1 * 0x40 + n2)%N ->
  utf8 (a * 0x1000 + n1 * 0x40 + n2)
  = String (ascii_of_N (0xE0 + a))
      (String (ascii_of_N (0x80 + n1)) (String (ascii_of_N (0x80 + n2)) "")).
Proof.
  intros Ha H1 H2 Hc. unfold utf8. set (c := (a * 0x1000 + n1 * 0x40 + n2)%N).
  destruct (N.ltb_spec c 0x80); [lia|].
  destruct (N.ltb_spec c 0x800); [lia|].
  destruct (N.ltb_spec c 0x10000); [|lia].
  assert (c / 0x1000 = a)%N as ->
    by (symmetry; apply (N.div_unique _ _ _ (n1 * 0x40 + n2)); lia).
  assert (c / 0x40 = a * 0x40 + n1)%N as ->
    by (symmetry; apply (N.div_unique _ _ _ n2); lia).
  assert ((a * 0x40 + n1) mod 0x40 = n1)%N as ->
    by (symmetry; apply (N.mod_unique _ _ a); lia).
  assert (c mod 0x40 = n2)%N as ->
    by (symmetry; apply (N.mod_unique _ _ (a * 0x40 + n1)); lia).
  done.
Qed.

Lemma utf8_4 (a n1 n2 n3 : N) :
  (n1 < 0x40)%N -> (n2 < 0x40)%N -> (n3 < 0x40)%N ->
  (0x10000 <= a * 0x40000 + n1 * 0x1000 + n2 * 0x40 + n3)%N ->
  (a * 0x40000 + n1 * 0x1000 + n2 * 0x40 + n3 < 0x110000)%N ->
  utf8 (a * 0x40000 + n1 * 0x1000 + n2 * 0x40 + n3)
  = String (ascii_of_N (0xF0 + a))
      (String (ascii_of_N (0x80 + n1))
         (String (ascii_of_N (0x80 + n2)) (String (ascii_of_N (0x80 + n3)) ""))).
Proof.
  intros H1 H2 H3 Hc Hc'. unfold utf8.
  set (c := (a * 0x40000 + n1 * 0x1000 + n2 * 0x40 + n3)%N) in *.
  destruct (N.ltb_spec c 0x80); [lia|].
  destruct (N.ltb_spec c 0x800); [lia|].
  destruct (N.ltb_spec c 0x10000); [lia|].
  destruct (N.ltb_spec c 0x110000); [|lia].
  assert (c / 0x40000 = a)%N as ->
    by (symmetry; apply (N.div_unique _ _ _ (n1 * 0x1000 + n2 * 0x40 + n3)); lia).
  assert (c / 0x1000 = a * 0x40 + n1)%N as ->
    by (symmetry; apply (N.div_unique _ _ _ (n2 * 0x40 + n3)); lia).
  assert (c / 0x40 = a * 0x1000 + n1 * 0x40 + n2)%N as ->
    by (symmetry; apply (N.div_unique _ _ _ n3); lia).
  assert ((a * 0x40 + n1) mod 0x40 = n1)%N as ->
    by (symmetry; apply (N.mod_unique _ _ a); lia).
  assert ((a * 0x1000 + n1 * 0x40 + n2) mod 0x40 = n2)%N as ->
    by (symmetry; apply (N.mod_unique _ _ (a * 0x40 + n1)); lia).
  assert (c mod 0x40 = n3)%N as ->
    by (symmetry; apply (N.mod_unique _ _ (a * 0x1000 + n1 * 0x40 + n2)); lia).
  done.
Qed.

Lemma ascii_of_byte (b : ascii) (n : N) : N_of_ascii b = n -> ascii_of_N n = b.
Proof. intros <-. apply ascii_N_embedding. Qed.

(** A string that decodes is the encoding of its code points. *)
Lemma encode_decode (s : string) (cps : list N) :
  decode s = Some cps ->
  encode cps = s /\ Forall (fun c => (c < 0x110000)%N) cps.
Proof.
  remember (String.length s) as n eqn:Hn. revert s cps Hn.
  induction n as [n IH] using lt_wf_ind. intros s cps Hn.
  destruct s as [|b0 s1]; [by intros [= <-]|].
  rewrite decode_cons. cbv zeta.
  pose proof (N_ascii_bounded b0) as Hb0.
  destruct (N.ltb_spec (N_of_ascii b0) 0x80) as [H0|H0].
  { destruct (decode s1) as [l|] eqn:E; [|done]. intros [= <-].
    destruct (IH (String.length s1) ltac:(simpl in Hn; lia) s1 l eq_refl E)
      as [<- Hl].
    split; [|constructor; [lia|done]].
    simpl. unfold utf8. destruct (N.ltb_spec (N_of_ascii b0) 0x80); [|lia].
    by rewrite ascii_N_embedding. }
  destruct (N.ltb_spec (N_of_ascii b0) 0xC0) as [H1|H1]; [done|].
  destruct (N.ltb_spec (N_of_ascii b0) 0xE0) as [H2|H2].
  { destruct s1 as [|b1 s2]; [done|].
    destruct (continuation b1) as [n1|] eqn:E1; [|done].
    apply continuation_Some in E1 as [Hn1 E1].
    destruct (N.leb_spec 0x80 ((N_of_ascii b0 - 0xC0) * 0x40 + n1)); [|done].
    destruct (decode s2) as [l|] eqn:E; [|done]. intros [= <-].
    destruct (IH (String.length s2) ltac:(simpl in Hn; lia) s2 l eq_refl E)
      as [<- Hl].
    split; [|constructor; [lia|done]].
    simpl. rewrite utf8_2 by lia.
    rewrite (ascii_of_byte b0), (ascii_of_byte b1) by lia. done. }
  destruct (N.ltb_spec (N_of_ascii b0) 0xF0) as [H3|H3].
  { destruct s1 as [|b1 [|b2 s3]]; [done|done|].
    destruct (continuation b1) as [n1|] eqn:E1; [|done].
    destruct (continuation b2) as [n2|] eqn:E2; [|done].
    apply continuation_Some in E1 as [Hn1 E1].
    apply continuation_Some in E2 as [Hn2 E2].
    destruct (N.leb_spec 0x800
                ((N_of_ascii b0 - 0xE0) * 0x1000 + n1 * 0x40 + n2)); [|done].
    destruct (decode s3) as [l|] eqn:E; [|done]. intros [= <-].
    destruct (IH (String.length s3) ltac:(simpl in Hn; lia) s3 l eq_refl E)
      as [<- Hl].
    split; [|constructor; [lia|done]].
    simpl. rewrite utf8_3 by lia.
    rewrite (ascii_of_byte b0), (ascii_of_byte b1), (ascii_of_byte b2) by lia.
    done. }
  destruct (N.ltb_spec (N_of_ascii b0) 0xF8) as [H4|H4]; [|done].
  destruct s1 as [|b1 [|b2 [|b3 s4]]]; [done|done|done|].
  destruct (continuation b1) as [n1|] eqn:E1; [|done].
  destruct (continuation b2) as [n2|] eqn:E2; [|by destruct (continuation b3)].
  destruct (continuation b3) as [n3|] eqn:E3; [|done].
  apply continuation_Some in E1 as [Hn1 E1].
  apply continuation_Some in E2 as [Hn2 E2].
  apply continuation_Some in E3 as [Hn3 E3].
  set (c := ((N_of_ascii b0 - 0xF0) * 0x40000 + n1 * 0x1000 + n2 * 0x40 + n3)%N).
  destruct (N.leb_spec 0x10000 c); [|done].
  destruct (N.ltb_spec c 0x110000); [|done]. simpl.
  destruct (decode s4) as [l|] eqn:E; [|done]. intros [= <-].
  destruct (IH (String.length s4) ltac:(simpl in Hn; lia) s4 l eq_refl E)
    as [<- Hl].
  split; [|constructor; [lia|done]].
  simpl. unfold c. rewrite utf8_4 by (fold c; lia).
  rewrite (ascii_of_byte b0), (ascii_of_byte b1), (ascii_of_byte b2),
    (ascii_of_byte b3) by lia.
  done.
Qed.

Lemma decode_app (s t : string) (l1 l2 : list N) :
  decode s = Some l1 -> decode t = Some l2 -> decode (s +:+ t) = Some (l1 ++ l2).
Proof.
  intros [<- H1]%encode_decode H2. by rewrite decode_encode_app, H2.
Qed.

Lemma encode_empty (l : list N) :
  Forall (fun c => (c < 0x110000)%N) l -> encode l = "" -> l = [].
Proof.
  intros H%decode_encode E. rewrite E in H. by injection H.
Qed.

(** ** [strip] *)

Lemma lstrip_split (l : list N) :
  exists ws, l = ws ++ lstrip l /\ Forall (fun c => is_space c = true) ws.
Proof.
  induction l as [|c l (ws & IH & Hws)]; [by exists []|].
  cbn [lstrip]. destruct (is_space c) eqn:Hc.
  - exists (c :: ws). split; [by rewrite IH at 1|by constructor].
  - by exists [].
Qed.

Lemma lstrip_head (l : list N) c l' : lstrip l = c :: l' -> is_space c = false.
Proof.
  induction l as [|x l IH]; [done|]. cbn [lstrip].
  destruct (is_space x) eqn:Hx; [done|]. by intros [= <- _].
Qed.

Lemma lstrip_fixed (l : list N) :
  (forall c l', l = c :: l' -> is_space c = false) -> lstrip l = l.
Proof.
  destruct l as [|c l]; [done|]. intros H. cbn [lstrip].
  by rewrite (H c l eq_refl).
Qed.

Lemma rstrip_split (l : list N) :
  exists ws, l = rstrip l ++ ws /\ Forall (fun c => is_space c = true) ws.
Proof.
  destruct (lstrip_split (reverse l)) as (ws & H & Hws).
  exists (reverse ws). split; [|by apply Forall_reverse].
  unfold rstrip. by rewrite <- reverse_app, <- H, reverse_involutive.
Qed.

Lemma rstrip_last (l : list N) c l' :
  rstrip l = l' ++ [c] -> is_space c = false.
Proof.
  unfold rstrip. intros H. apply (f_equal reverse) in H.
  rewrite reverse_involutive, reverse_app in H.
  by apply lstrip_head in H.
Qed.

Lemma rstrip_fixed (l : list N) :
  (forall c l', l = l' ++ [c] -> is_space c = false) -> rstrip l = l.
Proof.
  intros H. unfold rstrip. rewrite lstrip_fixed; [apply reverse_involutive|].
  intros c l' E. apply (H c (reverse l')).
  by rewrite <- (reverse_involutive l), E, reverse_cons.
Qed.

Lemma rstrip_head (l : list N) c l' :
  (forall c l', l = c :: l' -> is_space c = false) ->
  rstrip l = c :: l' -> is_space c = false.
Proof.
  intros H E. destruct (rstrip_split l) as (ws & Hl & _).
  rewrite E in Hl. by apply (H c (l' ++ ws)).
Qed.

Lemma strip_cps_split (l : list N) :
  exists ws1 ws2,
    l = ws1 ++ rstrip (lstrip l) ++ ws2
    /\ Forall (fun c => is_space c = true) ws1
    /\ Forall (fun c => is_space c = true) ws2.
Proof.
  destruct (lstrip_split l) as (ws1 & H1 & Hws1).
  destruct (rstrip_split (lstrip l)) as (ws2 & H2 & Hws2).
  exists ws1, ws2. by rewrite <- H2.
Qed.

Lemma strip_cps_trimmed (l : list N) : trimmed_cps (rstrip (lstrip l)).
Proof.
  split.
  - intros c l'. apply rstrip_head. intros c' l''. apply lstrip_head.
  - intros c l'. apply rstrip_last.
Qed.

Lemma trimmed_cps_strip (l : list N) : trimmed_cps l -> rstrip (lstrip l) = l.
Proof.
  intros [H1 H2]. rewrite (lstrip_fixed l H1). by apply rstrip_fixed.
Qed.

Lemma strip_cps_empty (l : list N) :
  rstrip (lstrip l) = [] <-> Forall (fun c => is_space c = true) l.
Proof.
  split.
  - intros H. destruct (strip_cps_split l) as (ws1 & ws2 & Hl & H1 & H2).
    rewrite H in Hl. rewrite Hl. by apply Forall_app.
  - intros H. assert (lstrip l = []) as ->; [|done].
    induction H as [|c l Hc _ IH]; [done|]. cbn [lstrip]. by rewrite Hc.
Qed.

Lemma strip_decode (s : string) (cps : list N) :
  decode s = Some cps ->
  strip s = encode (rstrip (lstrip cps))
  /\ decode (strip s) = Some (rstrip (lstrip cps)).
Proof.
  intros H. unfold strip. rewrite H. split; [done|].
  apply encode_decode in H as [_ H]. apply decode_encode.
  destruct (strip_cps_split cps) as (ws1 & ws2 & Hl & _).
  rewrite Hl in H. by apply Forall_app in H as [_ [H _]%Forall_app].
Qed.

Lemma strip_undecoded (s : string) : decode s = None -> strip s = s.
Proof. intros H. unfold strip. by rewrite H. Qed.

Lemma whitespace_empty : whitespace "".
Proof. by exists []. Qed.

(** [strip s] is [s] without the whitespace at its two ends. *)
Lemma strip_trims (s : string) : trims s (strip s).
Proof.
  destruct (decode s) as [cps|] eqn:E.
  - destruct (strip_decode s cps E) as [Hs Hd].
    pose proof (encode_decode s cps E) as [Hcps Hv].
    destruct (strip_cps_split cps) as (ws1 & ws2 & Hl & H1 & H2).
    rewrite Hl in Hv. apply Forall_app in Hv as [Hv1 [_ Hv2]%Forall_app].
    split.
    + exists (encode ws1), (encode ws2). split; [|split].
      * by rewrite Hs, <- !encode_app, <- Hl.
      * exists ws1. by rewrite decode_encode.
      * exists ws2. by rewrite decode_encode.
    + intros l. rewrite Hd. intros [= <-]. apply strip_cps_trimmed.
  - rewrite (strip_undecoded s E). split.
    + exists "", "". rewrite string_app_nil_r.
      split; [done|]. split; apply whitespace_empty.
    + intros l. by rewrite E.
Qed.

Lemma trimmed_strip (s : string) : trimmed s -> strip s = s.
Proof.
  intros H. destruct (decode s) as [cps|] eqn:E.
  - unfold strip. rewrite E, (trimmed_cps_strip cps (H cps E)).
    by apply encode_decode in E as [-> _].
  - by apply strip_undecoded.
Qed.

Lemma strip_idempotent (s : string) : strip (strip s) = strip s.
Proof. apply trimmed_strip, strip_trims. Qed.

Lemma strip_empty_iff (s : string) : strip s = "" <-> whitespace s.
Proof.
  split.
  - intros H. destruct (decode s) as [cps|] eqn:E.
    + exists cps. split; [done|]. apply strip_cps_empty.
      destruct (strip_decode s cps E) as [_ Hd]. rewrite H in Hd.
      by injection Hd.
    + rewrite (strip_undecoded s E) in H. by rewrite H in E.
  - intros (cps & E & H). destruct (strip_decode s cps E) as [-> _].
    by apply strip_cps_empty in H as ->.
Qed.

(** ** [lower] *)

Lemma in_run_keys (c : N) (run : N * N * N * Z) :
  in_run c run = true -> c ∈ run_keys run.
Proof.
  destruct run as [[[first last] step] delta]. unfold in_run, run_keys.
  intros [[H1%N.leb_le H2%N.leb_le]%andb_true_iff H3%N.eqb_eq]%andb_true_iff.
  apply list_elem_of_fmap. exists (N.to_nat ((c - first) / step)). split.
  - rewrite N2Nat.id.
    pose proof (N.Div0.div_mod (c - first) step) as E. rewrite H3 in E. lia.
  - apply elem_of_seq.
    assert ((c - first) / step <= (last - first) / step)%N
      by (apply N.Div0.div_le_mono; lia).
    revert H. generalize ((c - first) / step)%N ((last - first) / step)%N. lia.
Qed.

Lemma to_lower_key (c : N) : to_lower c <> c -> c ∈ lower_keys.
Proof.
  unfold to_lower. destruct (find (in_run c) LOWER) as [run|] eqn:E; [|done].
  intros _. apply find_some in E as [Hin Hrun].
  apply list_elem_of_bind. exists run. split; [by apply in_run_keys|].
  by apply list_elem_of_In.
Qed.

Lemma lower_keys_forall (p : N -> bool) :
  forallb p lower_keys = true -> forall c, to_lower c <> c -> p c = true.
Proof.
  intros H c Hc%to_lower_key. rewrite forallb_forall in H.
  by apply H, list_elem_of_In.
Qed.

Lemma N_range_forall (p : N -> bool) (a n : nat) :
  forallb p (N.of_nat <$> seq a n) = true ->
  forall c, (a <= N.to_nat c < a + n)%nat -> p c = true.
Proof.
  intros H c Hc. rewrite forallb_forall in H. apply H, list_elem_of_In.
  apply list_elem_of_fmap. exists (N.to_nat c).
  split; [by rewrite N2Nat.id|]. by apply elem_of_seq.
Qed.

Lemma to_lower_capital (c : N) : (65 <= c <= 90)%N -> to_lower c <> c.
Proof.
  intros Hc.
  assert (negb (to_lower c =? c)%N = true) as H.
  { apply (N_range_forall (fun c => negb (to_lower c =? c)%N) 65 26);
      [vm_compute; reflexivity|lia]. }
  intros E. by rewrite E, N.eqb_refl in H.
Qed.

Lemma lower_ok_intro (c x : N) :
  ((c < 0x110000)%N -> (x < 0x110000)%N) ->
  is_space x = is_space c ->
  ~ (65 <= x <= 90)%N ->
  to_lower x = x -> x <> 0x3A3%N -> x <> 0x130%N ->
  lower_ok c x = true.
Proof.
  intros H1 H2 H3 H4 H5 H6. unfold lower_ok.
  rewrite !andb_true_iff, !negb_true_iff. repeat split.
  - destruct (N.ltb_spec c 0x110000); [|done]. by apply N.ltb_lt, H1.
  - by apply bool_decide_eq_true.
  - destruct (N.leb_spec 65 x); [|done]. destruct (N.leb_spec x 90); [lia|done].
  - by apply N.eqb_eq.
  - by apply N.eqb_neq.
  - by apply N.eqb_neq.
Qed.

Lemma to_lower_ok (c : N) :
  c <> 0x130%N -> lower_ok c (to_lower c) = true.
Proof.
  intros H130. destruct (N.eq_dec (to_lower c) c) as [E|E].
  - rewrite E. apply lower_ok_intro; try done.
    + intros Hcap%to_lower_capital. done.
    + intros ->. revert E. vm_compute. discriminate.
  - assert (forallb (fun c => (c =? 0x130)%N || lower_ok c (to_lower c))
              lower_keys = true) as H by (vm_compute; reflexivity).
    apply lower_keys_forall with (c := c) in H; [|done].
    apply orb_true_iff in H as [H%N.eqb_eq|H]; done.
Qed.

Lemma to_lower_full_ok (c : N) :
  Forall (fun x => lower_ok c x = true) (to_lower_full c).
Proof.
  unfold to_lower_full. destruct (N.eqb_spec c 0x130) as [->|H].
  - repeat constructor.
  - repeat constructor. by apply to_lower_ok.
Qed.

Lemma lower_ok_spec (c x : N) :
  lower_ok c x = true ->
  ((c < 0x110000)%N -> (x < 0x110000)%N)
  /\ is_space x = is_space c
  /\ ~ (65 <= x <= 90)%N
  /\ lowered x.
Proof.
  unfold lower_ok. rewrite !andb_true_iff, !negb_true_iff.
  intros [[[[[H1 H2%bool_decide_eq_true] H3] H4%N.eqb_eq] H5%N.eqb_neq]
            H6%N.eqb_neq].
  repeat split; try done.
  - intros Hc. apply N.ltb_lt in Hc. rewrite Hc in H1. by apply N.ltb_lt.
  - intros [Ha%N.leb_le Hb%N.leb_le]. by rewrite Ha, Hb in H3.
  - unfold to_lower_full. destruct (N.eqb_spec x 0x130); [done|].
    by rewrite H4.
Qed.

(** The lower case of a text is made of the lower cases of its code
    points, one after the other. *)
Lemma lower_from_chunks (before l : list N) :
  exists os,
    lower_from before l = concat os
    /\ Forall2 (fun c o => o <> [] /\ Forall (fun x => lower_ok c x = true) o)
         l os.
Proof.
  revert before. induction l as [|c l IH]; intros before.
  - exists []. split; [done|constructor].
  - destruct (IH (c :: before)) as (os & E & H). cbn [lower_from].
    destruct (N.eqb_spec c 0x3A3) as [->|Hc].
    + exists ([lower_sigma before l] :: os). split; [by rewrite E|].
      constructor; [|done]. split; [done|].
      unfold lower_sigma.
      destruct (next_cased before && negb (next_cased l)); by repeat constructor.
    + exists (to_lower_full c :: os). split; [by rewrite E|].
      constructor; [|done]. split; [|apply to_lower_full_ok].
      unfold to_lower_full. by destruct (c =? 0x130)%N.
Qed.

Lemma lower_from_forall (P : N -> Prop) (before l : list N) :
  (forall c x, c ∈ l -> lower_ok c x = true -> P x) ->
  Forall P (lower_from before l).
Proof.
  intros HP. destruct (lower_from_chunks before l) as (os & -> & H).
  apply Forall_concat. induction H as [|c o l os [_ Ho] _ IH]; [constructor|].
  constructor.
  - eapply list.Forall_impl; [exact Ho|]. intros x. apply HP. left.
  - apply IH. intros c' x Hc'. apply HP. by right.
Qed.

Lemma lower_from_valid (before l : list N) :
  Forall (fun c => (c < 0x110000)%N) l ->
  Forall (fun c => (c < 0x110000)%N) (lower_from before l).
Proof.
  intros H. apply lower_from_forall. intros c x Hc Hx%lower_ok_spec.
  rewrite list.Forall_forall in H. apply Hx, H, Hc.
Qed.

Lemma lower_from_fixed (before l : list N) :
  Forall lowered l -> lower_from before l = l.
Proof.
  intros H. revert before. induction H as [|c l [Hc H3A3] _ IH]; [done|].
  intros before. cbn [lower_from]. apply N.eqb_neq in H3A3.
  by rewrite H3A3, Hc, IH.
Qed.

Lemma lower_from_idempotent (b1 b2 l : list N) :
  lower_from b1 (lower_from b2 l) = lower_from b2 l.
Proof.
  apply lower_from_fixed, lower_from_forall.
  by intros c x _ (_ & _ & _ & H)%lower_ok_spec.
Qed.

Lemma lower_from_nil (before l : list N) : lower_from before l = [] -> l = [].
Proof.
  destruct (lower_from_chunks before l) as (os & -> & H).
  destruct H as [|c o l os [Ho _] _]; [done|].
  cbn [concat]. by destruct o.
Qed.

Lemma lower_from_trimmed (before l : list N) :
  trimmed_cps l -> trimmed_cps (lower_from before l).
Proof.
  intros [H1 H2]. destruct (lower_from_chunks before l) as (os & -> & H).
  split.
  - intros x m E. destruct H as [|c o l os [Ho Hok] _]; [done|].
    destruct o as [|y o]; [done|]. cbn in E. injection E as -> _.
    apply Forall_cons_1 in Hok as [(_ & Hs & _)%lower_ok_spec _].
    rewrite Hs. by apply (H1 c l).
  - intros x m E. destruct (list.Forall2_length _ _ _ H).
    destruct l as [|c l _] using rev_ind.
    { apply Forall2_nil_inv_l in H as ->. by destruct m. }
    apply Forall2_app_inv_l in H as (os1 & os2 & _ & Hc & ->).
    apply Forall2_cons_inv_l in Hc as (o & os3 & [Ho Hok] & ->%Forall2_nil_inv_l & ->).
    rewrite concat_app in E. cbn [concat] in E. rewrite app_nil_r in E.
    destruct o as [|y o _] using rev_ind; [done|].
    rewrite app_assoc in E. apply app_inj_tail in E as [_ ->].
    apply Forall_app in Hok as [_ Hok].
    apply Forall_cons_1 in Hok as [(_ & Hs & _)%lower_ok_spec _].
    rewrite Hs. by apply (H2 c l).
Qed.

Lemma to_lower_full_ascii (c : N) :
  (c < 128)%N -> to_lower_full c = [ascii_lower c] /\ c <> 0x3A3%N.
Proof.
  intros Hc. split; [|lia].
  assert (match to_lower_full c with
          | [x] => (x =? ascii_lower c)%N
          | _ => false
          end = true) as H.
  { apply (N_range_forall
             (fun c => match to_lower_full c with
                       | [x] => (x =? ascii_lower c)%N
                       | _ => false
                       end) 0 128); [vm_compute; reflexivity|lia]. }
  destruct (to_lower_full c) as [|x [|??]]; try done.
  by apply N.eqb_eq in H as ->.
Qed.

Lemma lower_from_ascii (before l : list N) :
  Forall (fun c => (c < 128)%N) l -> lower_from before l = ascii_lower <$> l.
Proof.
  intros H. revert before.
  induction H as [|c l [Hc H3A3%N.eqb_neq]%to_lower_full_ascii _ IH]; [done|].
  intros before. cbn [lower_from]. by rewrite H3A3, Hc, IH.
Qed.

Lemma lower_decode (s : string) (cps : list N) :
  decode s = Some cps ->
  lower s = encode (lower_from [] cps)
  /\ decode (lower s) = Some (lower_from [] cps).
Proof.
  intros H. unfold lower. rewrite H. split; [done|].
  apply encode_decode in H as [_ H]. by apply decode_encode, lower_from_valid.
Qed.

Lemma lower_undecoded (s : string) : decode s = None -> lower s = s.
Proof. intros H. unfold lower. by rewrite H. Qed.

Lemma lower_idempotent (s : string) : lower (lower s) = lower s.
Proof.
  destruct (decode s) as [cps|] eqn:E.
  - destruct (lower_decode s cps E) as [Hs Hd].
    destruct (lower_decode _ _ Hd) as [-> _].
    by rewrite lower_from_idempotent.
  - by rewrite !(lower_undecoded s E).
Qed.

Lemma lower_trimmed (s : string) : trimmed s -> trimmed (lower s).
Proof.
  intros H. destruct (decode s) as [cps|] eqn:E.
  - destruct (lower_decode s cps E) as [_ Hd].
    intros l. rewrite Hd. intros [= <-]. by apply lower_from_trimmed, H.
  - by rewrite (lower_undecoded s E).
Qed.

Lemma lower_empty_iff (s : string) : lower s = "" <-> s = "".
Proof.
  split; [|by intros ->].
  intros H. destruct (decode s) as [cps|] eqn:E.
  - destruct (lower_decode s cps E) as [_ Hd]. rewrite H in Hd.
    injection Hd as Hd. symmetry in Hd. apply lower_from_nil in Hd as ->.
    by apply encode_decode in E as [<- _].
  - by rewrite (lower_undecoded s E) in H.
Qed.

(** [lower s] is [s] in lower case. *)
Lemma lower_lowers (s : string) : lowers s (lower s).
Proof.
  split; [|split].
  - intros l Hl. destruct (decode s) as [cps|] eqn:E.
    + destruct (lower_decode s cps E) as [_ Hd]. rewrite Hd in Hl.
      injection Hl as <-. apply lower_from_forall.
      by intros c x _ (_ & _ & H & _)%lower_ok_spec.
    + rewrite (lower_undecoded s E) in Hl. by rewrite E in Hl.
  - apply lower_idempotent.
  - intros cps E H. destruct (lower_decode s cps E) as [-> _].
    by rewrite lower_from_ascii.
Qed.

(** The two methods on texts that are not ASCII: whitespace of Unicode is
    stripped and a zero width space is not, letters with a lower case are
    lowered, a capital sigma becomes a final sigma at the end of a word, and
    the capital I with a dot becomes two code points. *)
Lemma string_method_examples :
  strip (encode [0xA0; 0x41; 0x6E; 0x6E; 0x2028]%N) = "Ann"
  /\ strip (encode [0x3000; 0x20; 0x78; 0x85]%N) = "x"
  /\ strip (encode [0x200B; 0x78]%N) = encode [0x200B; 0x78]%N
  /\ lower (encode [0xC9; 0x43; 0x4F; 0x4C; 0x45]%N)
     = encode [0xE9; 0x63; 0x6F; 0x6C; 0x65]%N
  /\ lower (encode [0x391; 0x3A3]%N) = encode [0x3B1; 0x3C2]%N
  /\ lower (encode [0x391; 0x3A3; 0x392]%N) = encode [0x3B1; 0x3C3; 0x3B2]%N
  /\ lower (encode [0x391; 0x301; 0x3A3; 0x20]%N)
     = encode [0x3B1; 0x301; 0x3C2; 0x20]%N
  /\ lower (encode [0x3A3]%N) = encode [0x3C3]%N
  /\ lower (encode [0x130]%N) = encode [0x69; 0x307]%N
  /\ lower (encode [0x10400]%N) = encode [0x10428]%N
  /\ lower (encode [0x1E9E]%N) = encode [0xDF]%N
  /\ lower (encode [0x212A]%N) = "k"
  /\ clean_email (PStr (utf8 0xA0)) = Ok (PStr "").
Proof. vm_compute. repeat split. Qed.

(** ** The normalization of a customers row *)

Lemma name_normalized_strip (c : text) : name_normalized c (strip <$> c).
Proof. destruct c as [s|]; [|done]. split; [done|apply strip_trims]. Qed.

Lemma email_normalized_clean (c : text) : email_normalized c (email_clean c).
Proof.
  destruct c as [[|b s]|]; [done| |done].
  split; [done|]. split; [apply strip_trims|].
  split; [apply lower_lowers|]. apply lower_trimmed, strip_trims.
Qed.

Lemma cleanse_customer_normalized (r : customer_row) :
  customer_normalized r (cleanse_customer r).
Proof.
  repeat split; try apply name_normalized_strip.
  apply email_normalized_clean.
Qed.

(** * The connection monad *)

Lemma rmap_ok {A B} (f : A -> result B) (g : A -> B) (l : list A) :
  (forall x, f x = Ok (g x)) -> rmap f l = Ok (g <$> l).
Proof.
  intros Hf. induction l as [|x l IH]; simpl; [done|].
  by rewrite Hf, IH.
Qed.

Lemma fault_free_ret {A} (a : A) : fault_free (mret a).
Proof. intros c a' c' [= <- <-]. reflexivity. Qed.

Lemma fault_free_bind {A B} (m : M A) (f : A -> M B) :
  fault_free m -> (forall a, fault_free (f a)) -> fault_free (m ≫= f).
Proof.
  intros Hm Hf c b c2. unfold mbind, M_bind.
  destruct (m c) as [[a|e] c1] eqn:E; [|discriminate].
  intros Hfa. rewrite (Hm _ _ _ E). by apply Hf.
Qed.

Lemma fault_free_tick : fault_free tick.
Proof.
  intros c a c'. unfold tick. simpl.
  destruct (faults_at _ _); [discriminate|]. by intros [= <- <-].
Qed.

Lemma fault_free_read_sql {A} (q : database -> A) : fault_free (read_sql q).
Proof.
  intros c a c'. unfold read_sql, tick. simpl.
  destruct (faults_at _ _); [discriminate|]. by intros [= <- <-].
Qed.

Lemma fault_free_execute stmt : fault_free (execute stmt).
Proof.
  intros c a c'. unfold execute, tick. simpl.
  destruct (faults_at _ _); [discriminate|]. by intros [= <- <-].
Qed.

Lemma fault_free_py {A} (r : result A) : fault_free (py r).
Proof. intros c a c'. unfold py. by intros [= -> <-]. Qed.

Ltac fault_free_tac :=
  lazy zeta;
  repeat match goal with
    | |- fault_free (read_sql _) => apply fault_free_read_sql
    | |- fault_free (execute _) => apply fault_free_execute
    | |- fault_free (py _) => apply fault_free_py
    | |- fault_free (mret _) => apply fault_free_ret
    | |- fault_free (mbind _ _) => apply fault_free_bind; [|intros ?]
    end.

Lemma engine_begin_fault_free {A} (body : M A) d flt a d' :
  fault_free body ->
  engine_begin body d flt = (Ok a, d') -> engine_begin body d None = (Ok a, d').
Proof.
  intros Hb. unfold engine_begin.
  destruct (body (Conn d 0 flt)) as [[a0|e] c] eqn:E; [|discriminate].
  intros [= <- <-]. apply Hb in E. simpl in E. by rewrite E.
Qed.

(** Whatever the body does, a block that raises leaves every table as it was
    committed. *)
Lemma engine_begin_rollback {A} (body : M A) d flt e :
  (engine_begin body d flt).1 = Raise e ->
  tables (engine_begin body d flt).2 = tables d.
Proof.
  unfold engine_begin.
  destruct (body (Conn d 0 flt)) as [[a|e'] c]; [discriminate|].
  intros _. reflexivity.
Qed.

Lemma keeps_bind {A B} P (m : M A) (f : A -> M B) :
  keeps P m -> (forall a, keeps P (f a)) -> keeps P (m ≫= f).
Proof.
  intros Hm Hf c r c2 HP. unfold mbind, M_bind.
  destruct (m c) as [[a|e] c1] eqn:E.
  - apply (Hf a c1). by apply (Hm c _ _ HP E).
  - intros [= <- <-]. by apply (Hm c _ _ HP E).
Qed.

Lemma keeps_read_sql {A} P (q : database -> A) : keeps P (read_sql q).
Proof.
  intros c r c' HP. unfold read_sql, tick.
  destruct (faults_at _ _); by intros [= <- <-].
Qed.

Lemma keeps_execute P stmt :
  (forall d, P d -> P (stmt d)) -> keeps P (execute stmt).
Proof.
  intros Hs c r c' HP. unfold execute, tick.
  destruct (faults_at _ _); intros [= <- <-]; simpl; auto.
Qed.

Lemma keeps_py {A} P (r : result A) : keeps P (py r).
Proof. intros c r' c' HP. unfold py. by intros [= <- <-]. Qed.

Lemma keeps_ret {A} P (a : A) : keeps P (mret a).
Proof. intros c r' c' HP. by intros [= <- <-]. Qed.

(** * The Cleansing Stage *)

Lemma clean_text_of_text c :
  text_of_py (clean_text (py_of_text c)) = strip <$> c.
Proof. by destruct c. Qed.

Lemma clean_email_of_text c :
  clean_email (py_of_text c) = Ok (py_of_text (email_clean c)).
Proof. by destruct c as [[|a s]|]. Qed.

Lemma text_of_py_of_text c : text_of_py (py_of_text c) = c.
Proof. by destruct c. Qed.

(** On a NaN cell [clean_text] answers None, and [clean_email] calls
    [lower] on that None. *)
Lemma clean_email_nan : clean_email PNaN = Raise AttributeError.
Proof. reflexivity. Qed.

(** The three [apply] calls never raise on a frame read from the store. *)
Lemma cleanse_frame (df : list (staged customer_row)) :
  rbind (StagingToProduction.apply_column c_first_name
           StagingToProduction.set_first_name (fun v => Ok (clean_text v)) df)
    (fun df =>
       rbind (StagingToProduction.apply_column c_last_name
                StagingToProduction.set_last_name (fun v => Ok (clean_text v)) df)
         (fun df => StagingToProduction.apply_column c_email
                      StagingToProduction.set_email clean_email df))
  = Ok ((fun r => Staged (cleanse_customer (payload r)) (loaded_at r)) <$> df).
Proof.
  unfold StagingToProduction.apply_column.
  erewrite rmap_ok by (intros x; simpl; reflexivity). simpl.
  erewrite rmap_ok by (intros x; simpl; reflexivity). simpl.
  erewrite rmap_ok by (intros x; rewrite clean_email_of_text; simpl; reflexivity).
  f_equal. rewrite <- !list_fmap_compose.
  apply list_fmap_ext. intros i [r t] _. simpl.
  rewrite !clean_text_of_text, text_of_py_of_text. by destruct r.
Qed.

Lemma cleansing_body_fault_free : fault_free StagingToProduction.main_body.
Proof. unfold StagingToProduction.main_body. fault_free_tac. Qed.

(** The run of the stage when the store does not fail. *)
Lemma cleansing_run d :
  StagingToProduction.main d None =
    (Ok (StagingToProduction.Summary
           (StagingToProduction.TableSummary (length (cleansed_customers (staging_customers (staging d))))
              (length (cleansed_customers (staging_customers (staging d)))) 0 [])
           (StagingToProduction.TableSummary (length (cleansed_products (staging_products (staging d))))
              (length (cleansed_products (staging_products (staging d)))) 0 [])
           (StagingToProduction.TableSummary (length (new_transactions d))
              (length (new_transactions d)) 0 [])
           (StagingToProduction.TableSummary (length (new_items d))
              (length (new_items d)) 0 [])),
     Database (staging d)
       (ProductionSchema (cleansed_customers (staging_customers (staging d))) (cleansed_products (staging_products (staging d)))
          (production_transactions (production d) ++ new_transactions d)
          (production_transaction_items (production d) ++ new_items d))
       (warehouse d)).
Proof.
  pose proof (cleanse_frame (staging_customers (staging d))) as H.
  unfold rbind in H.
  lazy beta iota zeta delta
    [StagingToProduction.main engine_begin StagingToProduction.main_body mbind
     M_bind mret M_ret read_sql execute tick py db pc fault faults_at
     StagingToProduction.SELECT_staging_customers].
  destruct (StagingToProduction.apply_column c_first_name _ _ _) as [a|];
    [|discriminate].
  destruct (StagingToProduction.apply_column c_last_name _ _ _) as [a0|];
    [|discriminate].
  rewrite H.
  lazy beta iota zeta delta
    [StagingToProduction.drop_loaded_at
     StagingToProduction.SELECT_staging_products
     StagingToProduction.SELECT_staging_transactions
     StagingToProduction.SELECT_staging_transaction_items
     StagingToProduction.SELECT_production_transaction_ids
     StagingToProduction.SELECT_production_item_ids
     StagingToProduction.TRUNCATE_production_customers
     StagingToProduction.TRUNCATE_production_products
     StagingToProduction.to_sql_customers StagingToProduction.to_sql_products
     StagingToProduction.to_sql_transactions
     StagingToProduction.to_sql_transaction_items set_production
     staging production warehouse production_customers production_products
     production_transactions production_transaction_items app].
  unfold cleansed_customers, cleansed_products, new_transactions, new_items.
  rewrite <- !list_fmap_compose. reflexivity.
Qed.

(** A run that completes is the fault-free run. *)
Lemma cleansing_completed d flt s d' :
  StagingToProduction.main d flt = (Ok s, d') ->
  StagingToProduction.main d None = (Ok s, d').
Proof.
  exact (engine_begin_fault_free StagingToProduction.main_body d flt s d'
           cleansing_body_fault_free).
Qed.

Lemma cleansing_production d flt s d' :
  StagingToProduction.main d flt = (Ok s, d') ->
  staging d' = staging d
  /\ warehouse d' = warehouse d
  /\ production_customers (production d') = cleansed_customers (staging_customers (staging d))
  /\ production_products (production d') = cleansed_products (staging_products (staging d))
  /\ production_transactions (production d')
     = production_transactions (production d) ++ new_transactions d
  /\ production_transaction_items (production d')
     = production_transaction_items (production d) ++ new_items d
  /\ StagingToProduction.output (StagingToProduction.s_transactions s)
     = length (new_transactions d)
  /\ StagingToProduction.output (StagingToProduction.s_transaction_items s)
     = length (new_items d).
Proof.
  intros H%cleansing_completed. rewrite cleansing_run in H.
  injection H as <- <-. simpl. repeat split.
Qed.

(** A run that raises changes no table. *)
Lemma cleansing_failed d flt e :
  (StagingToProduction.main d flt).1 = Raise e ->
  tables (StagingToProduction.main d flt).2 = tables d.
Proof. apply engine_begin_rollback. Qed.

(** *** The business rules and the filters *)

Lemma num_gt_zero (a : num) :
  num_gt a (Some 0%Q) = true <-> exists x, a = Some x /\ (0 < x)%Q.
Proof.
  destruct a as [x|]; simpl.
  - unfold Qlt_b. rewrite negb_true_iff. split.
    + intros H. exists x. split; [done|].
      apply Qnot_le_lt. intros Hle%Qle_bool_iff. congruence.
    + intros (y & [= <-] & Hlt). apply not_true_is_false.
      intros Hle%Qle_bool_iff. by apply (Qlt_not_le _ _ Hlt).
  - split; [done|]. by intros (y & ? & _).
Qed.

Lemma num_lt_some (a b : num) :
  num_lt a b = true <-> exists x y, a = Some x /\ b = Some y /\ (x < y)%Q.
Proof.
  unfold num_lt. destruct a as [x|], b as [y|]; simpl;
    try (split; [done|]; by intros (? & ? & ? & ? & _)).
  unfold Qlt_b. rewrite negb_true_iff. split.
  - intros H. exists x, y. repeat split.
    apply Qnot_le_lt. intros Hle%Qle_bool_iff. congruence.
  - intros (x' & y' & [= <-] & [= <-] & Hlt). apply not_true_is_false.
    intros Hle%Qle_bool_iff. by apply (Qlt_not_le _ _ Hlt).
Qed.

Lemma product_ok_filters (r : product_row) :
  product_ok r <->
  num_gt (p_price r) (Some 0%Q) = true /\ num_lt (p_cost r) (p_price r) = true.
Proof.
  unfold product_ok. rewrite num_gt_zero, num_lt_some. split.
  - intros (p & c & Hp & Hc & H0 & Hlt). split; [by exists p|by exists c, p].
  - intros [(p & Hp & H0) (c & p' & Hc & Hp' & Hlt)].
    exists p, c. repeat split; try done. congruence.
Qed.

Lemma cleansed_products_spec stg (r : product_row) :
  r ∈ cleansed_products stg <->
  product_ok r /\ exists t, Staged r t ∈ stg.
Proof.
  unfold cleansed_products. rewrite list_elem_of_fmap. split.
  - intros ([r' t] & -> & H). rewrite !list_elem_of_filter in H. simpl in *.
    destruct H as (Hlt & Hgt & Hin). split; [|by exists t].
    by apply product_ok_filters.
  - intros [Hok [t Hin]]. exists (Staged r t). split; [done|].
    rewrite !list_elem_of_filter. simpl.
    apply product_ok_filters in Hok as [? ?]. done.
Qed.

Lemma new_transactions_ok d : Forall transaction_ok (new_transactions d).
Proof.
  unfold new_transactions. apply Forall_fmap, list.Forall_forall. intros r Hr.
  rewrite !list_elem_of_filter in Hr. destruct Hr as (_ & Hgt & _).
  by apply num_gt_zero.
Qed.

Lemma new_items_ok d : Forall item_ok (new_items d).
Proof.
  unfold new_items. apply Forall_fmap, list.Forall_forall. intros r Hr.
  rewrite !list_elem_of_filter in Hr. destruct Hr as (_ & Hgt & _).
  by apply num_gt_zero.
Qed.

Lemma filter_none {A} (P : A -> Prop) `{forall x, Decision (P x)} (l : list A) :
  (forall x, x ∈ l -> ~ P x) -> filter P l = [].
Proof.
  induction l as [|x l IH]; intros Hl; [done|].
  rewrite filter_cons. destruct (decide (P x)) as [HP|_].
  - destruct (Hl x); [left|done].
  - apply IH. intros y Hy. apply Hl. by right.
Qed.

(** The key filter lets through every row whose key is not in production
    yet, so after the append every staged key is in production. *)
Lemma key_filter_after_append {R} (key : R -> text) (K : list text)
    (L : list (staged R)) :
  filter (fun r => negb (StagingToProduction.isin (key (payload r))
             (K ++ (key <$> (payload <$>
                filter (fun r => negb (StagingToProduction.isin
                                         (key (payload r)) K) = true) L))))
           = true) L = [].
Proof.
  apply filter_none. intros r Hr. unfold StagingToProduction.isin.
  rewrite negb_true_iff, bool_decide_eq_false. intros Hnot. apply Hnot.
  apply elem_of_app.
  destruct (decide (key (payload r) ∈ K)) as [HK|HK]; [by left|right].
  apply list_elem_of_fmap. exists (payload r). split; [done|].
  apply list_elem_of_fmap. exists r. split; [done|].
  apply list_elem_of_filter. split; [|done].
  by rewrite negb_true_iff, bool_decide_eq_false.
Qed.

Lemma new_transactions_after d d1 :
  production_transactions (production d1)
  = production_transactions (production d) ++ new_transactions d ->
  staging_transactions (staging d1) = staging_transactions (staging d) ->
  new_transactions d1 = [].
Proof.
  intros Hp Hs. unfold new_transactions at 1. rewrite Hp, Hs.
  unfold new_transactions. rewrite fmap_app.
  by rewrite (key_filter_after_append t_transaction_id).
Qed.

Lemma new_items_after d d1 :
  production_transaction_items (production d1)
  = production_transaction_items (production d) ++ new_items d ->
  staging_transaction_items (staging d1) = staging_transaction_items (staging d) ->
  new_items d1 = [].
Proof.
  intros Hp Hs. unfold new_items at 1. rewrite Hp, Hs.
  unfold new_items. rewrite fmap_app.
  by rewrite (key_filter_after_append i_item_id).
Qed.

(** ** C1: idempotence of the append-only merge *)

(** C1. Let the Cleansing Stage complete on [d], giving [d1], and let it run
    again on a store [d1'] that has the production tables of [d1] and the
    same staging.transactions and staging.transaction_items as [d]. Then the
    set of new rows is empty for both tables: the second run appends nothing
    to production.transactions and production.transaction_items, and its
    summary counts 0 rows written for both. *)
Theorem append_only_merge_idempotent
    (d d1 d1' d2 : database) (flt flt' : option nat)
    (s s' : StagingToProduction.summary) :
  StagingToProduction.main d flt = (Ok s, d1) ->
  production d1' = production d1 ->
  staging_transactions (staging d1') = staging_transactions (staging d) ->
  staging_transaction_items (staging d1')
    = staging_transaction_items (staging d) ->
  StagingToProduction.main d1' flt' = (Ok s', d2) ->
  new_transactions d1' = [] /\ new_items d1' = []
  /\ production_transactions (production d2)
     = production_transactions (production d1)
  /\ production_transaction_items (production d2)
     = production_transaction_items (production d1)
  /\ StagingToProduction.output (StagingToProduction.s_transactions s') = 0%nat
  /\ StagingToProduction.output (StagingToProduction.s_transaction_items s')
     = 0%nat.
Proof.
  intros H1 Hprod Ht Hi H2.
  apply cleansing_production in H1 as (_ & _ & _ & _ & Ht1 & Hi1 & _ & _).
  apply cleansing_production in H2 as (_ & _ & _ & _ & Ht2 & Hi2 & Hst & Hsi).
  assert (new_transactions d1' = []) as Hnt.
  { apply (new_transactions_after d); [by rewrite Hprod|done]. }
  assert (new_items d1' = []) as Hni.
  { apply (new_items_after d); [by rewrite Hprod|done]. }
  rewrite Hst, Hsi, Ht2, Hi2, Hnt, Hni, !app_nil_r, Hprod. done.
Qed.

(** The first run of [ex_empty] writes one transaction and one item, the
    second run none. *)
Lemma append_only_merge_idempotent_witness :
  let r1 := StagingToProduction.main ex_empty None in
  let r2 := StagingToProduction.main r1.2 None in
  length (production_transactions (production r1.2)) = 1%nat
  /\ production_transactions (production r2.2)
     = production_transactions (production r1.2)
  /\ production_transaction_items (production r2.2)
     = production_transaction_items (production r1.2).
Proof.
  split; [reflexivity|].
  pose proof (append_only_merge_idempotent ex_empty
                (StagingToProduction.main ex_empty None).2
                (StagingToProduction.main ex_empty None).2
                (StagingToProduction.main
                   (StagingToProduction.main ex_empty None).2 None).2
                None None
                (StagingToProduction.Summary
                   (StagingToProduction.TableSummary 3 3 0 [])
                   (StagingToProduction.TableSummary 1 1 0 [])
                   (StagingToProduction.TableSummary 1 1 0 [])
                   (StagingToProduction.TableSummary 1 1 0 []))
                (StagingToProduction.Summary
                   (StagingToProduction.TableSummary 3 3 0 [])
                   (StagingToProduction.TableSummary 1 1 0 [])
                   (StagingToProduction.TableSummary 0 0 0 [])
                   (StagingToProduction.TableSummary 0 0 0 [])))
    as H.
  destruct H as (_ & _ & Ht & Hi & _);
    [vm_compute; reflexivity ..|split; assumption].
Defined.

(** ** C2: the replace policy *)

(** The row of [ex_staging] with an empty email, normalized as specified,
    keeps the empty email; the stage writes no such row. So the table the
    stage writes is not the list of rows normalized as specified, in no
    order. *)
Lemma replace_policy_counterexample :
  ~ (production_customers (production (StagingToProduction.main ex_empty None).2)
     ≡ₚ spec_normalize_customer
          <$> (payload <$> staging_customers (staging ex_empty))).
Proof.
  intros H.
  assert (spec_normalize_customer
            (ex_customer "CUST0003" (Some ""%string) (Some ""%string))
          ∈ production_customers
              (production (StagingToProduction.main ex_empty None).2)) as Hin.
  { rewrite H. vm_compute. do 2 right. left. }
  vm_compute in Hin.
  repeat (apply elem_of_cons in Hin as [Hin|Hin]; [discriminate Hin|]).
  by apply elem_of_nil in Hin.
Qed.

(** C2 (amended). When the Cleansing Stage completes, production.customers
    holds one row for each row of staging.customers, in the same order: the
    staged row with first_name and last_name trimmed and with the email
    trimmed and lowered, an empty email being written as a missing one and
    missing values staying missing, the other columns as staged.
    production.products is exactly the list of staging.products rows that
    pass both price rules (a row is in production.products iff it is a
    staged row with price > 0 and cost < price). Two runs on stores with the
    same staging.customers and staging.products end with the same two
    tables, whatever production held before. *)
Theorem replace_policy_determinism
    (d1 d2 d1' d2' : database) (flt1 flt2 : option nat)
    (s1 s2 : StagingToProduction.summary) :
  staging_customers (staging d1) = staging_customers (staging d2) ->
  staging_products (staging d1) = staging_products (staging d2) ->
  StagingToProduction.main d1 flt1 = (Ok s1, d1') ->
  StagingToProduction.main d2 flt2 = (Ok s2, d2') ->
  Forall2 customer_normalized
    (payload <$> staging_customers (staging d1))
    (production_customers (production d1'))
  /\ (forall r, r ∈ production_products (production d1') <->
                product_ok r /\ exists t, Staged r t ∈ staging_products (staging d1))
  /\ production_products (production d1')
     = cleansed_products (staging_products (staging d1))
  /\ production_customers (production d1')
     = production_customers (production d2')
  /\ production_products (production d1')
     = production_products (production d2')
  /\ production_customers (production d1')
     ≡ₚ production_customers (production d2')
  /\ production_products (production d1')
     ≡ₚ production_products (production d2').
Proof.
  intros Hc Hp H1 H2.
  apply cleansing_production in H1 as (_ & _ & Hc1 & Hp1 & _).
  apply cleansing_production in H2 as (_ & _ & Hc2 & Hp2 & _).
  rewrite Hc1, Hp1, Hc2, Hp2, Hc, Hp.
  split.
  { unfold cleansed_customers. apply Forall2_fmap_r.
    apply Forall_Forall2_diag, list.Forall_forall. intros r _.
    apply cleanse_customer_normalized. }
  split; [intros r; apply cleansed_products_spec|].
  repeat split; done.
Qed.

(** Two stores with the snapshot [ex_staging], one with empty production
    tables and one that already went through the stage. *)
Lemma replace_policy_determinism_witness :
  let d2 := (StagingToProduction.main ex_empty None).2 in
  production_customers (production (StagingToProduction.main ex_empty None).2)
  = production_customers (production (StagingToProduction.main d2 None).2).
Proof.
  pose proof (replace_policy_determinism ex_empty
                (StagingToProduction.main ex_empty None).2
                (StagingToProduction.main ex_empty None).2
                (StagingToProduction.main
                   (StagingToProduction.main ex_empty None).2 None).2
                None None
                (StagingToProduction.Summary
                   (StagingToProduction.TableSummary 3 3 0 [])
                   (StagingToProduction.TableSummary 1 1 0 [])
                   (StagingToProduction.TableSummary 1 1 0 [])
                   (StagingToProduction.TableSummary 1 1 0 []))
                (StagingToProduction.Summary
                   (StagingToProduction.TableSummary 3 3 0 [])
                   (StagingToProduction.TableSummary 1 1 0 [])
                   (StagingToProduction.TableSummary 0 0 0 [])
                   (StagingToProduction.TableSummary 0 0 0 [])))
    as H.
  destruct H as (_ & _ & _ & Hc & _);
    [vm_compute; reflexivity ..|exact Hc].
Defined.

(** ** C3: the validation invariant *)

Lemma cleansed_products_ok stg : Forall product_ok (cleansed_products stg).
Proof.
  apply list.Forall_forall. intros r Hr. by apply cleansed_products_spec in Hr as [? _].
Qed.

Lemma cleansing_keeps_validated d flt :
  Forall transaction_ok (production_transactions (production d)) ->
  Forall item_ok (production_transaction_items (production d)) ->
  Forall product_ok (production_products (production d)) ->
  validated (production (StagingToProduction.main d flt).2).
Proof.
  intros Ht Hi Hp.
  destruct (StagingToProduction.main d flt) as [[s|e] d'] eqn:E.
  - apply cleansing_production in E as (_ & _ & _ & Hp' & Ht' & Hi' & _).
    simpl. unfold validated. rewrite Hp', Ht', Hi'. repeat split.
    + apply cleansed_products_ok.
    + apply Forall_app. split; [done|apply new_transactions_ok].
    + apply Forall_app. split; [done|apply new_items_ok].
  - pose proof (cleansing_failed d flt e) as H. rewrite E in H.
    specialize (H eq_refl). clear E. simpl in *. injection H as _ -> _.
    repeat split; assumption.
Qed.

Ltac keeps_tac :=
  lazy zeta;
  repeat match goal with
    | |- keeps _ (read_sql _) => apply keeps_read_sql
    | |- keeps _ (execute _) => apply keeps_execute; intros ? ?
    | |- keeps _ (py _) => apply keeps_py
    | |- keeps _ (mret _) => apply keeps_ret
    | |- keeps _ (mbind _ _) => apply keeps_bind; [|intros ?]
    end.

(** The warehouse load writes to the warehouse only. *)
Lemma load_keeps_production today d flt :
  production (LoadWarehouse.main today d flt).2 = production d
  /\ staging (LoadWarehouse.main today d flt).2 = staging d.
Proof.
  assert (keeps (fun x => production x = production d /\ staging x = staging d)
            (LoadWarehouse.main_body today)) as Hk.
  { unfold LoadWarehouse.main_body, LoadWarehouse.build_dim_date.
    keeps_tac; assumption. }
  unfold LoadWarehouse.main, engine_begin.
  destruct (LoadWarehouse.main_body today (Conn d 0 flt)) as [[a|e] c] eqn:E.
  - apply (Hk (Conn d 0 flt) _ _ (conj eq_refl eq_refl) E).
  - clear E Hk. split; reflexivity.
Qed.

(** C3. In every state the store can reach from empty production tables -
    whatever snapshots the loader puts into staging and however often the
    two stages run, complete or fail - every row of production.products has
    price > 0 and cost < price, every row of production.transactions has
    total_amount > 0 and every row of production.transaction_items has
    quantity > 0: no run writes a row that violates its rule. *)
Theorem validation_invariant (d : database) :
  reachable d -> validated (production d).
Proof.
  induction 1 as [stg wh|d stg _ IH|d flt _ IH|d today flt _ IH].
  - repeat split; simpl; constructor.
  - exact IH.
  - destruct IH as (Hp & Ht & Hi). by apply cleansing_keeps_validated.
  - by rewrite (proj1 (load_keeps_production today d flt)).
Qed.

Lemma validation_invariant_witness :
  validated (production (StagingToProduction.main ex_empty None).2).
Proof.
  apply (validation_invariant (StagingToProduction.main ex_empty None).2).
  apply reachable_cleansing. apply reachable_empty.
Defined.

(** ** C5: the filtered count of the run summary *)

(** Every summary entry reports [filtered = 0], and the [input] it reports
    is counted after the filters. *)
Lemma summary_counts d flt s d' :
  StagingToProduction.main d flt = (Ok s, d') ->
  StagingToProduction.filtered (StagingToProduction.s_products s) = 0%nat
  /\ StagingToProduction.input (StagingToProduction.s_products s)
     = length (production_products (production d')).
Proof.
  intros H%cleansing_completed. rewrite cleansing_run in H.
  by injection H as <- <-.
Qed.

(** C5. On the snapshot [ex_staging], whose staging.products holds a valid
    row and one row with price 0, the stage completes, the row with price 0
    is absent from production.products, and the summary for products reports
    input 1, output 1 and filtered 0 - not the 1 row that was dropped. *)
Theorem filtered_count_of_dropped_product :
  length (staging_products (staging ex_empty)) = 2%nat
  /\ Staged (ex_product "PROD0002" 0 (-1)) None ∈ staging_products (staging ex_empty)
  /\ exists s,
       (StagingToProduction.main ex_empty None).1 = Ok s
       /\ production_products (production (StagingToProduction.main ex_empty None).2)
          = [ex_product "PROD0001" 100 60]
       /\ StagingToProduction.input (StagingToProduction.s_products s) = 1%nat
       /\ StagingToProduction.output (StagingToProduction.s_products s) = 1%nat
       /\ StagingToProduction.filtered (StagingToProduction.s_products s) = 0%nat.
Proof.
  split; [reflexivity|]. split.
  - simpl. do 2 constructor.
  - eexists. vm_compute. repeat split.
Qed.

(** ** C8: text normalization and missing values *)

(** The row of [ex_staging] with an empty email: the stage stores a missing
    email, the normalization as specified keeps the empty string. *)
Lemma text_normalization_counterexample :
  production_customers (production (StagingToProduction.main ex_empty None).2)
  <> spec_normalize_customer <$> (payload <$> staging_customers (staging ex_empty)).
Proof. vm_compute. intros H. discriminate H. Qed.

(** C8 (amended). Without store failure the stage completes on every
    snapshot: the cleansing helpers do not raise on the cells read from
    staging.customers, missing ones included. In the rows written to
    production.customers a missing name or email stays missing and an empty
    email becomes missing. Every other name is the staged name without the
    whitespace at its two ends: the staged name is the written one between
    two runs of whitespace, and the written one neither starts nor ends
    with whitespace. Every other email is the staged one trimmed in the same
    way and then lowered: no capital of the ASCII alphabet is left, lowering
    it again changes nothing, an email of ASCII characters is lowered
    character by character, and the written email neither starts nor ends
    with whitespace. Whitespace is what [str.isspace] accepts. *)
Theorem text_normalization_total (d : database) :
  clean_text PNone = PNone
  /\ clean_email PNone = Ok PNone
  /\ exists s,
       (StagingToProduction.main d None).1 = Ok s
       /\ Forall2
            (fun st r =>
               match c_first_name (payload st) with
               | None => c_first_name r = None
               | Some n =>
                   c_first_name r = Some (strip n) /\ trims n (strip n)
               end
               /\ match c_last_name (payload st) with
                  | None => c_last_name r = None
                  | Some n =>
                      c_last_name r = Some (strip n) /\ trims n (strip n)
                  end
               /\ match c_email (payload st) with
                  | None => c_email r = None
                  | Some EmptyString => c_email r = None
                  | Some e =>
                      c_email r = Some (lower (strip e))
                      /\ trims e (strip e)
                      /\ lowers (strip e) (lower (strip e))
                      /\ trimmed (lower (strip e))
                  end)
            (staging_customers (staging d))
            (production_customers
               (production (StagingToProduction.main d None).2)).
Proof.
  split; [reflexivity|]. split; [reflexivity|].
  rewrite cleansing_run. eexists. split; [reflexivity|].
  cbn [snd production production_customers]. unfold cleansed_customers.
  rewrite <- list_fmap_compose. apply Forall2_fmap_r.
  apply Forall_Forall2_diag, list.Forall_forall. intros st _.
  destruct (cleanse_customer_normalized (payload st))
    as (_ & Hf & Hl & He & _).
  split; [exact Hf|]. split; [exact Hl|exact He].
Qed.

(** ** C10: no deduplication inside a batch *)

(** C10. The snapshot [ex_duplicates] holds the same transaction twice and
    the same item twice, and production is empty, so no key is in production
    yet. The stage completes and writes both copies of each: production,
    which had one row per key, has two rows with transaction_id TXN00001 and
    two rows with item_id ITEM00001 afterwards. *)
Theorem append_only_merge_keeps_batch_duplicates :
  NoDup (t_transaction_id <$> production_transactions (production ex_duplicates))
  /\ NoDup (i_item_id <$> production_transaction_items (production ex_duplicates))
  /\ is_ok (StagingToProduction.main ex_duplicates None).1 = true
  /\ production_transactions
       (production (StagingToProduction.main ex_duplicates None).2)
     = [ex_transaction "TXN00001" 200; ex_transaction "TXN00001" 200]
  /\ production_transaction_items
       (production (StagingToProduction.main ex_duplicates None).2)
     = [ex_item "ITEM00001" "TXN00001" 2; ex_item "ITEM00001" "TXN00001" 2]
  /\ ~ NoDup (t_transaction_id <$> production_transactions
                (production (StagingToProduction.main ex_duplicates None).2))
  /\ ~ NoDup (i_item_id <$> production_transaction_items
                (production (StagingToProduction.main ex_duplicates None).2)).
Proof.
  assert (production_transactions
            (production (StagingToProduction.main ex_duplicates None).2)
          = [ex_transaction "TXN00001" 200; ex_transaction "TXN00001" 200]) as Ht
    by (vm_compute; reflexivity).
  assert (production_transaction_items
            (production (StagingToProduction.main ex_duplicates None).2)
          = [ex_item "ITEM00001" "TXN00001" 2; ex_item "ITEM00001" "TXN00001" 2])
    as Hi by (vm_compute; reflexivity).
  rewrite Ht, Hi. repeat split; try (simpl; constructor); try reflexivity.
  - simpl. intros H%NoDup_cons_1_1. apply H. left.
  - simpl. intros H%NoDup_cons_1_1. apply H. left.
Qed.

(** ** C9: a stage is one transaction *)

(** The state of the connection when the store fails at statement 5 of the
    Cleansing Stage (the insert into production.products): production.products
    has been truncated inside the transaction. *)
Example cleansing_interrupted :
  let d := (StagingToProduction.main ex_empty None).2 in
  let r := StagingToProduction.main_body (Conn d 0 (Some 5%nat)) in
  r.1 = Raise (StoreError 5)
  /\ production_products (production (db r.2)) = []
  /\ production_products (production d) = [ex_product "PROD0001" 100 60].
Proof. vm_compute. repeat split. Qed.

(** C9. Both stages run all their statements inside one [engine.begin()]
    block: whenever a stage raises - a store failure at any statement or a
    Python exception - every table of the store holds exactly the rows that
    were committed before the stage started. *)
Theorem stage_atomicity (st : stage) (d : database) (flt : option nat) (e : exn) :
  (run_stage st d flt).1 = Some e ->
  tables (run_stage st d flt).2 = tables d.
Proof.
  destruct st as [|today]; unfold run_stage; cbn [fst snd].
  - destruct ((StagingToProduction.main d flt).1) as [s|e'] eqn:E;
      [intros H; discriminate H|intros _].
    unfold StagingToProduction.main in *. by apply engine_begin_rollback with e'.
  - destruct ((LoadWarehouse.main today d flt).1) as [s|e'] eqn:E;
      [intros H; discriminate H|intros _].
    unfold LoadWarehouse.main in *. by apply engine_begin_rollback with e'.
Qed.

(** The Cleansing Stage failing at statement 5 on a store with a filled
    production schema. *)
Lemma stage_atomicity_witness :
  let d := (StagingToProduction.main ex_empty None).2 in
  (run_stage Cleansing d (Some 5%nat)).1 = Some (StoreError 5)
  /\ tables (run_stage Cleansing d (Some 5%nat)).2 = tables d.
Proof.
  split; [vm_compute; reflexivity|].
  apply (stage_atomicity Cleansing _ (Some 5%nat) (StoreError 5)).
  vm_compute. reflexivity.
Defined.

(** * The warehouse load *)

(** ** DimDate *)

Lemma dates_loop_done current end_date dates :
  end_date < current ->
  LoadWarehouse.dates_loop current end_date dates = Ok dates.
Proof.
  intros Hlt. rewrite LoadWarehouse.dates_loop_equation_1.
  unfold LoadWarehouse.dates_loop_unfold_clause_1.
  destruct (decide (current <= end_date)); [lia|reflexivity].
Qed.

Lemma dates_loop_body current end_date dates :
  current <= end_date ->
  LoadWarehouse.dates_loop current end_date dates =
    match Calendar.add_days current 1 with
    | Ok next =>
        LoadWarehouse.dates_loop next end_date
          (dates ++ [LoadWarehouse.dim_date_entry current])
    | Raise e => Raise e
    end.
Proof.
  intros Hle. rewrite LoadWarehouse.dates_loop_equation_1.
  unfold LoadWarehouse.dates_loop_unfold_clause_1.
  destruct (decide (current <= end_date)); [|lia].
  transitivity
    (match proj1_sig (LoadWarehouse.inspect (Calendar.add_days current 1)) with
     | Ok next =>
         LoadWarehouse.dates_loop next end_date
           (dates ++ [LoadWarehouse.dim_date_entry current])
     | Raise e => Raise e
     end); [|reflexivity].
  by destruct (LoadWarehouse.inspect (Calendar.add_days current 1)) as [[next|e] H].
Qed.

Lemma add_days_one current :
  0 <= current -> current < Calendar.MAXORDINAL ->
  Calendar.add_days current 1 = Ok (current + 1).
Proof.
  intros H0 Hmax. unfold Calendar.add_days.
  destruct (0 <? current + 1) eqn:E1; [|lia].
  destruct (current + 1 <=? Calendar.MAXORDINAL) eqn:E2; [reflexivity|lia].
Qed.

(** The loop terminates with one entry per day when the last day is before
    [date.max]. *)
Lemma dates_loop_ok end_date (n : nat) :
  end_date < Calendar.MAXORDINAL ->
  forall current dates,
    0 <= current -> Z.to_nat (end_date + 1 - current) = n ->
    LoadWarehouse.dates_loop current end_date dates
    = Ok (dates ++ (LoadWarehouse.dim_date_entry
                      <$> seqZ current (end_date + 1 - current))).
Proof.
  intros Hmax. induction n as [|n IH]; intros current dates H0 Hn.
  - rewrite dates_loop_done by lia. rewrite seqZ_nil by lia.
    simpl. by rewrite app_nil_r.
  - rewrite dates_loop_body by lia. rewrite add_days_one by lia.
    rewrite IH by lia. rewrite (seqZ_cons current) by lia.
    rewrite fmap_cons, <- app_assoc. simpl.
    replace (end_date + 1 - (current + 1))
      with (Z.pred (end_date + 1 - current)) by lia.
    reflexivity.
Qed.

(** When the last day is [date.max], stepping past it overflows. *)
Lemma dates_loop_overflow (n : nat) :
  forall current dates,
    0 <= current -> current <= Calendar.MAXORDINAL ->
    Z.to_nat (Calendar.MAXORDINAL - current) = n ->
    LoadWarehouse.dates_loop current Calendar.MAXORDINAL dates
    = Raise OverflowError.
Proof.
  induction n as [|n IH]; intros current dates H0 Hle Hn.
  - assert (current = Calendar.MAXORDINAL) as -> by lia.
    rewrite dates_loop_body by lia. reflexivity.
  - rewrite dates_loop_body by lia. rewrite add_days_one by lia.
    apply IH; lia.
Qed.

Lemma build_dim_date_run start_date end_date d n rows :
  LoadWarehouse.dates_loop start_date end_date [] = Ok rows ->
  LoadWarehouse.build_dim_date start_date end_date (Conn d n None)
  = (Ok tt,
     Conn (LoadWarehouse.to_sql_dim_date rows (LoadWarehouse.TRUNCATE_dim_date d))
       (S (S n)) None).
Proof.
  intros H. unfold LoadWarehouse.build_dim_date.
  lazy beta iota zeta delta
    [mbind M_bind mret M_ret read_sql execute tick py db pc fault faults_at].
  rewrite H. reflexivity.
Qed.

(** [_ord2ymd] answers a month between 1 and 12. *)
Lemma month_range (d : Z) : 1 <= Calendar.month d <= 12.
Proof.
  unfold Calendar.month, Calendar.ord2ymd. cbv zeta.
  set (n1 := (((d - 1) mod Calendar.DI400Y) mod Calendar.DI100Y)
               mod Calendar.DI4Y / 365).
  set (n100 := ((d - 1) mod Calendar.DI400Y) / Calendar.DI100Y).
  set (n4 := (((d - 1) mod Calendar.DI400Y) mod Calendar.DI100Y) / Calendar.DI4Y).
  set (r := ((((d - 1) mod Calendar.DI400Y) mod Calendar.DI100Y)
               mod Calendar.DI4Y) mod 365).
  assert (0 <= r < 365) as Hr by (apply Z.mod_pos_bound; lia).
  destruct ((n1 =? 4) || (n100 =? 4)); [simpl; lia|].
  set (leap := (n1 =? 3) && (negb (n4 =? 24) || (n100 =? 3))).
  rewrite Z.shiftr_div_pow2 by lia. change (2 ^ 5) with 32.
  set (m := (r + 50) / 32).
  assert (1 <= m <= 12) as Hm.
  { subst m. split.
    - apply Z.div_le_lower_bound; lia.
    - apply Z.lt_succ_r, Z.div_lt_upper_bound; lia. }
  assert (32 * m <= r + 50) as Hlow by (subst m; apply Z.mul_div_le; lia).
  clearbody m r leap.
  assert (m = 1 \/ m = 2 \/ m = 3 \/ m = 4 \/ m = 5 \/ m = 6 \/ m = 7 \/ m = 8
          \/ m = 9 \/ m = 10 \/ m = 11 \/ m = 12) as Hc by lia.
  destruct Hc as [-> |[-> |[-> |[-> |[-> |[-> |[-> |[-> |[-> |[-> |[-> | ->]]]]]]]]]]];
    repeat match goal with
      | |- context [Calendar.tab ?t ?i] =>
          let v := eval vm_compute in (Calendar.tab t i) in
          change (Calendar.tab t i) with v
      end;
    destruct leap; cbn [andb Z.ltb Z.eqb Z.compare Pos.compare Pos.compare_cont];
    match goal with
    | |- context [if ?x <? ?y then _ else _] => destruct (Z.ltb_spec x y)
    end; cbn [fst snd]; lia.
Qed.

Lemma quarter_range (d : Z) : 1 <= (Calendar.month d - 1) / 3 + 1 <= 4.
Proof.
  pose proof (month_range d) as Hm. split.
  - assert (0 <= (Calendar.month d - 1) / 3) by (apply Z.div_pos; lia). lia.
  - assert ((Calendar.month d - 1) / 3 < 4)
      by (apply Z.div_lt_upper_bound; lia). lia.
Qed.

Lemma weekday_range d : 0 <= Calendar.weekday d < 7.
Proof. unfold Calendar.weekday. apply Z.mod_pos_bound. lia. Qed.

(** [weekday() >= 5] singles out the days named Saturday and Sunday. *)
Lemma is_weekend_day_name (d : Z) :
  (5 <=? Calendar.weekday d) = true
  <-> Calendar.day_name d = "Saturday"%string
      \/ Calendar.day_name d = "Sunday"%string.
Proof.
  unfold Calendar.day_name. pose proof (weekday_range d) as Hw.
  assert (Calendar.weekday d = 0 \/ Calendar.weekday d = 1
          \/ Calendar.weekday d = 2 \/ Calendar.weekday d = 3
          \/ Calendar.weekday d = 4 \/ Calendar.weekday d = 5
          \/ Calendar.weekday d = 6) as Hc by lia.
  destruct Hc as [-> |[-> |[-> |[-> |[-> |[-> | ->]]]]]]; simpl;
    split; intros H; try discriminate H; try (destruct H as [H|H]; discriminate H);
    auto.
Qed.

(** ** C7: build_dim_date *)

(** A range with start_date <= end_date: building 9999-12-31 alone raises
    OverflowError when the loop steps past the last date, and nothing is
    written. *)
Lemma dim_date_generation_counterexample :
  let start_date := Calendar.ymd2ord 9999 12 31 in
  let end_date := Calendar.ymd2ord 9999 12 31 in
  let r := LoadWarehouse.build_dim_date start_date end_date
             (Conn ex_empty 0 None) in
  start_date <= end_date
  /\ r.1 = Raise OverflowError
  /\ dim_date (warehouse (db r.2)) = [].
Proof. vm_compute. split; [discriminate|split; reflexivity]. Qed.

(** C7 (amended). For every start_date <= end_date with end_date before
    9999-12-31, whatever warehouse.dim_date held and whatever statement the
    connection is at, build_dim_date completes (when the store does not
    fail) and leaves in dim_date exactly one row per day of
    [start_date, end_date], in order: the full_date column is start_date,
    start_date + 1, ..., end_date, so the table has
    end_date - start_date + 1 rows. In every row month is the month of
    full_date, between 1 and 12, quarter = (month-1)//3 + 1, between 1 and
    4, and is_weekend holds exactly when the day name is Saturday or
    Sunday. *)
Theorem dim_date_generation (start_date end_date : Z) (d : database) (n : nat) :
  0 < start_date -> start_date <= end_date ->
  end_date < Calendar.MAXORDINAL ->
  let r := LoadWarehouse.build_dim_date start_date end_date (Conn d n None) in
  r.1 = Ok tt
  /\ dd_full_date <$> dim_date (warehouse (db r.2))
     = seqZ start_date (end_date - start_date + 1)
  /\ length (dim_date (warehouse (db r.2)))
     = Z.to_nat (end_date - start_date + 1)
  /\ NoDup (dd_full_date <$> dim_date (warehouse (db r.2)))
  /\ Forall (fun row =>
               dd_month row = Calendar.month (dd_full_date row)
               /\ 1 <= dd_month row <= 12
               /\ dd_quarter row = (dd_month row - 1) / 3 + 1
               /\ 1 <= dd_quarter row <= 4
               /\ (dd_is_weekend row = true
                   <-> dd_day_name row = "Saturday"%string
                       \/ dd_day_name row = "Sunday"%string))
       (dim_date (warehouse (db r.2))).
Proof.
  intros H0 Hle Hmax r. subst r.
  rewrite (build_dim_date_run start_date end_date d n
             (LoadWarehouse.dim_date_entry
                <$> seqZ start_date (end_date + 1 - start_date))).
  2:{ rewrite (dates_loop_ok end_date (Z.to_nat (end_date + 1 - start_date)))
        by (done || lia). reflexivity. }
  cbn [fst snd db warehouse dim_date LoadWarehouse.to_sql_dim_date
       LoadWarehouse.TRUNCATE_dim_date set_warehouse app].
  replace (end_date + 1 - start_date) with (end_date - start_date + 1) by lia.
  assert (dd_full_date <$> (LoadWarehouse.dim_date_entry
                              <$> seqZ start_date (end_date - start_date + 1))
          = seqZ start_date (end_date - start_date + 1)) as Hdates.
  { rewrite <- list_fmap_compose.
    rewrite <- (list_fmap_id (seqZ _ _)) at 2. by apply list_fmap_ext. }
  split; [reflexivity|]. rewrite Hdates.
  split; [reflexivity|]. split.
  { by rewrite length_fmap, length_seqZ. }
  split; [apply NoDup_seqZ|].
  apply Forall_fmap, list.Forall_forall. intros x _. simpl.
  split; [reflexivity|]. split; [apply month_range|].
  split; [reflexivity|]. split; [apply quarter_range|].
  apply is_weekend_day_name.
Qed.

(** The range 2024-01-01..2024-01-03: three rows, none on a weekend. *)
Lemma dim_date_generation_witness :
  let r := LoadWarehouse.build_dim_date (Calendar.ymd2ord 2024 1 1)
             (Calendar.ymd2ord 2024 1 3) (Conn ex_empty 0 None) in
  length (dim_date (warehouse (db r.2))) = 3%nat
  /\ dd_date_key <$> dim_date (warehouse (db r.2))
     = [20240101; 20240102; 20240103]
  /\ dd_is_weekend <$> dim_date (warehouse (db r.2)) = [false; false; false].
Proof.
  pose proof (dim_date_generation (Calendar.ymd2ord 2024 1 1)
                (Calendar.ymd2ord 2024 1 3) ex_empty 0) as H.
  destruct H as (_ & _ & Hlen & _); [vm_compute; reflexivity
                                   |vm_compute; discriminate
                                   |vm_compute; reflexivity|].
  split; [exact Hlen|]. split; vm_compute; reflexivity.
Defined.

(** 2024-01-06 is a Saturday and its row is flagged. *)
Example dim_date_saturday :
  let row := LoadWarehouse.dim_date_entry (Calendar.ymd2ord 2024 1 6) in
  dd_day_name row = "Saturday"%string /\ dd_is_weekend row = true
  /\ dd_date_key row = 20240106 /\ dd_quarter row = 1 /\ dd_week_of_year row = 1.
Proof. vm_compute. repeat split. Qed.

(** ** The run of the load *)

Lemma dates_loop_2024 :
  LoadWarehouse.dates_loop (Calendar.ymd2ord 2024 1 1)
    (Calendar.ymd2ord 2024 12 31) [] = Ok dim_date_2024.
Proof.
  rewrite (dates_loop_ok _ 366);
    [|vm_compute; reflexivity|vm_compute; discriminate|vm_compute; reflexivity].
  replace (Calendar.ymd2ord 2024 12 31 + 1 - Calendar.ymd2ord 2024 1 1)
    with 366 by (vm_compute; reflexivity).
  reflexivity.
Qed.

Lemma load_body_fault_free today : fault_free (LoadWarehouse.main_body today).
Proof.
  unfold LoadWarehouse.main_body, LoadWarehouse.build_dim_date. fault_free_tac.
Qed.

Lemma load_completed today d flt d' :
  LoadWarehouse.main today d flt = (Ok tt, d') ->
  LoadWarehouse.main today d None = (Ok tt, d').
Proof.
  exact (engine_begin_fault_free (LoadWarehouse.main_body today) d flt tt d'
           (load_body_fault_free today)).
Qed.

Ltac load_eval :=
  unfold LoadWarehouse.main, engine_begin, LoadWarehouse.main_body;
  unfold mbind at 1; unfold M_bind at 1;
  rewrite (build_dim_date_run _ _ _ _ _ dates_loop_2024);
  lazy beta iota zeta delta
    [mbind M_bind mret M_ret read_sql execute tick py db pc fault faults_at].

(** The load when the store does not fail. *)
Lemma load_run today d keyed :
  keyed_fact d = Ok keyed ->
  LoadWarehouse.main today d None = (Ok tt, loaded today d keyed).
Proof.
  intros Hkeyed. unfold keyed_fact in Hkeyed. load_eval.
  lazy beta iota zeta delta
    [LoadWarehouse.TRUNCATE_dim_date LoadWarehouse.to_sql_dim_date
     LoadWarehouse.TRUNCATE_dim_payment_method LoadWarehouse.to_sql_dim_payment_method
     LoadWarehouse.TRUNCATE_dim_customers LoadWarehouse.to_sql_dim_customers
     LoadWarehouse.TRUNCATE_dim_products LoadWarehouse.to_sql_dim_products
     set_warehouse staging production warehouse
     dim_date dim_payment_method dim_customers dim_products fact_sales agg_daily_sales
     seq_payment_method_key seq_customer_key seq_product_key app].
  match goal with
  | |- context [rmap ?f (LoadWarehouse.SELECT_fact ?x)] =>
      change (rmap f (LoadWarehouse.SELECT_fact x))
        with (rmap f (LoadWarehouse.SELECT_fact d))
  end.
  rewrite Hkeyed.
  reflexivity.
Qed.

(** A missing transaction date aborts the load. *)
Lemma load_raises today d e :
  keyed_fact d = Raise e ->
  (LoadWarehouse.main today d None).1 = Raise e.
Proof.
  intros Hkeyed. unfold keyed_fact in Hkeyed. load_eval.
  match goal with
  | |- context [rmap ?f (LoadWarehouse.SELECT_fact ?x)] =>
      change (rmap f (LoadWarehouse.SELECT_fact x))
        with (rmap f (LoadWarehouse.SELECT_fact d))
  end.
  rewrite Hkeyed. reflexivity.
Qed.

Lemma load_Ok today d flt d' :
  LoadWarehouse.main today d flt = (Ok tt, d') ->
  exists keyed, keyed_fact d = Ok keyed /\ d' = loaded today d keyed.
Proof.
  intros H%load_completed.
  destruct (keyed_fact d) as [keyed|e] eqn:E.
  - exists keyed. split; [done|]. rewrite (load_run today d keyed E) in H.
    by injection H as <-.
  - apply (load_raises today) in E. rewrite H in E. discriminate E.
Qed.

(** ** The daily aggregate *)

Lemma group_by_snoc rows r :
  LoadWarehouse.group_by_date_key (rows ++ [r])
  = <[ f_date_key r :=
         LoadWarehouse.agg_step
           (default LoadWarehouse.agg_init
              (LoadWarehouse.group_by_date_key rows !! f_date_key r)) r ]>
      (LoadWarehouse.group_by_date_key rows).
Proof. unfold LoadWarehouse.group_by_date_key. by rewrite foldl_app. Qed.

(** The accumulator of a key is the fold of [agg_step] over the key's rows,
    in scan order; a key without rows has no accumulator. *)
Lemma group_by_lookup rows (k : Z) :
  LoadWarehouse.group_by_date_key rows !! k
  = match date_group k rows with
    | [] => None
    | g => Some (foldl LoadWarehouse.agg_step LoadWarehouse.agg_init g)
    end.
Proof.
  unfold date_group.
  induction rows as [|r rows IH] using rev_ind; [done|].
  rewrite group_by_snoc, list.filter_app.
  destruct (decide (f_date_key r = k)) as [Hk|Hk].
  - rewrite filter_cons_True by done. rewrite filter_nil.
    rewrite Hk, lookup_insert_eq, IH.
    destruct (filter _ rows) as [|x g]; [done|].
    simpl. by rewrite foldl_app.
  - rewrite filter_cons_False by done. rewrite filter_nil, app_nil_r.
    by rewrite lookup_insert_ne.
Qed.

Lemma union_step `{Countable A} (x : A) (X Y : gset A) :
  Y ∪ ({[x]} ∪ X) = ({[x]} ∪ Y) ∪ X.
Proof. by rewrite (assoc_L (∪)), (comm_L (∪) Y). Qed.

Lemma foldl_agg_step g st :
  foldl LoadWarehouse.agg_step st g
  = LoadWarehouse.AggState
      (list_to_set (omap f_transaction_id g) ∪ LoadWarehouse.g_transactions st)
      (foldl LoadWarehouse.sum_step (LoadWarehouse.g_revenue st) (f_line_total <$> g))
      (foldl LoadWarehouse.sum_step (LoadWarehouse.g_profit st) (f_profit <$> g))
      (list_to_set (f_customer_key <$> g) ∪ LoadWarehouse.g_customers st).
Proof.
  revert st. induction g as [|r g IH]; intros st.
  - destruct st. simpl. by rewrite !(left_id_L ∅ (∪)).
  - simpl. rewrite IH. unfold LoadWarehouse.agg_step at 1 4. simpl.
    rewrite union_step.
    destruct (f_transaction_id r) as [t|]; simpl; [|done].
    by rewrite union_step.
Qed.

Lemma group_accumulator g :
  foldl LoadWarehouse.agg_step LoadWarehouse.agg_init g
  = LoadWarehouse.AggState (list_to_set (omap f_transaction_id g))
      (SUM (f_line_total <$> g)) (SUM (f_profit <$> g))
      (list_to_set (f_customer_key <$> g)).
Proof.
  rewrite foldl_agg_step. unfold SUM. simpl. by rewrite !(right_id_L ∅ (∪)).
Qed.

Lemma exact_sum_cons x column :
  exact_sum (Some x :: column) = (x + exact_sum column)%Q.
Proof. reflexivity. Qed.

(** [SUM] adds up exactly the values that are not NULL. *)
Lemma foldl_sum_step column (a : Q) :
  exists t, foldl LoadWarehouse.sum_step (Some a) column = Some t
            /\ (t == a + exact_sum column)%Q.
Proof.
  revert a. induction column as [|[x|] column IH]; intros a.
  - exists a. split; [done|]. change (exact_sum []) with 0%Q. ring.
  - destruct (IH (a + x)%Q) as (t & Ht & Heq). exists t. split; [done|].
    rewrite Heq, exact_sum_cons. ring.
  - destruct (IH a) as (t & Ht & Heq). by exists t.
Qed.

Lemma SUM_exact column t :
  SUM column = Some t -> (t == exact_sum column)%Q.
Proof.
  unfold SUM. induction column as [|[x|] column IH]; simpl.
  - discriminate.
  - intros H. destruct (foldl_sum_step column x) as (t' & Ht' & Heq).
    rewrite Ht' in H. injection H as <-. by rewrite Heq, exact_sum_cons.
  - exact IH.
Qed.

Lemma Qeq_within_tolerance (t s : Q) :
  (t == s)%Q -> (Qabs (t - s) <= 1 # 100)%Q.
Proof.
  intros H. rewrite H. unfold Qminus. rewrite Qplus_opp_r. discriminate.
Qed.

Lemma daily_sales_keys rows :
  a_date_key <$> LoadWarehouse.daily_sales rows
  = (map_to_list (LoadWarehouse.group_by_date_key rows)).*1.
Proof.
  unfold LoadWarehouse.daily_sales. rewrite <- list_fmap_compose.
  by apply list_fmap_ext.
Qed.

(** What the GROUP BY query returns. *)
Lemma daily_sales_spec rows :
  NoDup (a_date_key <$> LoadWarehouse.daily_sales rows)
  /\ (forall k, k ∈ a_date_key <$> LoadWarehouse.daily_sales rows
                <-> k ∈ f_date_key <$> rows)
  /\ Forall (fun a =>
       let g := date_group (a_date_key a) rows in
       a_total_transactions a
         = size (list_to_set (omap f_transaction_id g) : gset string)
       /\ a_total_revenue a = SUM (f_line_total <$> g)
       /\ a_total_profit a = SUM (f_profit <$> g)
       /\ a_unique_customers a
          = size (list_to_set (f_customer_key <$> g) : gset Z))
      (LoadWarehouse.daily_sales rows).
Proof.
  split; [|split].
  - rewrite daily_sales_keys. apply NoDup_fst_map_to_list.
  - intros k. rewrite daily_sales_keys.
    rewrite list_elem_of_fmap. split.
    + intros ([k' st] & -> & Hin). simpl.
      apply elem_of_map_to_list in Hin. rewrite group_by_lookup in Hin.
      unfold date_group in Hin.
      destruct (filter _ rows) as [|r g] eqn:E; [discriminate|].
      assert (r ∈ filter (fun r => f_date_key r = k') rows) as Hr
        by (rewrite E; left).
      apply list_elem_of_filter in Hr as [<- Hr].
      apply list_elem_of_fmap. by exists r.
    + intros (r & -> & Hin)%list_elem_of_fmap.
      pose proof (group_by_lookup rows (f_date_key r)) as Hl.
      unfold date_group in Hl.
      destruct (filter _ rows) as [|r' g] eqn:E.
      * exfalso.
        assert (r ∈ filter (fun x => f_date_key x = f_date_key r) rows) as Hr
          by (by apply list_elem_of_filter).
        rewrite E in Hr. by apply not_elem_of_nil in Hr.
      * eexists (f_date_key r, _). split; [reflexivity|].
        apply elem_of_map_to_list. exact Hl.
  - unfold LoadWarehouse.daily_sales. apply Forall_fmap, list.Forall_forall.
    intros [k st] Hin. simpl.
    apply elem_of_map_to_list in Hin. rewrite group_by_lookup in Hin.
    assert (st = foldl LoadWarehouse.agg_step LoadWarehouse.agg_init
                   (date_group k rows)) as ->.
    { destruct (date_group k rows); [discriminate|]. by injection Hin as <-. }
    rewrite group_accumulator. simpl. done.
Qed.

(** ** C6: aggregate correctness *)

(** C6. When the warehouse load completes, agg_daily_sales has exactly one
    row per date_key of fact_sales (no date_key twice, and the same set of
    date_keys). For each of its rows, over the fact_sales rows with that
    date_key: total_transactions is the number of distinct transaction_ids,
    total_revenue is SUM(line_total), total_profit is SUM(profit),
    unique_customers is the number of distinct customer_keys; and
    total_revenue, when not NULL, is within 0.01 of the sum of the
    line_total values (it is equal to it). *)
Theorem aggregate_correctness (today : Z) (d d' : database) (flt : option nat) :
  LoadWarehouse.main today d flt = (Ok tt, d') ->
  let fact := fact_sales (warehouse d') in
  let agg := agg_daily_sales (warehouse d') in
  NoDup (a_date_key <$> agg)
  /\ (forall k, k ∈ a_date_key <$> agg <-> k ∈ f_date_key <$> fact)
  /\ Forall (fun a =>
       let g := date_group (a_date_key a) fact in
       a_total_transactions a
         = size (list_to_set (omap f_transaction_id g) : gset string)
       /\ a_total_revenue a = SUM (f_line_total <$> g)
       /\ a_total_profit a = SUM (f_profit <$> g)
       /\ a_unique_customers a
          = size (list_to_set (f_customer_key <$> g) : gset Z)
       /\ (forall t, a_total_revenue a = Some t ->
             (Qabs (t - exact_sum (f_line_total <$> g)) <= 1 # 100)%Q))
      agg.
Proof.
  intros (keyed & _ & ->)%load_Ok fact agg. subst fact agg.
  cbn [loaded warehouse set_warehouse fact_sales agg_daily_sales].
  destruct (daily_sales_spec (assembled_fact (loaded_dimensions today d) keyed))
    as (Hnd & Hkeys & Hrows).
  split; [done|]. split; [done|].
  eapply list.Forall_impl; [exact Hrows|].
  intros a (Ht & Hr & Hp & Hc). cbn zeta. repeat split; try done.
  intros t Hsome. rewrite Hr in Hsome. by apply Qeq_within_tolerance, SUM_exact.
Qed.

(** The load of [ex_production]: one fact row and one aggregate row. *)
Lemma aggregate_correctness_witness :
  let d' := (LoadWarehouse.main 739000 ex_production None).2 in
  length (fact_sales (warehouse d')) = 1%nat
  /\ NoDup (a_date_key <$> agg_daily_sales (warehouse d'))
  /\ agg_daily_sales (warehouse d')
     = [AggDailySalesRow 20240101 1 (Some 200%Q) (Some 80%Q) 1].
Proof.
  split; [vm_compute; reflexivity|]. split; [|vm_compute; reflexivity].
  refine (proj1 (aggregate_correctness 739000 ex_production
                   (LoadWarehouse.main 739000 ex_production None).2 None _)).
  vm_compute. reflexivity.
Defined.

(** ** Joins and merges *)

Lemma sql_eq_spec (a b : text) :
  LoadWarehouse.sql_eq a b = true <-> exists x, a = Some x /\ b = Some x.
Proof.
  destruct a as [x|], b as [y|]; simpl;
    try (split; [discriminate|]; by intros (? & ? & ?)).
  rewrite bool_decide_eq_true. split.
  - intros ->. by exists y.
  - intros (z & [= ->] & [= ->]). done.
Qed.

Lemma length_bind_one {A B} (f : A -> list B) (l : list A) :
  (forall x, x ∈ l -> length (f x) = 1%nat) -> length (l ≫= f) = length l.
Proof.
  induction l as [|x l IH]; intros Hl; [done|].
  change ((x :: l) ≫= f) with (f x ++ (l ≫= f)).
  rewrite length_app, Hl by left. simpl. f_equal.
  apply IH. intros y Hy. apply Hl. by right.
Qed.

Lemma merge_length {L R} (lkey : L -> text) (rkey : R -> text) left right :
  (forall l, l ∈ left ->
     length (filter (fun r => lkey l = rkey r) right) = 1%nat) ->
  length (LoadWarehouse.merge lkey rkey left right) = length left.
Proof.
  intros H. unfold LoadWarehouse.merge. apply length_bind_one.
  intros l Hl. rewrite length_fmap. by apply H.
Qed.

Lemma merge_length_eq {L R} (lkey : L -> text) (rkey : R -> text) left right n :
  (forall l, l ∈ left ->
     length (filter (fun r => lkey l = rkey r) right) = 1%nat) ->
  length left = n ->
  length (LoadWarehouse.merge lkey rkey left right) = n.
Proof. intros H <-. by apply merge_length. Qed.

Lemma merge_left {L R} (lkey : L -> text) (rkey : R -> text) left right x :
  x ∈ LoadWarehouse.merge lkey rkey left right -> x.1 ∈ left.
Proof.
  unfold LoadWarehouse.merge.
  intros (l & Hx & Hl)%list_elem_of_bind.
  apply list_elem_of_fmap in Hx as (r & -> & _). done.
Qed.

Lemma length_filter_fmap {A B} (g : A -> B) (P : B -> Prop)
    `{forall y, Decision (P y)} (l : list A) :
  length (filter (fun x => P (g x)) l) = length (filter P (g <$> l)).
Proof.
  induction l as [|x l IH]; [done|].
  rewrite fmap_cons, !filter_cons.
  destruct (decide (P (g x))); simpl; by rewrite IH.
Qed.

Lemma filter_all {A} (P : A -> Prop) `{forall x, Decision (P x)} (l : list A) :
  Forall P l -> filter P l = l.
Proof.
  induction 1 as [|x l HP _ IH]; [done|].
  rewrite filter_cons_True by done. by rewrite IH.
Qed.

Lemma fmap_imap_const {A B C} (F : nat -> A -> B) (g : B -> C) (h : A -> C)
    (l : list A) :
  (forall i a, g (F i a) = h a) -> g <$> imap F l = h <$> l.
Proof.
  revert F. induction l as [|x l IH]; intros F HF; [done|].
  rewrite imap_cons, !fmap_cons, HF. f_equal. apply IH. intros i a. apply HF.
Qed.

Lemma Forall_imap {A B} (F : nat -> A -> B) (P : B -> Prop) (l : list A) :
  (forall i a, P (F i a)) -> Forall P (imap F l).
Proof.
  revert F. induction l as [|x l IH]; intros F HF; [constructor|].
  rewrite imap_cons. constructor; [apply HF|]. apply IH. intros i a. apply HF.
Qed.

(** The keys of the reloaded dimensions are those of production. *)
Lemma loaded_product_ids today d :
  (LoadWarehouse.SELECT_current_product_keys (loaded_dimensions today d)).*2
  = p_product_id <$> production_products (production d).
Proof.
  unfold LoadWarehouse.SELECT_current_product_keys, loaded_dimensions.
  cbn [warehouse dim_products]. unfold LoadWarehouse.with_keys.
  rewrite imap_fmap.
  rewrite filter_all by (apply Forall_imap; intros i a; reflexivity).
  rewrite <- list_fmap_compose. by apply fmap_imap_const.
Qed.

Lemma SELECT_fact_member d ti t p :
  ti ∈ production_transaction_items (production d) ->
  t ∈ production_transactions (production d) ->
  p ∈ production_products (production d) ->
  LoadWarehouse.sql_eq (i_transaction_id ti) (t_transaction_id t) = true ->
  LoadWarehouse.sql_eq (i_product_id ti) (p_product_id p) = true ->
  exists r, r ∈ LoadWarehouse.SELECT_fact d
            /\ LoadWarehouse.q_product_id r = i_product_id ti.
Proof.
  intros Hti Ht Hp Hmt Hmp. eexists. split.
  - unfold LoadWarehouse.SELECT_fact.
    apply list_elem_of_bind. exists ti. split; [|done].
    apply list_elem_of_bind. exists t. split; [|by apply list_elem_of_filter].
    apply list_elem_of_bind. exists p. split; [|by apply list_elem_of_filter].
    left.
  - reflexivity.
Qed.

(** An item whose product exists in production, and resolves once in the
    reloaded product dimension, matches exactly one production product. *)
Lemma product_matches_once today d ti :
  ti ∈ production_transaction_items (production d) ->
  Exists (fun t => LoadWarehouse.sql_eq (i_transaction_id ti)
                     (t_transaction_id t) = true)
    (production_transactions (production d)) ->
  Exists (fun p => LoadWarehouse.sql_eq (i_product_id ti) (p_product_id p) = true)
    (production_products (production d)) ->
  Forall (fun r =>
            length (filter (fun k => LoadWarehouse.q_product_id r = k.2)
                      (LoadWarehouse.SELECT_current_product_keys
                         (loaded_dimensions today d))) = 1%nat)
    (LoadWarehouse.SELECT_fact d) ->
  length (filter (fun p => LoadWarehouse.sql_eq (i_product_id ti)
                             (p_product_id p) = true)
            (production_products (production d))) = 1%nat.
Proof.
  intros Hti (t & Ht & Hmt)%list.Exists_exists (p & Hp & Hmp)%list.Exists_exists Hres.
  destruct (SELECT_fact_member d ti t p Hti Ht Hp Hmt Hmp) as (r & Hr & Hid).
  rewrite list.Forall_forall in Hres. specialize (Hres r Hr).
  rewrite Hid in Hres.
  rewrite (length_filter_fmap snd (fun y => i_product_id ti = y)) in Hres.
  rewrite loaded_product_ids in Hres.
  rewrite <- (length_filter_fmap p_product_id (fun y => i_product_id ti = y))
    in Hres.
  rewrite <- Hres. f_equal. apply list_filter_iff. intros p'.
  apply sql_eq_spec in Hmp as (x & Hx & _).
  rewrite sql_eq_spec, Hx. split.
  - by intros (y & [= ->] & ->).
  - intros <-. by exists x.
Qed.

Lemma SELECT_fact_length today d :
  references_exist d -> transactions_resolve_once d ->
  Forall (fun r =>
            length (filter (fun k => LoadWarehouse.q_product_id r = k.2)
                      (LoadWarehouse.SELECT_current_product_keys
                         (loaded_dimensions today d))) = 1%nat)
    (LoadWarehouse.SELECT_fact d) ->
  length (LoadWarehouse.SELECT_fact d)
  = length (production_transaction_items (production d)).
Proof.
  intros Href Htx Hres. unfold LoadWarehouse.SELECT_fact.
  apply length_bind_one. intros ti Hti.
  unfold references_exist, transactions_resolve_once in *.
  rewrite list.Forall_forall in Href, Htx.
  destruct (Href ti Hti) as [Het Hep].
  rewrite length_bind_one; [by apply Htx|].
  intros t _. rewrite length_bind_one; [by apply (product_matches_once today)|].
  done.
Qed.

Lemma keyed_fact_rows d keyed :
  keyed_fact d = Ok keyed -> keyed.*1 = LoadWarehouse.SELECT_fact d.
Proof.
  unfold keyed_fact. generalize (LoadWarehouse.SELECT_fact d). intros l.
  revert keyed. induction l as [|r l IH]; intros keyed; simpl.
  - by intros [= <-].
  - destruct (LoadWarehouse.date_key_of _) as [k|e]; [|discriminate]. simpl.
    destruct (rmap _ l) as [ks|e]; [|discriminate]. simpl.
    intros [= <-]. simpl. f_equal. by apply IH.
Qed.

Lemma keyed_fact_total d :
  dates_present d -> exists keyed, keyed_fact d = Ok keyed.
Proof.
  unfold dates_present, keyed_fact.
  generalize (LoadWarehouse.SELECT_fact d). intros l.
  induction 1 as [|r l [x Hx] _ [ks IH]]; simpl; [by eexists|].
  rewrite Hx, IH. simpl. by eexists.
Qed.

Lemma assembled_fact_length dims keyed :
  Forall (keys_resolve_once dims) keyed.*1 ->
  length (assembled_fact dims keyed) = length keyed.
Proof.
  intros Hres. rewrite list.Forall_forall in Hres.
  unfold assembled_fact. rewrite length_fmap.
  assert (forall x, x ∈ (fun x => (x, LoadWarehouse.discount_amount x.1)) <$> keyed
                    -> keys_resolve_once dims x.1.1) as H0.
  { intros x (y & -> & Hy)%list_elem_of_fmap. simpl.
    apply Hres, list_elem_of_fmap. by exists y. }
  apply merge_length_eq.
  { intros x Hx%merge_left%merge_left. by apply (H0 x.1.1). }
  apply merge_length_eq.
  { intros x Hx%merge_left. by apply (H0 x.1). }
  apply merge_length_eq.
  { intros x Hx. by apply (H0 x). }
  by rewrite length_fmap.
Qed.

(** ** C4: fact completeness *)

(** Clean input as specified: every reference of the single item exists and
    every referenced key resolves once in its dimension, but the item's
    transaction is stored twice in production.transactions; the load
    completes with two fact rows for the one item. *)
Lemma fact_completeness_counterexample :
  clean_input_as_specified 739000 ex_double_transaction
  /\ (LoadWarehouse.main 739000 ex_double_transaction None).1 = Ok tt
  /\ length (fact_sales
               (warehouse (LoadWarehouse.main 739000 ex_double_transaction None).2))
     = 2%nat
  /\ length (production_transaction_items (production ex_double_transaction))
     = 1%nat.
Proof.
  split; [|vm_compute; repeat split].
  split.
  - repeat constructor.
  - assert (LoadWarehouse.SELECT_fact ex_double_transaction
            = [LoadWarehouse.FactQueryRow (Some "TXN00001"%string) (Some 2%Q)
                 (Some 100%Q) (Some 0%Q) (Some (100 * 2)%Q)
                 (Some ((100 * 2) - (60 * 2))%Q) (Some 738886)
                 (Some "UPI"%string) (Some "CUST0001"%string)
                 (Some "PROD0001"%string);
               LoadWarehouse.FactQueryRow (Some "TXN00001"%string) (Some 2%Q)
                 (Some 100%Q) (Some 0%Q) (Some (100 * 2)%Q)
                 (Some ((100 * 2) - (60 * 2))%Q) (Some 738886)
                 (Some "UPI"%string) (Some "CUST0001"%string)
                 (Some "PROD0001"%string)]) as -> by (vm_compute; reflexivity).
    repeat constructor; vm_compute; reflexivity.
Qed.

(** A transaction without a date: the load raises and writes nothing. *)
Lemma fact_completeness_without_date :
  references_exist ex_no_date /\ transactions_resolve_once ex_no_date
  /\ (LoadWarehouse.main 739000 ex_no_date None).1 = Raise AttributeError
  /\ fact_sales (warehouse (LoadWarehouse.main 739000 ex_no_date None).2) = [].
Proof.
  split; [repeat constructor|]. split; [repeat constructor|].
  vm_compute. split; reflexivity.
Qed.

(** C4 (amended). Let every item's transaction_id match exactly one row of
    production.transactions and its product_id exist in production.products,
    let every joined transaction have a date, and let the customer, product
    and payment method of every joined row have exactly one matching current
    row in the dimension the load builds. Then the load completes when the
    store does not fail, and every run of the load that completes leaves
    count(fact_sales) = count(transaction_items). *)
Theorem fact_completeness (today : Z) (d : database) (flt : option nat) :
  references_exist d ->
  transactions_resolve_once d ->
  dates_present d ->
  Forall (keys_resolve_once (LoadWarehouse.main today d None).2)
    (LoadWarehouse.SELECT_fact d) ->
  (LoadWarehouse.main today d None).1 = Ok tt
  /\ (is_ok (LoadWarehouse.main today d flt).1 = true ->
      length (fact_sales (warehouse (LoadWarehouse.main today d flt).2))
      = length (production_transaction_items (production d))).
Proof.
  intros Href Htx (keyed & Hkeyed)%keyed_fact_total.
  assert (forall f, is_ok (LoadWarehouse.main today d f).1 = true ->
                    LoadWarehouse.main today d f
                    = LoadWarehouse.main today d None) as Hsame.
  { intros f. destruct (LoadWarehouse.main today d f) as [[[]|e] d'] eqn:E;
      [intros _|intros H; discriminate H].
    symmetry. by apply (load_completed today d f). }
  rewrite (load_run today d keyed Hkeyed) in *. intros Hres.
  split; [reflexivity|]. intros ->%Hsame.
  cbn [snd loaded warehouse set_warehouse fact_sales].
  assert (Forall (keys_resolve_once (loaded_dimensions today d))
            (LoadWarehouse.SELECT_fact d)) as Hres' by exact Hres.
  rewrite assembled_fact_length by (by rewrite (keyed_fact_rows d keyed)).
  rewrite <- (length_fmap fst keyed), (keyed_fact_rows d keyed Hkeyed).
  apply (SELECT_fact_length today); [done|done|].
  eapply list.Forall_impl; [exact Hres'|]. by intros r (_ & Hp & _).
Qed.

(** The load of [ex_production]. *)
Lemma fact_completeness_witness :
  (LoadWarehouse.main 739000 ex_production None).1 = Ok tt
  /\ length (fact_sales
               (warehouse (LoadWarehouse.main 739000 ex_production None).2))
     = length (production_transaction_items (production ex_production)).
Proof.
  assert (LoadWarehouse.SELECT_fact ex_production
          = [LoadWarehouse.FactQueryRow (Some "TXN00001"%string) (Some 2%Q)
               (Some 100%Q) (Some 0%Q) (Some (100 * 2)%Q)
               (Some ((100 * 2) - (60 * 2))%Q) (Some 738886)
               (Some "UPI"%string) (Some "CUST0001"%string)
               (Some "PROD0001"%string)]) as H by (vm_compute; reflexivity).
  destruct (fact_completeness 739000 ex_production None) as [Hok Hlen].
  - repeat constructor.
  - repeat constructor.
  - unfold dates_present. rewrite H. repeat constructor. by eexists.
  - rewrite H. repeat constructor; vm_compute; reflexivity.
  - split; [exact Hok|]. apply Hlen. vm_compute. reflexivity.
Defined.
(** * More on the text helpers *)

(** X1. What [clean_text] answers on a string is that string without the
    whitespace at its two ends: the result is framed in the argument by two
    runs of whitespace, and it neither starts nor ends with whitespace,
    where whitespace is what [str.isspace] accepts, the no-break space and
    the line separator included. On None and NaN the answer is None, never
    a string. *)
Theorem clean_text_trims (val : pyval) (s : string) :
  clean_text val = PStr s ->
  (exists l r, val = PStr (l +:+ (s +:+ r)) /\ whitespace l /\ whitespace r)
  /\ trimmed s.
Proof.
  destruct val as [| |v]; [done|done|].
  unfold clean_text. cbn [isna str]. intros [= <-].
  destruct (strip_trims v) as [(l & r & H & Hl & Hr) Ht].
  split; [|done]. exists l, r. by rewrite <- H.
Qed.

Lemma clean_text_trims_witness :
  clean_text (PStr ex_name) = PStr "Ann" /\ trimmed "Ann".
Proof.
  split; [vm_compute; reflexivity|].
  apply (clean_text_trims (PStr ex_name) "Ann"). vm_compute. reflexivity.
Defined.

(** X2. [clean_text] is idempotent: cleaning a cleaned value changes
    nothing. *)
Theorem clean_text_idempotent (val : pyval) :
  clean_text (clean_text val) = clean_text val.
Proof.
  destruct val as [| |v]; [done|done|].
  unfold clean_text. cbn [isna str]. f_equal. apply strip_idempotent.
Qed.

Lemma clean_email_str (s : string) :
  s <> "" -> clean_email (PStr s) = Ok (PStr (lower (strip s))).
Proof. by destruct s. Qed.

Lemma clean_email_Ok_str (email : pyval) (t : string) :
  clean_email email = Ok (PStr t) ->
  exists s, email = PStr s /\ s <> "" /\ t = lower (strip s).
Proof.
  destruct email as [| |[|c s]]; try done.
  intros [= <-]. by exists (String c s).
Qed.

(** X3. An address answered by [clean_email] is in normal form: it has no
    whitespace at its ends, no capital letter of the ASCII alphabet, and
    lowering it again changes nothing. It is the lower case of the argument
    without the whitespace at its two ends; when that has ASCII characters
    only, the answer is it with each capital replaced by its small
    letter. *)
Theorem clean_email_normal_form (email : pyval) (t : string) :
  clean_email email = Ok (PStr t) ->
  trimmed t
  /\ no_capital t
  /\ lower t = t
  /\ exists s u,
       email = PStr s /\ s <> "" /\ trims s u /\ lowers u t
       /\ u = strip s /\ t = lower u.
Proof.
  intros (s & -> & Hs & ->)%clean_email_Ok_str.
  destruct (lower_lowers (strip s)) as (Hcap & Hfix & Hascii).
  split; [apply lower_trimmed, strip_trims|]. split; [done|]. split; [done|].
  exists s, (strip s). split; [done|]. split; [done|].
  split; [apply strip_trims|]. split; [apply lower_lowers|]. done.
Qed.

Lemma clean_email_normal_form_witness :
  clean_email (PStr ex_address) = Ok (PStr (utf8 0xE9 +:+ "ve@example.com"))
  /\ trimmed (utf8 0xE9 +:+ "ve@example.com").
Proof.
  split; [vm_compute; reflexivity|].
  apply (clean_email_normal_form (PStr ex_address)). vm_compute. reflexivity.
Defined.

(** X4. The empty string is tested before the address is trimmed: an
    address that is not empty but holds whitespace only - whatever
    [str.isspace] accepts - is answered as the empty string, whereas the
    empty address, like None, is answered as None. *)
Theorem clean_email_blank (s : string) :
  (clean_email (PStr s) = Ok (PStr "") <-> s <> "" /\ whitespace s)
  /\ (clean_email (PStr s) = Ok PNone <-> s = "").
Proof.
  split; split.
  - intros (s' & [= <-] & Hs & Ht)%clean_email_Ok_str. split; [done|].
    symmetry in Ht. by apply lower_empty_iff, strip_empty_iff in Ht.
  - intros [Hs Ha]. rewrite (clean_email_str s Hs).
    apply strip_empty_iff in Ha. by rewrite Ha.
  - destruct s; [done|]. discriminate.
  - by intros ->.
Qed.

(** X5. [clean_email] leaves the addresses it answered as they are, the
    empty one apart (which it turns into None). *)
Theorem clean_email_idempotent (email : pyval) (t : string) :
  clean_email email = Ok (PStr t) -> t <> "" ->
  clean_email (PStr t) = Ok (PStr t).
Proof.
  intros (s & -> & Hs & ->)%clean_email_Ok_str Ht.
  rewrite (clean_email_str _ Ht). do 2 f_equal.
  rewrite (trimmed_strip (lower (strip s))).
  - apply lower_idempotent.
  - apply lower_trimmed, strip_trims.
Qed.

Lemma clean_email_idempotent_witness :
  clean_email (PStr "ann.lee@example.com") = Ok (PStr "ann.lee@example.com").
Proof.
  apply (clean_email_idempotent (PStr " Ann.LEE@Example.com "));
    [vm_compute; reflexivity|].
  discriminate.
Defined.

(** * More on the Cleansing Stage *)

(** The rows a run appends are staged rows that pass their rule and whose
    key production did not hold. *)
Lemma new_transactions_spec d r :
  r ∈ new_transactions d ->
  transaction_ok r
  /\ (t_transaction_id r ∉ t_transaction_id <$> production_transactions (production d))
  /\ exists t, Staged r t ∈ staging_transactions (staging d).
Proof.
  intros Hr. split; [|split].
  - pose proof (new_transactions_ok d) as H. rewrite list.Forall_forall in H. auto.
  - unfold new_transactions in Hr.
    apply list_elem_of_fmap in Hr as (x & -> & Hx).
    apply list_elem_of_filter in Hx as [Hx _]. unfold StagingToProduction.isin in Hx.
    apply negb_true_iff, bool_decide_eq_false in Hx. exact Hx.
  - unfold new_transactions in Hr.
    apply list_elem_of_fmap in Hr as ([x t] & -> & Hx).
    apply list_elem_of_filter in Hx as [_ Hx].
    apply list_elem_of_filter in Hx as [_ Hx]. by exists t.
Qed.

Lemma new_items_spec d r :
  r ∈ new_items d ->
  item_ok r
  /\ (i_item_id r ∉ i_item_id <$> production_transaction_items (production d))
  /\ exists t, Staged r t ∈ staging_transaction_items (staging d).
Proof.
  intros Hr. split; [|split].
  - pose proof (new_items_ok d) as H. rewrite list.Forall_forall in H. auto.
  - unfold new_items in Hr.
    apply list_elem_of_fmap in Hr as (x & -> & Hx).
    apply list_elem_of_filter in Hx as [Hx _]. unfold StagingToProduction.isin in Hx.
    apply negb_true_iff, bool_decide_eq_false in Hx. exact Hx.
  - unfold new_items in Hr.
    apply list_elem_of_fmap in Hr as ([x t] & -> & Hx).
    apply list_elem_of_filter in Hx as [_ Hx].
    apply list_elem_of_filter in Hx as [_ Hx]. by exists t.
Qed.

(** The stage reads staging and writes production only. *)
Lemma cleansing_keeps_others d flt :
  staging (StagingToProduction.main d flt).2 = staging d
  /\ warehouse (StagingToProduction.main d flt).2 = warehouse d.
Proof.
  assert (keeps (fun x => staging x = staging d /\ warehouse x = warehouse d)
            StagingToProduction.main_body) as Hk.
  { unfold StagingToProduction.main_body. keeps_tac; assumption. }
  unfold StagingToProduction.main, engine_begin.
  destruct (StagingToProduction.main_body (Conn d 0 flt)) as [[a|e] c] eqn:E.
  - apply (Hk (Conn d 0 flt) _ _ (conj eq_refl eq_refl) E).
  - apply (Hk (Conn d 0 flt) _ _ (conj eq_refl eq_refl)) in E as [_ E].
    cbn [snd]. unfold rollback, set_warehouse. cbn [staging warehouse].
    rewrite E. split; [done|]. by destruct (warehouse d).
Qed.

(** What a run leaves, completed or not. *)
Lemma cleansing_outcome d flt :
  exists txns items,
    production_transactions (production (StagingToProduction.main d flt).2)
    = production_transactions (production d) ++ txns
    /\ production_transaction_items (production (StagingToProduction.main d flt).2)
       = production_transaction_items (production d) ++ items
    /\ txns ⊆ new_transactions d /\ items ⊆ new_items d
    /\ (is_ok (StagingToProduction.main d flt).1 = true ->
        txns = new_transactions d /\ items = new_items d).
Proof.
  destruct (StagingToProduction.main d flt) as [[s|e] d'] eqn:E.
  - apply cleansing_production in E as (_ & _ & _ & _ & Ht & Hi & _).
    cbn [snd fst]. exists (new_transactions d), (new_items d). by repeat split.
  - pose proof (cleansing_failed d flt e) as H. rewrite E in H.
    specialize (H eq_refl). clear E. cbn [snd fst] in *.
    injection H as _ Hp _. rewrite Hp.
    exists [], []. rewrite !app_nil_r. repeat split; try done.
    all: apply list_subseteq_nil.
Qed.

(** X6. The stage only ever appends to production.transactions and
    production.transaction_items: whatever the outcome of a run, the rows
    that were there are still there, unchanged and in place, followed by
    the rows the run added; an added row is a staged row that passes its
    rule and whose key production did not hold, so a staged row whose key
    exists is never applied as an update. Staging and the warehouse are
    left as they were. *)
Theorem cleansing_append_only (d : database) (flt : option nat) :
  let d' := (StagingToProduction.main d flt).2 in
  staging d' = staging d /\ warehouse d' = warehouse d
  /\ (exists txns,
        production_transactions (production d')
        = production_transactions (production d) ++ txns
        /\ Forall (fun r =>
             (t_transaction_id r
                ∉ t_transaction_id <$> production_transactions (production d))
             /\ transaction_ok r
             /\ exists t, Staged r t ∈ staging_transactions (staging d)) txns)
  /\ (exists items,
        production_transaction_items (production d')
        = production_transaction_items (production d) ++ items
        /\ Forall (fun r =>
             (i_item_id r
                ∉ i_item_id <$> production_transaction_items (production d))
             /\ item_ok r
             /\ exists t, Staged r t ∈ staging_transaction_items (staging d))
             items).
Proof.
  intros d'. subst d'.
  destruct (cleansing_keeps_others d flt) as [Hs Hw].
  destruct (cleansing_outcome d flt) as (txns & items & Ht & Hi & Htn & Hin & _).
  split; [done|]. split; [done|]. split.
  - exists txns. split; [done|]. apply list.Forall_forall. intros r Hr.
    apply Htn, new_transactions_spec in Hr as (? & ? & ?). by repeat split.
  - exists items. split; [done|]. apply list.Forall_forall. intros r Hr.
    apply Hin, new_items_spec in Hr as (? & ? & ?). by repeat split.
Qed.

Lemma staged_keys_NoDup {R} (key : R -> text) (P Q : staged R -> Prop)
    `{forall x, Decision (P x)} `{forall x, Decision (Q x)}
    (L : list (staged R)) :
  NoDup (key <$> (payload <$> L)) ->
  NoDup (key <$> (payload <$> filter P (filter Q L))).
Proof.
  intros HL. eapply sublist_NoDup; [exact HL|].
  do 2 apply fmap_sublist.
  etrans; apply sublist_filter.
Qed.

(** X7. Distinct keys stay distinct: when the transaction ids of
    production.transactions are pairwise distinct and so are those of the
    staged transactions, the ids of production.transactions are pairwise
    distinct after the run, whatever its outcome; likewise for the item ids
    of production.transaction_items. *)
Theorem cleansing_preserves_unique_keys (d : database) (flt : option nat) :
  let d' := (StagingToProduction.main d flt).2 in
  (NoDup (t_transaction_id <$> production_transactions (production d)) ->
   NoDup (t_transaction_id <$> (payload <$> staging_transactions (staging d))) ->
   NoDup (t_transaction_id <$> production_transactions (production d')))
  /\ (NoDup (i_item_id <$> production_transaction_items (production d)) ->
      NoDup (i_item_id <$> (payload <$> staging_transaction_items (staging d))) ->
      NoDup (i_item_id <$> production_transaction_items (production d'))).
Proof.
  intros d'. subst d'.
  destruct (cleansing_outcome d flt) as (txns & items & Ht & Hi & Htn & Hin & Hok).
  assert (forall {R} (key : R -> text) (K new sub : list R),
            NoDup (key <$> K) -> NoDup (key <$> new) ->
            (forall r, r ∈ new -> key r ∉ key <$> K) ->
            sub = [] \/ sub = new ->
            NoDup (key <$> (K ++ sub))) as Happ.
  { intros R key K new sub HK Hnew Hfresh [-> | ->].
    - by rewrite app_nil_r.
    - rewrite fmap_app. apply list.NoDup_app. split; [done|]. split; [|done].
      intros k Hk (r & -> & Hr)%list_elem_of_fmap. by apply (Hfresh r). }
  assert (txns = [] \/ txns = new_transactions d) as Ht'.
  { destruct (StagingToProduction.main d flt) as [[s|e] d'] eqn:E.
    - right. by apply Hok.
    - left. clear Hok. pose proof (cleansing_failed d flt e) as H. rewrite E in H.
      specialize (H eq_refl). clear E. cbn [snd] in *.
      injection H as _ Hp _. rewrite Hp in Ht.
      apply (f_equal length) in Ht. rewrite length_app in Ht.
      destruct txns; [done|]. simpl in Ht. lia. }
  assert (items = [] \/ items = new_items d) as Hi'.
  { destruct (StagingToProduction.main d flt) as [[s|e] d'] eqn:E.
    - right. by apply Hok.
    - left. clear Hok. pose proof (cleansing_failed d flt e) as H. rewrite E in H.
      specialize (H eq_refl). clear E. cbn [snd] in *.
      injection H as _ Hp _. rewrite Hp in Hi.
      apply (f_equal length) in Hi. rewrite length_app in Hi.
      destruct items; [done|]. simpl in Hi. lia. }
  clear Hok. split.
  - intros HK HL. rewrite Ht.
    apply (Happ _ _ _ (new_transactions d)); [done| | |done].
    + unfold new_transactions. by apply staged_keys_NoDup.
    + intros r Hr. by apply new_transactions_spec in Hr as (_ & ? & _).
  - intros HK HL. rewrite Hi.
    apply (Happ _ _ _ (new_items d)); [done| | |done].
    + unfold new_items. by apply staged_keys_NoDup.
    + intros r Hr. by apply new_items_spec in Hr as (_ & ? & _).
Qed.

Lemma cleansing_preserves_unique_keys_witness :
  NoDup (t_transaction_id <$> production_transactions
           (production (StagingToProduction.main ex_empty None).2))
  /\ length (production_transactions
               (production (StagingToProduction.main ex_empty None).2)) = 1%nat.
Proof.
  split; [|vm_compute; reflexivity].
  apply (proj1 (cleansing_preserves_unique_keys ex_empty None)).
  - vm_compute. constructor.
  - vm_compute. apply NoDup_singleton.
Defined.

(** X8. After a completed run every staged transaction with a positive
    total amount has its id in production.transactions, and every staged
    item with a positive quantity has its id in production.transaction_items:
    the merge leaves out no valid key. *)
Theorem merge_completeness (d d' : database) (flt : option nat)
    (s : StagingToProduction.summary) :
  StagingToProduction.main d flt = (Ok s, d') ->
  Forall (fun st =>
            transaction_ok (payload st) ->
            t_transaction_id (payload st)
              ∈ t_transaction_id <$> production_transactions (production d'))
    (staging_transactions (staging d))
  /\ Forall (fun st =>
               item_ok (payload st) ->
               i_item_id (payload st)
                 ∈ i_item_id <$> production_transaction_items (production d'))
       (staging_transaction_items (staging d)).
Proof.
  intros (_ & _ & _ & _ & Ht & Hi & _)%cleansing_production.
  rewrite Ht, Hi. split; apply list.Forall_forall; intros st Hst Hok;
    rewrite fmap_app, elem_of_app.
  - destruct (decide (t_transaction_id (payload st)
                        ∈ t_transaction_id <$> production_transactions (production d)))
      as [Hin|Hout]; [by left|right].
    apply list_elem_of_fmap. exists (payload st). split; [done|].
    unfold new_transactions. apply list_elem_of_fmap. exists st. split; [done|].
    apply list_elem_of_filter. split.
    + unfold StagingToProduction.isin. by rewrite bool_decide_eq_false_2.
    + apply list_elem_of_filter. split; [|done].
      apply num_gt_zero. destruct Hok as (a & Ha & Hpos). by exists a.
  - destruct (decide (i_item_id (payload st)
                        ∈ i_item_id <$> production_transaction_items (production d)))
      as [Hin|Hout]; [by left|right].
    apply list_elem_of_fmap. exists (payload st). split; [done|].
    unfold new_items. apply list_elem_of_fmap. exists st. split; [done|].
    apply list_elem_of_filter. split.
    + unfold StagingToProduction.isin. by rewrite bool_decide_eq_false_2.
    + apply list_elem_of_filter. split; [|done].
      apply num_gt_zero. destruct Hok as (a & Ha & Hpos). by exists a.
Qed.

Lemma merge_completeness_witness :
  Forall (fun st =>
            transaction_ok (payload st) ->
            t_transaction_id (payload st)
              ∈ t_transaction_id <$> production_transactions
                  (production (StagingToProduction.main ex_empty None).2))
    (staging_transactions (staging ex_empty)).
Proof.
  pose proof (merge_completeness ex_empty
                (StagingToProduction.main ex_empty None).2 None
                (StagingToProduction.Summary
                (StagingToProduction.TableSummary 3 3 0 [])
                (StagingToProduction.TableSummary 1 1 0 [])
                (StagingToProduction.TableSummary 1 1 0 [])
                (StagingToProduction.TableSummary 1 1 0 []))) as H.
  destruct H as [H _]; [vm_compute; reflexivity|exact H].
Defined.

(** X9. The counts of a completed run's summary are the rows the run wrote:
    [output] is the number of rows of production.customers and of
    production.products after the run, and the number of rows the run added
    to production.transactions and production.transaction_items; for every
    table [input] equals [output], [filtered] is 0 and no rejection reason
    is given. *)
Theorem summary_reports_rows_written (d d' : database) (flt : option nat)
    (s : StagingToProduction.summary) :
  StagingToProduction.main d flt = (Ok s, d') ->
  let out t := StagingToProduction.output t in
  out (StagingToProduction.s_customers s)
  = length (production_customers (production d'))
  /\ out (StagingToProduction.s_products s)
     = length (production_products (production d'))
  /\ length (production_transactions (production d'))
     = (length (production_transactions (production d))
        + out (StagingToProduction.s_transactions s))%nat
  /\ length (production_transaction_items (production d'))
     = (length (production_transaction_items (production d))
        + out (StagingToProduction.s_transaction_items s))%nat
  /\ Forall (fun t =>
               StagingToProduction.input t = StagingToProduction.output t
               /\ StagingToProduction.filtered t = 0%nat
               /\ StagingToProduction.rejected_reasons t = [])
       [StagingToProduction.s_customers s; StagingToProduction.s_products s;
        StagingToProduction.s_transactions s;
        StagingToProduction.s_transaction_items s].
Proof.
  intros H%cleansing_completed. rewrite cleansing_run in H.
  injection H as <- <-. cbn beta iota zeta delta
    [StagingToProduction.output StagingToProduction.input
     StagingToProduction.filtered StagingToProduction.rejected_reasons
     StagingToProduction.s_customers StagingToProduction.s_products
     StagingToProduction.s_transactions StagingToProduction.s_transaction_items
     production production_customers production_products
     production_transactions production_transaction_items].
  rewrite !length_app. repeat split; repeat constructor.
Qed.

Lemma summary_reports_rows_written_witness :
  StagingToProduction.output
    (StagingToProduction.s_customers
       (StagingToProduction.Summary
                (StagingToProduction.TableSummary 3 3 0 [])
                (StagingToProduction.TableSummary 1 1 0 [])
                (StagingToProduction.TableSummary 1 1 0 [])
                (StagingToProduction.TableSummary 1 1 0 [])))
  = length (production_customers
              (production (StagingToProduction.main ex_empty None).2)).
Proof.
  pose proof (summary_reports_rows_written ex_empty
                (StagingToProduction.main ex_empty None).2 None
                (StagingToProduction.Summary
                (StagingToProduction.TableSummary 3 3 0 [])
                (StagingToProduction.TableSummary 1 1 0 [])
                (StagingToProduction.TableSummary 1 1 0 [])
                (StagingToProduction.TableSummary 1 1 0 []))) as H.
  destruct H as [H _]; [vm_compute; reflexivity|exact H].
Defined.

(** X10. The stage rejects no customer: a completed run writes one row to
    production.customers for every staged customer, in the staged order,
    with the id, phone, registration date, city, state, country and age
    group it was staged with - whatever these are, a missing id included. *)
Theorem customers_never_rejected (d d' : database) (flt : option nat)
    (s : StagingToProduction.summary) :
  StagingToProduction.main d flt = (Ok s, d') ->
  length (production_customers (production d'))
  = length (staging_customers (staging d))
  /\ Forall2
       (fun st r =>
          c_customer_id r = c_customer_id (payload st)
          /\ c_phone r = c_phone (payload st)
          /\ c_registration_date r = c_registration_date (payload st)
          /\ c_city r = c_city (payload st)
          /\ c_state r = c_state (payload st)
          /\ c_country r = c_country (payload st)
          /\ c_age_group r = c_age_group (payload st))
       (staging_customers (staging d))
       (production_customers (production d')).
Proof.
  intros (_ & _ & Hc & _)%cleansing_production. rewrite Hc.
  unfold cleansed_customers. rewrite !length_fmap. split; [done|].
  rewrite <- list_fmap_compose. apply Forall2_fmap_r, Forall_Forall2_diag.
  apply list.Forall_forall. intros st _. by repeat split.
Qed.

Lemma customers_never_rejected_witness :
  length (production_customers
            (production (StagingToProduction.main ex_empty None).2))
  = length (staging_customers (staging ex_empty)).
Proof.
  pose proof (customers_never_rejected ex_empty
                (StagingToProduction.main ex_empty None).2 None
                (StagingToProduction.Summary
                (StagingToProduction.TableSummary 3 3 0 [])
                (StagingToProduction.TableSummary 1 1 0 [])
                (StagingToProduction.TableSummary 1 1 0 [])
                (StagingToProduction.TableSummary 1 1 0 []))) as H.
  destruct H as [H _]; [vm_compute; reflexivity|exact H].
Defined.

(** * More on the warehouse load *)

(** ** The dimensions *)

Lemma with_keys_cons {B} seq (r : Z -> B) (df : list (Z -> B)) :
  LoadWarehouse.with_keys seq (r :: df)
  = r seq :: LoadWarehouse.with_keys (seq + 1) df.
Proof.
  unfold LoadWarehouse.with_keys. rewrite imap_cons. f_equal.
  - f_equal. lia.
  - apply imap_ext. intros i x _. simpl. f_equal. lia.
Qed.

(** The rows of a frame are stored in order, each with a key. *)
Lemma with_keys_rows {A B} (g : A -> Z -> B) seq (l : list A) :
  Forall2 (fun a b => exists k, b = g a k) l
    (LoadWarehouse.with_keys seq (g <$> l)).
Proof.
  revert seq. induction l as [|a l IH]; intros seq; [constructor|].
  rewrite fmap_cons, with_keys_cons. constructor; [by exists seq|apply IH].
Qed.

(** The keys are consecutive values of the sequence. *)
Lemma with_keys_keys {A B} (key : B -> Z) (g : A -> Z -> B) seq (l : list A) :
  (forall a k, key (g a k) = k) ->
  key <$> LoadWarehouse.with_keys seq (g <$> l) = seqZ seq (Z.of_nat (length l)).
Proof.
  intros Hkey. revert seq. induction l as [|a l IH]; intros seq; [done|].
  rewrite fmap_cons, with_keys_cons, fmap_cons, Hkey, IH.
  rewrite (seqZ_cons seq) by (simpl; lia). f_equal. f_equal; simpl; lia.
Qed.

(** A column that does not depend on the key is the frame's column. *)
Lemma with_keys_column {A B C} (col : B -> C) (g : A -> Z -> B) (h : A -> C)
    seq (l : list A) :
  (forall a k, col (g a k) = h a) ->
  col <$> LoadWarehouse.with_keys seq (g <$> l) = h <$> l.
Proof.
  intros Hcol. revert seq. induction l as [|a l IH]; intros seq; [done|].
  by rewrite fmap_cons, with_keys_cons, !fmap_cons, Hcol, IH.
Qed.

Lemma loaded_warehouse today d keyed :
  let w := warehouse (loaded today d keyed) in
  dim_date w = dim_date_2024
  /\ dim_payment_method w
     = LoadWarehouse.with_keys (seq_payment_method_key (warehouse d))
         ((fun x key => DimPaymentMethodRow key x (LoadWarehouse.payment_type x))
            <$> LoadWarehouse.SELECT_DISTINCT_payment_method d)
  /\ dim_customers w
     = LoadWarehouse.with_keys (seq_customer_key (warehouse d))
         (LoadWarehouse.dim_customer_frame today
            <$> production_customers (production d))
  /\ dim_products w
     = LoadWarehouse.with_keys (seq_product_key (warehouse d))
         (LoadWarehouse.dim_product_frame today
            <$> production_products (production d))
  /\ fact_sales w = assembled_fact (loaded_dimensions today d) keyed
  /\ agg_daily_sales w
     = LoadWarehouse.daily_sales (assembled_fact (loaded_dimensions today d) keyed).
Proof. repeat split. Qed.

(** X11. After a completed load warehouse.dim_payment_method holds one row
    for each distinct payment method of production.transactions (a missing
    method counts as one of them), with distinct keys; the payment type of a
    row is Offline when its name is Cash on Delivery and Online in every
    other case, a missing name included. What the table held before is
    gone. *)
Theorem dim_payment_method_loaded (today : Z) (d d' : database)
    (flt : option nat) :
  LoadWarehouse.main today d flt = (Ok tt, d') ->
  let dim := dim_payment_method (warehouse d') in
  NoDup (dpm_payment_method_name <$> dim)
  /\ (forall x, x ∈ dpm_payment_method_name <$> dim
                <-> x ∈ t_payment_method <$> production_transactions (production d))
  /\ NoDup (dpm_payment_method_key <$> dim)
  /\ Forall (fun r =>
               (dpm_payment_method_name r = Some "Cash on Delivery"%string
                /\ dpm_payment_type r = Some "Offline"%string)
               \/ (dpm_payment_method_name r <> Some "Cash on Delivery"%string
                   /\ dpm_payment_type r = Some "Online"%string))
       dim.
Proof.
  intros (keyed & _ & ->)%load_Ok dim. subst dim.
  destruct (loaded_warehouse today d keyed) as (_ & -> & _).
  set (g := fun x key => DimPaymentMethodRow key x (LoadWarehouse.payment_type x)).
  pose proof (with_keys_rows g (seq_payment_method_key (warehouse d))
                (LoadWarehouse.SELECT_DISTINCT_payment_method d)) as Hrows.
  assert (dpm_payment_method_name
            <$> LoadWarehouse.with_keys (seq_payment_method_key (warehouse d))
                  (g <$> LoadWarehouse.SELECT_DISTINCT_payment_method d)
          = LoadWarehouse.SELECT_DISTINCT_payment_method d) as Hnames.
  { rewrite (with_keys_column dpm_payment_method_name g id) by done.
    apply list_fmap_id. }
  rewrite Hnames. repeat split.
  - apply NoDup_remove_dups.
  - unfold LoadWarehouse.SELECT_DISTINCT_payment_method.
    by rewrite elem_of_remove_dups.
  - unfold LoadWarehouse.SELECT_DISTINCT_payment_method.
    by rewrite elem_of_remove_dups.
  - rewrite (with_keys_keys dpm_payment_method_key g) by done. apply NoDup_seqZ.
  - apply (Forall2_Forall_r _ _ _ _ Hrows).
    apply list.Forall_forall. intros x _ r (k & ->). subst g. simpl.
    unfold LoadWarehouse.payment_type. destruct (decide _); [by left|by right].
Qed.

Lemma dim_payment_method_loaded_witness :
  dpm_payment_method_name
    <$> dim_payment_method
          (warehouse (LoadWarehouse.main 739000 ex_production None).2)
  = [Some "UPI"%string]
  /\ NoDup (dpm_payment_method_name
              <$> dim_payment_method
                    (warehouse (LoadWarehouse.main 739000 ex_production None).2)).
Proof.
  split; [vm_compute; reflexivity|].
  pose proof (dim_payment_method_loaded 739000 ex_production
                (LoadWarehouse.main 739000 ex_production None).2 None) as H.
  destruct H as [H _]; [vm_compute; reflexivity|exact H].
Defined.

(** X12. After a completed load warehouse.dim_customers is a snapshot of
    production.customers: one row per customer, in order, with distinct
    keys; the row carries the customer's id, email, city, state, country,
    age group and registration date, its full name is the first and last
    name joined by a space, or missing when either is missing, and it is the
    current version, effective from the day of the load and without an end
    date. What the table held before is gone. *)
Theorem dim_customers_snapshot (today : Z) (d d' : database)
    (flt : option nat) :
  LoadWarehouse.main today d flt = (Ok tt, d') ->
  NoDup (dc_customer_key <$> dim_customers (warehouse d'))
  /\ Forall2
       (fun c r =>
          dc_customer_id r = c_customer_id c
          /\ dc_full_name r
             = match c_first_name c, c_last_name c with
               | Some first_name, Some last_name =>
                   Some ((first_name +:+ " ") +:+ last_name)
               | _, _ => None
               end
          /\ dc_email r = c_email c
          /\ dc_city r = c_city c
          /\ dc_state r = c_state c
          /\ dc_country r = c_country c
          /\ dc_age_group r = c_age_group c
          /\ dc_registration_date r = c_registration_date c
          /\ dc_effective_date r = Some today
          /\ dc_end_date r = None
          /\ dc_is_current r = true)
       (production_customers (production d))
       (dim_customers (warehouse d')).
Proof.
  intros (keyed & _ & ->)%load_Ok.
  destruct (loaded_warehouse today d keyed) as (_ & _ & -> & _). split.
  - rewrite (with_keys_keys dc_customer_key (LoadWarehouse.dim_customer_frame today))
      by done.
    apply NoDup_seqZ.
  - apply (list.Forall2_impl _ _ _ _
             (with_keys_rows (LoadWarehouse.dim_customer_frame today) _ _)).
    intros c r (k & ->). unfold LoadWarehouse.dim_customer_frame. simpl.
    repeat split. by destruct (c_first_name c), (c_last_name c).
Qed.

Lemma dim_customers_snapshot_witness :
  dc_full_name
    <$> dim_customers (warehouse (LoadWarehouse.main 739000 ex_production None).2)
  = [Some "Ann Lee"%string]
  /\ NoDup (dc_customer_key
              <$> dim_customers
                    (warehouse (LoadWarehouse.main 739000 ex_production None).2)).
Proof.
  split; [vm_compute; reflexivity|].
  pose proof (dim_customers_snapshot 739000 ex_production
                (LoadWarehouse.main 739000 ex_production None).2 None) as H.
  destruct H as [H _]; [vm_compute; reflexivity|exact H].
Defined.

(** The price bands, a missing price included. *)
Lemma price_range_spec (price : num) :
  match price with
  | Some x =>
      ((x < 50)%Q -> LoadWarehouse.price_range price = "Budget"%string)
      /\ ((50 <= x)%Q -> (x < 200)%Q ->
          LoadWarehouse.price_range price = "Mid-range"%string)
      /\ ((200 <= x)%Q -> LoadWarehouse.price_range price = "Premium"%string)
  | None => LoadWarehouse.price_range price = "Premium"%string
  end.
Proof.
  destruct price as [x|]; [|done].
  unfold LoadWarehouse.price_range, num_lt, num_gt, Qlt_b.
  destruct (Qle_bool 50 x) eqn:E50; destruct (Qle_bool 200 x) eqn:E200; simpl.
  all: try apply Qle_bool_iff in E50; try apply Qle_bool_iff in E200.
  all: try (assert (~ (50 <= x)%Q) as N50
              by (rewrite <- Qle_bool_iff; congruence)).
  all: try (assert (~ (200 <= x)%Q) as N200
              by (rewrite <- Qle_bool_iff; congruence)).
  all: repeat split; intros; try done.
  all: exfalso.
  all: try (apply Qlt_not_le in H; contradiction).
  all: try (apply Qlt_not_le in H0; contradiction).
  all: try contradiction.
  all: try (apply N50; eapply Qle_trans; [|eassumption]; discriminate).
Qed.

(** X13. After a completed load warehouse.dim_products is a snapshot of
    production.products: one row per product, in order, with distinct keys,
    carrying the product's id, name, category, sub-category and brand; its
    price range is Budget for a price below 50, Mid-range for a price from
    50 to below 200 and Premium from 200 on - and Premium as well when the
    price is missing; it is the current version, effective from the day of
    the load and without an end date. *)
Theorem dim_products_snapshot (today : Z) (d d' : database)
    (flt : option nat) :
  LoadWarehouse.main today d flt = (Ok tt, d') ->
  NoDup (dp_product_key <$> dim_products (warehouse d'))
  /\ Forall2
       (fun p r =>
          dp_product_id r = p_product_id p
          /\ dp_product_name r = p_product_name p
          /\ dp_category r = p_category p
          /\ dp_sub_category r = p_sub_category p
          /\ dp_brand r = p_brand p
          /\ match p_price p with
             | Some x =>
                 ((x < 50)%Q -> dp_price_range r = Some "Budget"%string)
                 /\ ((50 <= x)%Q -> (x < 200)%Q ->
                     dp_price_range r = Some "Mid-range"%string)
                 /\ ((200 <= x)%Q -> dp_price_range r = Some "Premium"%string)
             | None => dp_price_range r = Some "Premium"%string
             end
          /\ dp_effective_date r = Some today
          /\ dp_end_date r = None
          /\ dp_is_current r = true)
       (production_products (production d))
       (dim_products (warehouse d')).
Proof.
  intros (keyed & _ & ->)%load_Ok.
  destruct (loaded_warehouse today d keyed) as (_ & _ & _ & -> & _). split.
  - rewrite (with_keys_keys dp_product_key (LoadWarehouse.dim_product_frame today))
      by done.
    apply NoDup_seqZ.
  - apply (list.Forall2_impl _ _ _ _
             (with_keys_rows (LoadWarehouse.dim_product_frame today) _ _)).
    intros p r (k & ->). unfold LoadWarehouse.dim_product_frame.
    cbn [dp_product_id dp_product_name dp_category dp_sub_category dp_brand
         dp_price_range dp_effective_date dp_end_date dp_is_current].
    repeat split.
    pose proof (price_range_spec (p_price p)) as H.
    destruct (p_price p) as [x|].
    + destruct H as (H1 & H2 & H3).
      repeat split; intros; f_equal; auto.
    + by f_equal.
Qed.

Lemma dim_products_snapshot_witness :
  dp_price_range
    <$> dim_products (warehouse (LoadWarehouse.main 739000 ex_production None).2)
  = [Some "Mid-range"%string]
  /\ NoDup (dp_product_key
              <$> dim_products
                    (warehouse (LoadWarehouse.main 739000 ex_production None).2)).
Proof.
  split; [vm_compute; reflexivity|].
  pose proof (dim_products_snapshot 739000 ex_production
                (LoadWarehouse.main 739000 ex_production None).2 None) as H.
  destruct H as [H _]; [vm_compute; reflexivity|exact H].
Defined.

(** ** The fact table *)

Lemma elem_of_merge {L R} (lkey : L -> text) (rkey : R -> text)
    (left : list L) (right : list R) (x : L * R) :
  x ∈ LoadWarehouse.merge lkey rkey left right
  <-> x.1 ∈ left /\ x.2 ∈ right /\ lkey x.1 = rkey x.2.
Proof.
  unfold LoadWarehouse.merge. rewrite list_elem_of_bind. split.
  - intros (l & Hx & Hl). apply list_elem_of_fmap in Hx as (r & -> & Hr).
    by apply list_elem_of_filter in Hr as [? ?].
  - intros (Hl & Hr & E). exists x.1. split; [|done].
    apply list_elem_of_fmap. exists x.2. split; [by destruct x|].
    by apply list_elem_of_filter.
Qed.

Lemma rmap_Forall2 {A B} (f : A -> result B) (l : list A) (l' : list B) :
  rmap f l = Ok l' -> Forall2 (fun x y => f x = Ok y) l l'.
Proof.
  revert l'. induction l as [|x l IH]; intros l'; simpl.
  - intros [= <-]. constructor.
  - destruct (f x) as [y|] eqn:E; [|done]. simpl.
    destruct (rmap f l) as [ys|]; [|done]. simpl. intros [= <-].
    constructor; [done|by apply IH].
Qed.

(** A keyed row is a row of the join with the key of its date. *)
Lemma keyed_fact_spec d keyed x :
  keyed_fact d = Ok keyed -> x ∈ keyed ->
  x.1 ∈ LoadWarehouse.SELECT_fact d
  /\ exists date, LoadWarehouse.q_transaction_date x.1 = Some date
                  /\ x.2 = Calendar.yyyymmdd date.
Proof.
  intros H%rmap_Forall2 Hx.
  apply list_elem_of_lookup in Hx as [i Hi].
  destruct (Forall2_lookup_r _ _ _ _ _ H Hi) as (r & Hr & E).
  unfold LoadWarehouse.date_key_of in E.
  destruct (LoadWarehouse.q_transaction_date r) as [date|] eqn:Ed; [|done].
  simpl in E. injection E as <-. simpl. split.
  - by eapply list_elem_of_lookup_2.
  - by exists date.
Qed.

Lemma elem_of_SELECT_fact d r :
  r ∈ LoadWarehouse.SELECT_fact d <->
  exists ti t p,
    ti ∈ production_transaction_items (production d)
    /\ t ∈ production_transactions (production d)
    /\ p ∈ production_products (production d)
    /\ LoadWarehouse.sql_eq (i_transaction_id ti) (t_transaction_id t) = true
    /\ LoadWarehouse.sql_eq (i_product_id ti) (p_product_id p) = true
    /\ r = LoadWarehouse.FactQueryRow (i_transaction_id ti) (i_quantity ti)
             (i_unit_price ti) (i_discount_percentage ti) (i_line_total ti)
             (LoadWarehouse.num_op Qminus (i_line_total ti)
                (LoadWarehouse.num_op Qmult (p_cost p) (i_quantity ti)))
             (t_transaction_date t) (t_payment_method t) (t_customer_id t)
             (i_product_id ti).
Proof.
  unfold LoadWarehouse.SELECT_fact. rewrite list_elem_of_bind. split.
  - intros (ti & Hr & Hti). apply list_elem_of_bind in Hr as (t & Hr & Ht).
    apply list_elem_of_bind in Hr as (p & Hr & Hp).
    apply list_elem_of_singleton in Hr.
    apply list_elem_of_filter in Ht as [? ?]. apply list_elem_of_filter in Hp as [? ?].
    by exists ti, t, p.
  - intros (ti & t & p & Hti & Ht & Hp & Et & Ep & ->).
    exists ti. split; [|done]. apply list_elem_of_bind. exists t. split.
    + apply list_elem_of_bind. exists p. split; [apply list_elem_of_singleton; done|].
      by apply list_elem_of_filter.
    + by apply list_elem_of_filter.
Qed.

(** Where a row of the fact table comes from. *)
Lemma fact_row_origin today d flt d' f :
  LoadWarehouse.main today d flt = (Ok tt, d') ->
  f ∈ fact_sales (warehouse d') ->
  exists ti t p date dc dp dpm,
    ti ∈ production_transaction_items (production d)
    /\ t ∈ production_transactions (production d)
    /\ p ∈ production_products (production d)
    /\ LoadWarehouse.sql_eq (i_transaction_id ti) (t_transaction_id t) = true
    /\ LoadWarehouse.sql_eq (i_product_id ti) (p_product_id p) = true
    /\ t_transaction_date t = Some date
    /\ dc ∈ dim_customers (warehouse d')
    /\ dc_customer_id dc = t_customer_id t
    /\ dp ∈ dim_products (warehouse d')
    /\ dp_product_id dp = i_product_id ti
    /\ dpm ∈ dim_payment_method (warehouse d')
    /\ dpm_payment_method_name dpm = t_payment_method t
    /\ f = FactSalesRow (Calendar.yyyymmdd date) (dc_customer_key dc)
             (dp_product_key dp) (dpm_payment_method_key dpm)
             (i_transaction_id ti) (i_quantity ti) (i_unit_price ti)
             (LoadWarehouse.num_op Qmult
                (LoadWarehouse.num_op Qmult (i_unit_price ti) (i_quantity ti))
                (LoadWarehouse.num_op Qdiv (i_discount_percentage ti) (Some 100%Q)))
             (i_line_total ti)
             (LoadWarehouse.num_op Qminus (i_line_total ti)
                (LoadWarehouse.num_op Qmult (p_cost p) (i_quantity ti))).
Proof.
  intros (keyed & Hkeyed & ->)%load_Ok Hf.
  change (fact_sales (warehouse (loaded today d keyed)))
    with (assembled_fact (loaded_dimensions today d) keyed) in Hf.
  change (dim_customers (warehouse (loaded today d keyed)))
    with (dim_customers (warehouse (loaded_dimensions today d))).
  change (dim_products (warehouse (loaded today d keyed)))
    with (dim_products (warehouse (loaded_dimensions today d))).
  change (dim_payment_method (warehouse (loaded today d keyed)))
    with (dim_payment_method (warehouse (loaded_dimensions today d))).
  unfold assembled_fact in Hf.
  apply list_elem_of_fmap in Hf as ([[[[[r k] disc] c] dp] pm] & -> & Hx).
  apply elem_of_merge in Hx as (Hx & Hpm & Epm). cbn [fst snd] in Hx, Hpm, Epm.
  apply elem_of_merge in Hx as (Hx & Hp & Ep). cbn [fst snd] in Hx, Hp, Ep.
  apply elem_of_merge in Hx as (Hx & Hc & Ec). cbn [fst snd] in Hx, Hc, Ec.
  apply list_elem_of_fmap in Hx as ([r' k'] & [= <- <- ->] & Hx).
  destruct (keyed_fact_spec d keyed (r, k) Hkeyed Hx) as (Hr & date & Hdate & Hk).
  cbn [fst snd] in Hr, Hdate, Hk.
  apply elem_of_SELECT_fact in Hr as (ti & t & p & Hti & Ht & Hprod & Et & Eprod & ->).
  unfold LoadWarehouse.SELECT_current_customer_keys in Hc.
  apply list_elem_of_fmap in Hc as (rc & -> & Hc).
  apply list_elem_of_filter in Hc as [_ Hc].
  unfold LoadWarehouse.SELECT_current_product_keys in Hp.
  apply list_elem_of_fmap in Hp as (rp & -> & Hp).
  apply list_elem_of_filter in Hp as [_ Hp].
  unfold LoadWarehouse.SELECT_payment_method_keys in Hpm.
  apply list_elem_of_fmap in Hpm as (rpm & -> & Hpm).
  cbn [fst snd LoadWarehouse.q_customer_id LoadWarehouse.q_product_id
       LoadWarehouse.q_payment_method LoadWarehouse.q_transaction_date]
    in Ec, Ep, Epm, Hdate.
  exists ti, t, p, date, rc, rp, rpm. subst k.
  repeat (split; [done|]). reflexivity.
Qed.

(** X14. Every row of warehouse.fact_sales a completed load leaves stems
    from an item of production.transaction_items together with the
    transaction and the product it names (ids equal and not missing): it
    carries the item's transaction id, quantity, unit price and line total,
    the date key of the transaction's date, the discount amount unit price
    x quantity x discount percentage / 100 and the profit line total -
    cost x quantity. An item whose transaction or product is missing from
    production therefore has no fact row. *)
Theorem fact_row_provenance (today : Z) (d d' : database) (flt : option nat) :
  LoadWarehouse.main today d flt = (Ok tt, d') ->
  Forall (fun f =>
            exists ti t p date,
              ti ∈ production_transaction_items (production d)
              /\ t ∈ production_transactions (production d)
              /\ p ∈ production_products (production d)
              /\ (exists id, i_transaction_id ti = Some id
                             /\ t_transaction_id t = Some id)
              /\ (exists id, i_product_id ti = Some id
                             /\ p_product_id p = Some id)
              /\ t_transaction_date t = Some date
              /\ f_date_key f = Calendar.yyyymmdd date
              /\ f_transaction_id f = i_transaction_id ti
              /\ f_quantity f = i_quantity ti
              /\ f_unit_price f = i_unit_price ti
              /\ f_line_total f = i_line_total ti
              /\ f_discount_amount f
                 = match i_unit_price ti, i_quantity ti,
                         i_discount_percentage ti with
                   | Some price, Some quantity, Some percentage =>
                       Some (price * quantity * (percentage / 100))%Q
                   | _, _, _ => None
                   end
              /\ f_profit f
                 = match i_line_total ti, p_cost p, i_quantity ti with
                   | Some line_total, Some cost, Some quantity =>
                       Some (line_total - cost * quantity)%Q
                   | _, _, _ => None
                   end)
    (fact_sales (warehouse d')).
Proof.
  intros Hrun. apply list.Forall_forall. intros f Hf.
  destruct (fact_row_origin today d flt d' f Hrun Hf)
    as (ti & t & p & date & dc & dp & dpm & Hti & Ht & Hp & Et & Ep & Hd
        & _ & _ & _ & _ & _ & _ & ->).
  clear Hrun Hf. exists ti, t, p, date.
  apply sql_eq_spec in Et, Ep.
  repeat (split; [done|]). cbn [f_discount_amount f_profit]. split.
  - by destruct (i_unit_price ti), (i_quantity ti), (i_discount_percentage ti).
  - by destruct (i_line_total ti), (p_cost p), (i_quantity ti).
Qed.

Lemma fact_row_provenance_witness :
  Forall (fun f =>
            exists ti,
              ti ∈ production_transaction_items (production ex_production)
              /\ f_line_total f = i_line_total ti)
    (fact_sales (warehouse (LoadWarehouse.main 739000 ex_production None).2)).
Proof.
  pose proof (fact_row_provenance 739000 ex_production
                (LoadWarehouse.main 739000 ex_production None).2 None) as H.
  eapply list.Forall_impl; [apply H; vm_compute; reflexivity|].
  clear H.
  intros f (ti & t & p & date & Hti & _ & _ & _ & _ & _ & _ & _ & _ & _ & Hl & _).
  exists ti. split; assumption.
Defined.

(** X15. Referential integrity of the star schema: after a completed load
    every row of warehouse.fact_sales refers to a row of
    warehouse.dim_customers, of warehouse.dim_products and of
    warehouse.dim_payment_method by its keys, and these are the rows of the
    customer, the product and the payment method of the transaction the
    fact row stems from. A transaction whose customer is not in
    production.customers therefore has no fact row. *)
Theorem fact_keys_resolve (today : Z) (d d' : database) (flt : option nat) :
  LoadWarehouse.main today d flt = (Ok tt, d') ->
  Forall (fun f =>
            exists ti t dc dp dpm,
              ti ∈ production_transaction_items (production d)
              /\ t ∈ production_transactions (production d)
              /\ f_transaction_id f = i_transaction_id ti
              /\ f_transaction_id f = t_transaction_id t
              /\ dc ∈ dim_customers (warehouse d')
              /\ dc_customer_key dc = f_customer_key f
              /\ dc_customer_id dc = t_customer_id t
              /\ dp ∈ dim_products (warehouse d')
              /\ dp_product_key dp = f_product_key f
              /\ dp_product_id dp = i_product_id ti
              /\ dpm ∈ dim_payment_method (warehouse d')
              /\ dpm_payment_method_key dpm = f_payment_method_key f
              /\ dpm_payment_method_name dpm = t_payment_method t)
    (fact_sales (warehouse d')).
Proof.
  intros Hrun. apply list.Forall_forall. intros f Hf.
  destruct (fact_row_origin today d flt d' f Hrun Hf)
    as (ti & t & p & date & dc & dp & dpm & Hti & Ht & Hp & Et & Ep & Hd
        & Hdc & Edc & Hdp & Edp & Hdpm & Edpm & ->).
  clear Hrun Hf. exists ti, t, dc, dp, dpm.
  apply sql_eq_spec in Et as (id & Eti & Et).
  cbn [f_transaction_id f_customer_key f_product_key f_payment_method_key].
  repeat (split; [done|]). split; [congruence|].
  repeat (split; [done|]). done.
Qed.

Lemma fact_keys_resolve_witness :
  Forall (fun f =>
            f_customer_key f
              ∈ dc_customer_key
                  <$> dim_customers
                        (warehouse (LoadWarehouse.main 739000 ex_production None).2))
    (fact_sales (warehouse (LoadWarehouse.main 739000 ex_production None).2)).
Proof.
  pose proof (fact_keys_resolve 739000 ex_production
                (LoadWarehouse.main 739000 ex_production None).2 None) as H.
  eapply list.Forall_impl; [apply H; vm_compute; reflexivity|].
  clear H.
  intros f (ti & t & dc & dp & dpm & _ & _ & _ & _ & Hdc & Edc & _).
  apply list_elem_of_fmap. exists dc. split; [symmetry; exact Edc|exact Hdc].
Defined.

(** ** Date keys *)

Lemma day_range (d : Z) : 1 <= Calendar.day d <= 31.
Proof.
  unfold Calendar.day, Calendar.ord2ymd. cbv zeta.
  set (n1 := (((d - 1) mod Calendar.DI400Y) mod Calendar.DI100Y)
               mod Calendar.DI4Y / 365).
  set (n100 := ((d - 1) mod Calendar.DI400Y) / Calendar.DI100Y).
  set (n4 := (((d - 1) mod Calendar.DI400Y) mod Calendar.DI100Y) / Calendar.DI4Y).
  set (r := ((((d - 1) mod Calendar.DI400Y) mod Calendar.DI100Y)
               mod Calendar.DI4Y) mod 365).
  assert (0 <= r < 365) as Hr by (apply Z.mod_pos_bound; lia).
  destruct ((n1 =? 4) || (n100 =? 4)); [simpl; lia|].
  set (leap := (n1 =? 3) && (negb (n4 =? 24) || (n100 =? 3))).
  rewrite Z.shiftr_div_pow2 by lia. change (2 ^ 5) with 32.
  set (m := (r + 50) / 32).
  assert (1 <= m <= 12) as Hm.
  { subst m. split.
    - apply Z.div_le_lower_bound; lia.
    - apply Z.lt_succ_r, Z.div_lt_upper_bound; lia. }
  assert (32 * m <= r + 50 < 32 * m + 32) as Hlow.
  { subst m. pose proof (Z.div_mod (r + 50) 32 ltac:(lia)) as E.
    pose proof (Z.mod_pos_bound (r + 50) 32 ltac:(lia)). lia. }
  clearbody m r leap.
  assert (m = 1 \/ m = 2 \/ m = 3 \/ m = 4 \/ m = 5 \/ m = 6 \/ m = 7 \/ m = 8
          \/ m = 9 \/ m = 10 \/ m = 11 \/ m = 12) as Hc by lia.
  destruct Hc as [-> |[-> |[-> |[-> |[-> |[-> |[-> |[-> |[-> |[-> |[-> | ->]]]]]]]]]]];
    repeat match goal with
      | |- context [Calendar.tab ?t ?i] =>
          let v := eval vm_compute in (Calendar.tab t i) in
          change (Calendar.tab t i) with v
      end;
    destruct leap; cbn [andb Z.ltb Z.eqb Z.compare Pos.compare Pos.compare_cont];
    match goal with
    | |- context [if ?x <? ?y then _ else _] => destruct (Z.ltb_spec x y)
    end; cbn [fst snd];
    repeat match goal with
      | |- context [Calendar.tab ?t ?i] =>
          let v := eval vm_compute in (Calendar.tab t i) in
          change (Calendar.tab t i) with v
      | |- context [(?a - 1 =? 2) && ?b] =>
          let v := eval vm_compute in ((a - 1 =? 2) && b) in
          change ((a - 1 =? 2) && b) with v
      end; cbv iota; lia.
Qed.

(** The ordinals of the days of 2024. *)
Lemma year_2024 (d : Z) :
  Calendar.year d = 2024
  <-> Calendar.ymd2ord 2024 1 1 <= d <= Calendar.ymd2ord 2024 12 31.
Proof.
  replace (Calendar.ymd2ord 2024 1 1) with 738886 by (vm_compute; reflexivity).
  replace (Calendar.ymd2ord 2024 12 31) with 739251 by (vm_compute; reflexivity).
  unfold Calendar.year, Calendar.ord2ymd. cbv zeta.
  unfold Calendar.DI400Y, Calendar.DI100Y, Calendar.DI4Y.
  destruct (Z.eqb_spec ((((d - 1) mod 146097) mod 36524) mod 1461 / 365) 4) as [E1|E1];
    destruct (Z.eqb_spec ((d - 1) mod 146097 / 36524) 4) as [E2|E2];
    cbn [orb fst snd].
  4: match goal with
     | |- context [if ?b then _ else _] => destruct b
     end; cbn [fst snd].
  all: Z.div_mod_to_equations; lia.
Qed.

Lemma yyyymmdd_year (d1 d2 : Z) :
  Calendar.yyyymmdd d1 = Calendar.yyyymmdd d2 -> Calendar.year d1 = Calendar.year d2.
Proof.
  unfold Calendar.yyyymmdd.
  pose proof (month_range d1). pose proof (month_range d2).
  pose proof (day_range d1). pose proof (day_range d2). lia.
Qed.

Lemma dim_date_2024_keys (date : Z) :
  Calendar.yyyymmdd date ∈ dd_date_key <$> dim_date_2024
  <-> Calendar.ymd2ord 2024 1 1 <= date <= Calendar.ymd2ord 2024 12 31.
Proof.
  unfold dim_date_2024. rewrite <- list_fmap_compose.
  assert (Calendar.ymd2ord 2024 12 31 = Calendar.ymd2ord 2024 1 1 + 365) as E
    by (vm_compute; reflexivity).
  split.
  - intros (d0 & Hk & Hd0)%list_elem_of_fmap.
    change ((dd_date_key ∘ LoadWarehouse.dim_date_entry) d0)
      with (Calendar.yyyymmdd d0) in Hk.
    apply yyyymmdd_year in Hk. apply year_2024. rewrite Hk. apply year_2024.
    apply elem_of_seqZ in Hd0. lia.
  - intros Hd. apply list_elem_of_fmap. exists date. split; [done|].
    apply elem_of_seqZ. lia.
Qed.

(** X16. After a completed load warehouse.dim_date holds the 366 days of
    2024 and nothing else, whatever the dates of the transactions are. The
    date key of a fact row therefore refers to a row of dim_date exactly
    when the transaction it stems from is dated in 2024; a fact row of a
    transaction of any other year has a date key that no dim_date row has. *)
Theorem fact_date_key_in_dim_date (today : Z) (d d' : database)
    (flt : option nat) :
  LoadWarehouse.main today d flt = (Ok tt, d') ->
  dd_full_date <$> dim_date (warehouse d')
  = seqZ (Calendar.ymd2ord 2024 1 1) 366
  /\ (forall date,
        Calendar.yyyymmdd date ∈ dd_date_key <$> dim_date (warehouse d')
        <-> Calendar.ymd2ord 2024 1 1 <= date <= Calendar.ymd2ord 2024 12 31)
  /\ Forall (fun f =>
               exists t date,
                 t ∈ production_transactions (production d)
                 /\ f_transaction_id f = t_transaction_id t
                 /\ t_transaction_date t = Some date
                 /\ f_date_key f = Calendar.yyyymmdd date
                 /\ (f_date_key f ∈ dd_date_key <$> dim_date (warehouse d')
                     <-> Calendar.ymd2ord 2024 1 1 <= date
                         /\ date <= Calendar.ymd2ord 2024 12 31))
       (fact_sales (warehouse d')).
Proof.
  intros Hrun.
  assert (dim_date (warehouse d') = dim_date_2024) as Hdim.
  { destruct (load_Ok today d flt d' Hrun) as (keyed & _ & ->). reflexivity. }
  split; [|split].
  - rewrite Hdim. unfold dim_date_2024. rewrite <- list_fmap_compose.
    apply list_fmap_id.
  - intros date. rewrite Hdim. apply dim_date_2024_keys.
  - apply list.Forall_forall. intros f Hf.
    destruct (fact_row_origin today d flt d' f Hrun Hf)
      as (ti & t & p & date & dc & dp & dpm & Hti & Ht & Hp & Et & Ep & Hd
          & _ & _ & _ & _ & _ & _ & ->).
    clear Hrun Hf. exists t, date. rewrite Hdim.
    apply sql_eq_spec in Et as (id & Eti & Et). cbn [f_transaction_id f_date_key].
    split; [done|]. split; [congruence|]. split; [done|]. split; [done|].
    apply dim_date_2024_keys.
Qed.

Lemma fact_date_key_in_dim_date_witness :
  length (dim_date (warehouse (LoadWarehouse.main 739000 ex_production None).2))
  = 366%nat.
Proof.
  pose proof (fact_date_key_in_dim_date 739000 ex_production
                (LoadWarehouse.main 739000 ex_production None).2 None) as H.
  destruct H as [H _]; [vm_compute; reflexivity|].
  apply (f_equal length) in H. rewrite length_fmap, length_seqZ in H. exact H.
Defined.

(** ** Outcome of the load *)

Lemma rmap_Raise {A B} (f : A -> result B) (l : list A) e :
  rmap f l = Raise e -> exists x, x ∈ l /\ f x = Raise e.
Proof.
  induction l as [|x l IH]; simpl; [done|].
  destruct (f x) as [y|e'] eqn:E; simpl.
  - destruct (rmap f l) as [ys|e'']; simpl; [done|]. intros [= ->].
    destruct IH as (x' & Hx' & E'); [done|]. exists x'. split; [by right|done].
  - intros [= ->]. exists x. split; [by left|done].
Qed.

(** X17. When the store does not fail, the load either completes or raises
    AttributeError, and it raises exactly when production holds a sale
    without a date: an item that joins a transaction and a product, the
    transaction having no date ([strftime] is called on None). *)
Theorem load_raises_iff_undated_sale (today : Z) (d : database) :
  ((LoadWarehouse.main today d None).1 = Ok tt
   \/ (LoadWarehouse.main today d None).1 = Raise AttributeError)
  /\ ((LoadWarehouse.main today d None).1 = Raise AttributeError
      <-> undated_sale d).
Proof.
  destruct (keyed_fact d) as [keyed|e] eqn:E.
  - rewrite (load_run today d keyed E). cbn [fst]. split; [by left|].
    split; [done|]. intros (ti & t & p & Hti & Ht & Hp & Et & Ep & Hd).
    exfalso.
    assert (LoadWarehouse.FactQueryRow (i_transaction_id ti) (i_quantity ti)
              (i_unit_price ti) (i_discount_percentage ti) (i_line_total ti)
              (LoadWarehouse.num_op Qminus (i_line_total ti)
                 (LoadWarehouse.num_op Qmult (p_cost p) (i_quantity ti)))
              (t_transaction_date t) (t_payment_method t) (t_customer_id t)
              (i_product_id ti) ∈ LoadWarehouse.SELECT_fact d) as Hr.
    { apply elem_of_SELECT_fact. exists ti, t, p.
      repeat (split; [done|]). split; [by apply sql_eq_spec|].
      split; [by apply sql_eq_spec|done]. }
    rewrite <- (keyed_fact_rows d keyed E) in Hr.
    apply list_elem_of_fmap in Hr as (x & Hx1 & Hx).
    destruct (keyed_fact_spec d keyed x E Hx) as (_ & date & Hdate & _).
    rewrite <- Hx1 in Hdate. cbn in Hdate. congruence.
  - pose proof (load_raises today d e E) as Hr. rewrite Hr. clear Hr.
    unfold keyed_fact in E. apply rmap_Raise in E as (r & Hr' & Er).
    unfold LoadWarehouse.date_key_of in Er.
    destruct (LoadWarehouse.q_transaction_date r) as [date|] eqn:Ed; [done|].
    cbn in Er. injection Er as <-. split; [by right|]. split; [|done].
    intros _. apply elem_of_SELECT_fact in Hr'
      as (ti & t & p & Hti & Ht & Hp & Et & Ep & ->).
    exists ti, t, p. apply sql_eq_spec in Et, Ep. by repeat (split; [done|]).
Qed.

(** X18. The load writes to the warehouse only: whatever its outcome,
    staging and production are left as they were. *)
Theorem load_writes_warehouse_only (today : Z) (d : database)
    (flt : option nat) :
  staging (LoadWarehouse.main today d flt).2 = staging d
  /\ production (LoadWarehouse.main today d flt).2 = production d.
Proof.
  destruct (load_keeps_production today d flt) as [Hp Hs]. by split.
Qed.

(** X19. The load is a full refresh: the warehouse tables a completed load
    leaves are determined by production, the day of the load and the next
    values of the key sequences; nothing of what the warehouse held before
    is kept, and staging is not read. *)
Theorem load_full_refresh (today : Z) (d1 d2 d1' d2' : database)
    (flt1 flt2 : option nat) :
  production d1 = production d2 ->
  seq_payment_method_key (warehouse d1) = seq_payment_method_key (warehouse d2) ->
  seq_customer_key (warehouse d1) = seq_customer_key (warehouse d2) ->
  seq_product_key (warehouse d1) = seq_product_key (warehouse d2) ->
  LoadWarehouse.main today d1 flt1 = (Ok tt, d1') ->
  LoadWarehouse.main today d2 flt2 = (Ok tt, d2') ->
  warehouse d1' = warehouse d2'.
Proof.
  intros Hp Hs1 Hs2 Hs3 (keyed1 & E1 & ->)%load_Ok (keyed2 & E2 & ->)%load_Ok.
  assert (keyed1 = keyed2) as <-.
  { unfold keyed_fact, LoadWarehouse.SELECT_fact in E1, E2.
    rewrite Hp in E1. congruence. }
  clear E1 E2.
  assert (assembled_fact (loaded_dimensions today d1) keyed1
          = assembled_fact (loaded_dimensions today d2) keyed1) as Hfact.
  { unfold assembled_fact, LoadWarehouse.SELECT_current_customer_keys,
      LoadWarehouse.SELECT_current_product_keys,
      LoadWarehouse.SELECT_payment_method_keys, loaded_dimensions,
      LoadWarehouse.SELECT_DISTINCT_payment_method.
    cbn [warehouse dim_customers dim_products dim_payment_method].
    by rewrite Hp, Hs1, Hs2, Hs3. }
  unfold loaded, set_warehouse. cbn [warehouse]. rewrite Hfact.
  unfold loaded_dimensions, LoadWarehouse.SELECT_DISTINCT_payment_method.
  cbn [warehouse dim_date dim_customers dim_products dim_payment_method
       seq_payment_method_key seq_customer_key seq_product_key].
  by rewrite Hp, Hs1, Hs2, Hs3.
Qed.

Lemma load_full_refresh_witness :
  warehouse (LoadWarehouse.main 739000 ex_production None).2
  = warehouse (LoadWarehouse.main 739000 ex_stale_warehouse None).2.
Proof.
  apply (load_full_refresh 739000 ex_production ex_stale_warehouse _ _ None None);
    vm_compute; reflexivity.
Defined.

(** ** The daily totals add up *)

Lemma exact_sum_cons_any (v : num) (column : list num) :
  (exact_sum (v :: column) == exact_sum [v] + exact_sum column)%Q.
Proof.
  destruct v as [x|].
  - rewrite !exact_sum_cons. change (exact_sum []) with 0%Q. ring.
  - change (exact_sum (None :: column)) with (exact_sum column).
    change (exact_sum [None]) with 0%Q. ring.
Qed.

Lemma exact_sum_app (c1 c2 : list num) :
  (exact_sum (c1 ++ c2) == exact_sum c1 + exact_sum c2)%Q.
Proof.
  induction c1 as [|v c1 IH].
  - change (exact_sum []) with 0%Q. simpl. ring.
  - rewrite <- app_comm_cons, (exact_sum_cons_any v (c1 ++ c2)),
      (exact_sum_cons_any v c1), IH. ring.
Qed.

Lemma exact_sum_perm (c1 c2 : list num) :
  c1 ≡ₚ c2 -> (exact_sum c1 == exact_sum c2)%Q.
Proof.
  induction 1 as [|v c1 c2 _ IH|v w c| c1 c2 c3 _ IH1 _ IH2].
  - reflexivity.
  - rewrite (exact_sum_cons_any v c1), (exact_sum_cons_any v c2), IH. reflexivity.
  - rewrite (exact_sum_cons_any w (v :: c)), (exact_sum_cons_any v c),
      (exact_sum_cons_any v (w :: c)), (exact_sum_cons_any w c). ring.
  - by rewrite IH1.
Qed.

Lemma exact_sum_step (acc v : num) :
  (exact_sum [LoadWarehouse.sum_step acc v] == exact_sum [acc] + exact_sum [v])%Q.
Proof.
  destruct acc as [a|], v as [x|]; unfold LoadWarehouse.sum_step;
    rewrite ?exact_sum_cons; change (exact_sum []) with 0%Q;
    change (exact_sum [None]) with 0%Q; ring.
Qed.

(** The totals of the groups add up to the total of the rows. *)
Lemma group_totals (get : LoadWarehouse.agg_state -> num)
    (col : fact_sales_row -> num) (rows : list fact_sales_row) :
  get LoadWarehouse.agg_init = None ->
  (forall st r, get (LoadWarehouse.agg_step st r)
                = LoadWarehouse.sum_step (get st) (col r)) ->
  (exact_sum ((fun kv => get kv.2)
                <$> map_to_list (LoadWarehouse.group_by_date_key rows))
   == exact_sum (col <$> rows))%Q.
Proof.
  intros Hinit Hstep. induction rows as [|r rows IH] using rev_ind.
  - unfold LoadWarehouse.group_by_date_key. simpl. rewrite map_to_list_empty.
    reflexivity.
  - rewrite group_by_snoc, fmap_app, exact_sum_app, <- IH. clear IH.
    set (m := LoadWarehouse.group_by_date_key rows).
    set (k := f_date_key r).
    destruct (m !! k) as [st|] eqn:E; cbn [default].
    + rewrite <- (insert_delete_eq m).
      rewrite (exact_sum_perm _ _
                 (fmap_Permutation _ _ _
                    (map_to_list_insert (delete k m) k _ (lookup_delete_eq m k)))).
      rewrite <- (exact_sum_perm _ _
                    (fmap_Permutation (fun kv => get kv.2) _ _
                       (map_to_list_delete m k st E))).
      rewrite !fmap_cons. cbn [snd].
      rewrite (exact_sum_cons_any (get (LoadWarehouse.agg_step st r))),
        (exact_sum_cons_any (get st)), Hstep, exact_sum_step.
      simpl. ring.
    + rewrite (exact_sum_perm _ _
                 (fmap_Permutation _ _ _ (map_to_list_insert m k _ E))).
      rewrite fmap_cons. cbn [snd].
      rewrite (exact_sum_cons_any (get (LoadWarehouse.agg_step _ r))),
        Hstep, exact_sum_step, Hinit.
      change (exact_sum [None]) with 0%Q. simpl. ring.
Qed.

(** X20. The daily aggregates lose nothing and count nothing twice: after a
    completed load the total revenue over the rows of
    warehouse.agg_daily_sales is the sum of the line totals of
    warehouse.fact_sales, and the total profit is the sum of the profits
    (missing values left out on both sides). *)
Theorem daily_totals_add_up (today : Z) (d d' : database) (flt : option nat) :
  LoadWarehouse.main today d flt = (Ok tt, d') ->
  (exact_sum (a_total_revenue <$> agg_daily_sales (warehouse d'))
   == exact_sum (f_line_total <$> fact_sales (warehouse d')))%Q
  /\ (exact_sum (a_total_profit <$> agg_daily_sales (warehouse d'))
      == exact_sum (f_profit <$> fact_sales (warehouse d')))%Q.
Proof.
  intros (keyed & _ & ->)%load_Ok.
  destruct (loaded_warehouse today d keyed) as (_ & _ & _ & _ & -> & ->).
  unfold LoadWarehouse.daily_sales. rewrite <- !list_fmap_compose. split.
  - apply (group_totals LoadWarehouse.g_revenue f_line_total); done.
  - apply (group_totals LoadWarehouse.g_profit f_profit); done.
Qed.

Lemma daily_totals_add_up_witness :
  (exact_sum (a_total_revenue
                <$> agg_daily_sales
                      (warehouse (LoadWarehouse.main 739000 ex_production None).2))
   == exact_sum (f_line_total
                   <$> fact_sales
                         (warehouse (LoadWarehouse.main 739000 ex_production None).2)))%Q.
Proof.
  pose proof (daily_totals_add_up 739000 ex_production
                (LoadWarehouse.main 739000 ex_production None).2 None) as H.
  destruct H as [H _]; [vm_compute; reflexivity|exact H].
Defined.

(** * The quality report *)

Lemma validate_run (COUNT_mismatches : database -> nat) (d : database) (n : nat) :
  ValidateData.main COUNT_mismatches (Conn d n None)
  = (Ok (let total :=
           (ValidateData.COUNT_null_emails d + ValidateData.COUNT_duplicate_emails d
            + ValidateData.COUNT_orphans d + COUNT_mismatches d)%nat in
         ValidateData.Report
           (ValidateData.check (ValidateData.COUNT_null_emails d))
           (ValidateData.check (ValidateData.COUNT_duplicate_emails d))
           (ValidateData.check (ValidateData.COUNT_orphans d))
           (ValidateData.check (COUNT_mismatches d))
           (Z.max 0 (100 - Z.of_nat total))
           (ValidateData.grade (Z.max 0 (100 - Z.of_nat total)))),
     Conn d (S (S (S (S n)))) None).
Proof. reflexivity. Qed.

Lemma validate_fault_free COUNT_mismatches :
  fault_free (ValidateData.main COUNT_mismatches).
Proof. unfold ValidateData.main, ValidateData.run_query. fault_free_tac. Qed.

Lemma validate_keeps COUNT_mismatches (P : database -> Prop) :
  keeps P (ValidateData.main COUNT_mismatches).
Proof. unfold ValidateData.main, ValidateData.run_query. keeps_tac. Qed.

Lemma check_passed (n : nat) :
  ValidateData.status (ValidateData.check n) = "passed"%string <-> n = 0%nat.
Proof. destruct n; simpl; split; congruence. Qed.

(** X21. The quality report: whenever the script produces a report, under
    any failure schedule of the store, the store is as it was and the report
    is the one of the store's content: the score is 100 minus the number of
    violations found by the four checks, but never below 0, so it lies
    between 0 and 100; it is 100 exactly when all four checks passed; the
    grade is A up to 10 violations, B up to 20, C up to 30, D up to 40 and F
    beyond. *)
Theorem quality_report_score (COUNT_mismatches : database -> nat)
    (c c' : conn) (r : ValidateData.report) :
  ValidateData.main COUNT_mismatches c = (Ok r, c') ->
  let total :=
    (ValidateData.violations (ValidateData.null_checks r)
     + ValidateData.violations (ValidateData.duplicate_checks r)
     + ValidateData.violations (ValidateData.referential_integrity r)
     + ValidateData.violations (ValidateData.data_consistency r))%nat in
  let score := ValidateData.overall_quality_score r in
  db c' = db c
  /\ ValidateData.violations (ValidateData.null_checks r)
     = ValidateData.COUNT_null_emails (db c)
  /\ ValidateData.violations (ValidateData.duplicate_checks r)
     = ValidateData.COUNT_duplicate_emails (db c)
  /\ ValidateData.violations (ValidateData.referential_integrity r)
     = ValidateData.COUNT_orphans (db c)
  /\ ValidateData.violations (ValidateData.data_consistency r)
     = COUNT_mismatches (db c)
  /\ 0 <= score <= 100
  /\ (Z.of_nat total <= 100 -> score = 100 - Z.of_nat total)
  /\ (score = 100 <->
      Forall (fun k => ValidateData.status k = "passed"%string)
        [ValidateData.null_checks r; ValidateData.duplicate_checks r;
         ValidateData.referential_integrity r; ValidateData.data_consistency r])
  /\ (ValidateData.quality_grade r = "A"%string <-> (total <= 10)%nat)
  /\ (ValidateData.quality_grade r = "B"%string <-> (10 < total <= 20)%nat)
  /\ (ValidateData.quality_grade r = "C"%string <-> (20 < total <= 30)%nat)
  /\ (ValidateData.quality_grade r = "D"%string <-> (30 < total <= 40)%nat)
  /\ (ValidateData.quality_grade r = "F"%string <-> (40 < total)%nat).
Proof.
  intros Hrun.
  assert (db c' = db c) as Hdb.
  { exact (validate_keeps COUNT_mismatches (fun x => x = db c) c _ _ eq_refl Hrun). }
  apply validate_fault_free in Hrun.
  destruct c as [d n flt]. cbn [db pc] in *.
  rewrite validate_run in Hrun. injection Hrun as <- _.
  cbn zeta.
  cbn [ValidateData.violations ValidateData.null_checks
       ValidateData.duplicate_checks ValidateData.referential_integrity
       ValidateData.data_consistency ValidateData.overall_quality_score
       ValidateData.quality_grade ValidateData.check].
  set (a := ValidateData.COUNT_null_emails d).
  set (b := ValidateData.COUNT_duplicate_emails d).
  set (e := ValidateData.COUNT_orphans d).
  set (m := COUNT_mismatches d). clearbody a b e m.
  repeat (split; [done|]). split; [lia|]. split; [lia|]. split.
  { rewrite !list.Forall_cons, list.Forall_nil.
    change (ValidateData.CheckResult (if (?n =? 0)%nat then _ else _) ?n)
      with (ValidateData.check n).
    split.
    - intros Hscore.
      assert (a = 0 /\ b = 0 /\ e = 0 /\ m = 0)%nat as (-> & -> & -> & ->)
        by lia.
      done.
    - intros (Ha & Hb & He & Hm & _).
      destruct a, b, e, m; try discriminate. done. }
  unfold ValidateData.grade.
  repeat match goal with
    | |- context [?x <=? ?y] => destruct (Z.leb_spec x y)
    end; repeat split; intros; try discriminate; try lia; try done.
Qed.

Lemma quality_report_score_witness :
  match (ValidateData.main (fun _ => 0%nat) (Conn ex_production 0 None)).1 with
  | Ok r => ValidateData.quality_grade r = "A"%string
  | Raise _ => False
  end.
Proof.
  pose proof (quality_report_score (fun _ => 0%nat) _ _ _
                (validate_run (fun _ => 0%nat) ex_production 0))
    as (_ & _ & _ & _ & _ & _ & _ & _ & HA & _).
  rewrite validate_run. cbn [fst]. apply HA. vm_compute. repeat constructor.
Defined.

Lemma orphan_rows (d : database) (t : transaction_row) :
  length (filter (fun tc : transaction_row * option customer_row =>
                    tc.2 ≫= c_customer_id = None)
            (match filter (fun c => LoadWarehouse.sql_eq (t_customer_id t)
                                      (c_customer_id c) = true)
                     (production_customers (production d)) with
             | [] => [(t, None)]
             | matching => (fun c => (t, Some c)) <$> matching
             end))
  = if decide (t_customer_id t = None
               \/ t_customer_id t
                    ∉ c_customer_id <$> production_customers (production d))
    then 1%nat else 0%nat.
Proof.
  set (customers := production_customers (production d)).
  destruct (filter _ customers) as [|c0 matching] eqn:E.
  - rewrite decide_True; [done|].
    destruct (t_customer_id t) as [id|] eqn:Et; [right|by left].
    intros (c & Hid & Hc)%list_elem_of_fmap.
    assert (c ∈ filter (fun c => LoadWarehouse.sql_eq (t_customer_id t)
                                   (c_customer_id c) = true) customers) as Hin.
    { apply list_elem_of_filter. split; [|done]. rewrite Et, <- Hid.
      apply sql_eq_spec. by exists id. }
    rewrite Et, E in Hin. by apply not_elem_of_nil in Hin.
  - assert (Forall (fun c => LoadWarehouse.sql_eq (t_customer_id t)
                               (c_customer_id c) = true /\ c ∈ customers)
              (c0 :: matching)) as Hall.
    { rewrite <- E. apply list.Forall_forall. intros c Hc.
      by apply list_elem_of_filter in Hc. }
    rewrite decide_False.
    + rewrite filter_none; [done|].
      intros tc (c & -> & Hc)%list_elem_of_fmap. cbn.
      rewrite list.Forall_forall in Hall.
      destruct (Hall c Hc) as [(id & _ & ->)%sql_eq_spec _]. done.
    + apply Forall_cons_1 in Hall as [[(id & Et & Ec)%sql_eq_spec Hc0] _].
      intros [Hn|Hn]; [congruence|]. apply Hn. rewrite Et, <- Ec.
      apply list_elem_of_fmap. by exists c0.
Qed.

(** X22. The referential-integrity check counts, through its LEFT JOIN, the
    transactions that have no customer: those whose customer_id is missing
    or is the id of no row of production.customers. Each is counted once,
    and a transaction with a customer is not counted, however many customer
    rows carry its id. *)
Theorem orphans_are_unmatched_transactions (d : database) :
  ValidateData.COUNT_orphans d
  = length (filter (fun t =>
                      t_customer_id t = None
                      \/ t_customer_id t
                           ∉ c_customer_id <$> production_customers (production d))
              (production_transactions (production d))).
Proof.
  unfold ValidateData.COUNT_orphans, ValidateData.LEFT_JOIN_customers.
  induction (production_transactions (production d)) as [|t txns IH]; [done|].
  rewrite bind_cons, list.filter_app, length_app, IH, orphan_rows, filter_cons.
  by destruct (decide _).
Qed.

(** X23. After a completed run of the cleansing stage the completeness
    check finds one violation for every staged customer whose email is
    missing or empty: these are the rows of production.customers without
    email. *)
Theorem null_emails_after_cleansing (d d' : database) (flt : option nat)
    (s : StagingToProduction.summary) :
  StagingToProduction.main d flt = (Ok s, d') ->
  ValidateData.COUNT_null_emails d'
  = length (filter (fun st => c_email (payload st) = None
                              \/ c_email (payload st) = Some ""%string)
              (staging_customers (staging d))).
Proof.
  intros (_ & _ & Hc & _)%cleansing_production.
  unfold ValidateData.COUNT_null_emails. rewrite Hc. unfold cleansed_customers.
  rewrite <- list_fmap_compose.
  rewrite <- (length_filter_fmap (cleanse_customer ∘ payload)
                (fun c => c_email c = None)).
  f_equal. apply list_filter_iff. intros [r t]. cbn.
  unfold email_clean.
  destruct (c_email r) as [[|a e]|]; (split; [intros H|intros [H|H]]);
    try discriminate H; auto.
Qed.

Lemma null_emails_after_cleansing_witness :
  ValidateData.COUNT_null_emails (StagingToProduction.main ex_empty None).2
  = 2%nat.
Proof.
  pose proof (null_emails_after_cleansing ex_empty
                (StagingToProduction.main ex_empty None).2 None
                (StagingToProduction.Summary
                   (StagingToProduction.TableSummary 3 3 0 [])
                   (StagingToProduction.TableSummary 1 1 0 [])
                   (StagingToProduction.TableSummary 1 1 0 [])
                   (StagingToProduction.TableSummary 1 1 0 []))) as H.
  rewrite H; [|vm_compute; reflexivity]. vm_compute. reflexivity.
Defined.

(** * The staging ingestion *)

Lemma I_bind_Returned {A B} (m : IngestToStaging.I A)
    (f : A -> IngestToStaging.I B) s b s2 :
  (m ≫= f) s = (IngestToStaging.Returned b, s2) ->
  exists a s1, m s = (IngestToStaging.Returned a, s1)
               /\ f a s1 = (IngestToStaging.Returned b, s2).
Proof.
  unfold mbind, IngestToStaging.I_bind.
  destruct (m s) as [[a|e] s1]; [|discriminate]. intros H. by exists a, s1.
Qed.

Lemma I_bind_Raised {A B} (m : IngestToStaging.I A)
    (f : A -> IngestToStaging.I B) s e s2 :
  (m ≫= f) s = (IngestToStaging.Raised e, s2) ->
  m s = (IngestToStaging.Raised e, s2)
  \/ exists a s1, m s = (IngestToStaging.Returned a, s1)
                  /\ f a s1 = (IngestToStaging.Raised e, s2).
Proof.
  unfold mbind, IngestToStaging.I_bind.
  destruct (m s) as [[a|e'] s1]; intros H.
  - right. exists a, s1. by split.
  - injection H as -> ->. by left.
Qed.

Lemma ingest_keeps_bind {A B} P (m : IngestToStaging.I A)
    (f : A -> IngestToStaging.I B) :
  ingest_keeps P m -> (forall a, ingest_keeps P (f a)) ->
  ingest_keeps P (m ≫= f).
Proof.
  intros Hm Hf s r s2 HP. unfold mbind, IngestToStaging.I_bind.
  destruct (m s) as [[a|e] s1] eqn:E.
  - apply (Hf a s1). by apply (Hm s _ _ HP E).
  - intros [= <- <-]. by apply (Hm s _ _ HP E).
Qed.

Section load_one.
Context {R : Type} (table file : string) (TRUNCATE : database -> database)
  (to_sql : list R -> database -> database) (COUNT : database -> nat).
Hypothesis COUNT_after_load :
  forall df d, COUNT (to_sql df (TRUNCATE d)) = length df.

(** One turn of the loop when the store does not fail. *)
Lemma load_one_run (df : list R) d n L :
  IngestToStaging.load_one table file (Some df) TRUNCATE to_sql COUNT
    (IngestToStaging.Run (Conn d n None) L)
  = (IngestToStaging.Returned tt,
     IngestToStaging.Run (Conn (to_sql df (TRUNCATE d)) (S (S (S n))) None)
       (<[ ("staging." +:+ table)%string
           := IngestToStaging.Entry (length df) "success" None ]> L)).
Proof.
  lazy beta iota zeta delta
    [IngestToStaging.load_one IngestToStaging.lift IngestToStaging.ingest_table
     IngestToStaging.validate_staging_load IngestToStaging.set_entry
     IngestToStaging.I_bind IngestToStaging.connection IngestToStaging.loaded
     mbind M_bind mret M_ret execute read_sql tick db pc fault faults_at fst].
  by rewrite COUNT_after_load, Nat.eqb_refl.
Qed.

(** One turn of the loop, whatever the store does. *)
Lemma load_one_outcome (csv : option (list R)) s :
  match IngestToStaging.load_one table file csv TRUNCATE to_sql COUNT s with
  | (IngestToStaging.Returned _, s') =>
      exists df,
        csv = Some df
        /\ db (IngestToStaging.connection s')
           = to_sql df (TRUNCATE (db (IngestToStaging.connection s)))
        /\ fault (IngestToStaging.connection s')
           = fault (IngestToStaging.connection s)
        /\ pc (IngestToStaging.connection s')
           = S (S (S (pc (IngestToStaging.connection s))))
        /\ IngestToStaging.loaded s'
           = <[ ("staging." +:+ table)%string
                := IngestToStaging.Entry (length df) "success" None ]>
               (IngestToStaging.loaded s)
  | (IngestToStaging.Raised e, s') =>
      IngestToStaging.loaded s' = IngestToStaging.loaded s
      /\ ((csv = None
           /\ e = IngestToStaging.FileNotFoundError ("Missing file: " +:+ file)
           /\ s' = s)
          \/ exists df n,
               csv = Some df
               /\ e = IngestToStaging.SQLAlchemyError (StoreError n)
               /\ fault (IngestToStaging.connection s) = Some n
               /\ (db (IngestToStaging.connection s')
                   = db (IngestToStaging.connection s)
                   \/ db (IngestToStaging.connection s')
                      = TRUNCATE (db (IngestToStaging.connection s))
                   \/ db (IngestToStaging.connection s')
                      = to_sql df (TRUNCATE (db (IngestToStaging.connection s)))))
  end.
Proof.
  destruct s as [[d n flt] L]. destruct csv as [df|].
  2: { lazy beta iota delta [IngestToStaging.load_one IngestToStaging.raise].
       split; [done|]. left. by repeat split. }
  assert (forall k, faults_at flt k = true -> flt = Some k) as Hflt.
  { intros k. destruct flt as [j|]; simpl; [|done].
    by intros ->%Nat.eqb_eq. }
  unfold IngestToStaging.load_one, IngestToStaging.lift,
    IngestToStaging.ingest_table, IngestToStaging.validate_staging_load,
    IngestToStaging.set_entry, mbind, IngestToStaging.I_bind, M_bind, mret,
    M_ret, execute, read_sql, tick.
  cbn [IngestToStaging.connection IngestToStaging.loaded db pc fault].
  destruct (faults_at flt n) eqn:F1;
    cbn [IngestToStaging.connection IngestToStaging.loaded db pc fault].
  { split; [done|]. right. exists df, n. repeat split; [by apply Hflt|by left]. }
  destruct (faults_at flt (S n)) eqn:F2;
    cbn [IngestToStaging.connection IngestToStaging.loaded db pc fault].
  { split; [done|]. right. exists df, (S n).
    repeat split; [by apply Hflt|right; by left]. }
  destruct (faults_at flt (S (S n))) eqn:F3;
    cbn [IngestToStaging.connection IngestToStaging.loaded db pc fault fst].
  { split; [done|]. right. exists df, (S (S n)).
    repeat split; [by apply Hflt|right; by right]. }
  exists df. rewrite COUNT_after_load, Nat.eqb_refl. by repeat split.
Qed.

End load_one.

Lemma load_one_keeps {R} (raw : IngestToStaging.raw_data) (d : database)
    (table file : string) (csv : option (list R))
    (TRUNCATE : database -> database)
    (to_sql : list R -> database -> database) (COUNT : database -> nat) :
  (forall df x, COUNT (to_sql df (TRUNCATE x)) = length df) ->
  (forall x, production (TRUNCATE x) = production x
             /\ warehouse (TRUNCATE x) = warehouse x) ->
  (forall df x, production (to_sql df x) = production x
                /\ warehouse (to_sql df x) = warehouse x) ->
  (forall df, csv = Some df ->
              file_rows raw ("staging." +:+ table) = Some (length df)) ->
  ingest_keeps (ingest_invariant raw d)
    (IngestToStaging.load_one table file csv TRUNCATE to_sql COUNT).
Proof.
  intros Hcount HT HS Hrows s r s' (Hp & Hw & He) E.
  pose proof (load_one_outcome table file TRUNCATE to_sql COUNT Hcount csv s) as O.
  rewrite E in O. destruct r as [[]|e].
  - destruct O as (df & Hcsv & Hdb & _ & _ & HL). unfold ingest_invariant.
    rewrite Hdb, HL. destruct (HS df (TRUNCATE (db (IngestToStaging.connection s))))
      as [-> ->].
    destruct (HT (db (IngestToStaging.connection s))) as [-> ->].
    split; [done|]. split; [done|].
    intros key e' [[<- <-]|[_ Hk]]%lookup_insert_Some; [|by apply He].
    repeat split. by apply Hrows.
  - destruct O as (HL & [(_ & _ & ->)|(df & n & _ & _ & _ & Hdb)]); [done|].
    unfold ingest_invariant. rewrite HL. split; [|split; [|done]].
    + destruct Hdb as [-> |[-> | ->]]; [done| |].
      * by destruct (HT (db (IngestToStaging.connection s))) as [-> _].
      * destruct (HS df (TRUNCATE (db (IngestToStaging.connection s)))) as [-> _].
        by destruct (HT (db (IngestToStaging.connection s))) as [-> _].
    + destruct Hdb as [-> |[-> | ->]]; [done| |].
      * by destruct (HT (db (IngestToStaging.connection s))) as [_ ->].
      * destruct (HS df (TRUNCATE (db (IngestToStaging.connection s)))) as [_ ->].
        by destruct (HT (db (IngestToStaging.connection s))) as [_ ->].
Qed.

Lemma COUNT_after_load_customers now df d :
  IngestToStaging.COUNT_customers
    (IngestToStaging.to_sql_customers now df (IngestToStaging.TRUNCATE_customers d))
  = length df.
Proof. unfold IngestToStaging.COUNT_customers. cbn. apply length_fmap. Qed.

Lemma COUNT_after_load_products now df d :
  IngestToStaging.COUNT_products
    (IngestToStaging.to_sql_products now df (IngestToStaging.TRUNCATE_products d))
  = length df.
Proof. unfold IngestToStaging.COUNT_products. cbn. apply length_fmap. Qed.

Lemma COUNT_after_load_transactions now df d :
  IngestToStaging.COUNT_transactions
    (IngestToStaging.to_sql_transactions now df
       (IngestToStaging.TRUNCATE_transactions d))
  = length df.
Proof. unfold IngestToStaging.COUNT_transactions. cbn. apply length_fmap. Qed.

Lemma COUNT_after_load_transaction_items now df d :
  IngestToStaging.COUNT_transaction_items
    (IngestToStaging.to_sql_transaction_items now df
       (IngestToStaging.TRUNCATE_transaction_items d))
  = length df.
Proof. unfold IngestToStaging.COUNT_transaction_items. cbn. apply length_fmap. Qed.

Lemma ingest_body_keeps raw now d :
  ingest_keeps (ingest_invariant raw d) (IngestToStaging.main_body raw now).
Proof.
  unfold IngestToStaging.main_body.
  repeat (apply ingest_keeps_bind; [|intros _]).
  - apply load_one_keeps; [apply COUNT_after_load_customers|done|done|].
    intros df Hdf.
    change (file_rows raw ("staging." +:+ "customers"))
      with (length <$> IngestToStaging.customers_csv raw).
    by rewrite Hdf.
  - apply load_one_keeps; [apply COUNT_after_load_products|done|done|].
    intros df Hdf.
    change (file_rows raw ("staging." +:+ "products"))
      with (length <$> IngestToStaging.products_csv raw).
    by rewrite Hdf.
  - apply load_one_keeps; [apply COUNT_after_load_transactions|done|done|].
    intros df Hdf.
    change (file_rows raw ("staging." +:+ "transactions"))
      with (length <$> IngestToStaging.transactions_csv raw).
    by rewrite Hdf.
  - apply load_one_keeps; [apply COUNT_after_load_transaction_items|done|done|].
    intros df Hdf.
    change (file_rows raw ("staging." +:+ "transaction_items"))
      with (length <$> IngestToStaging.transaction_items_csv raw).
    by rewrite Hdf.
Qed.

Lemma ingest_invariant_init raw d flt :
  ingest_invariant raw d (IngestToStaging.Run (Conn d 0 flt) ∅).
Proof.
  split; [done|]. split; [done|]. intros key e H.
  cbn [IngestToStaging.loaded] in H. by rewrite lookup_empty in H.
Qed.

Lemma rollback_same_warehouse d x :
  warehouse x = warehouse d -> rollback d x = d.
Proof.
  intros H. unfold rollback, set_warehouse. rewrite H.
  destruct d as [s p w]. cbn. by destruct w.
Qed.

(** X24. The loader writes to staging only, and all or nothing: whatever
    the outcome of a run, production and the warehouse are as they were; a
    run that raises - a file is missing, or the store fails at any
    statement - leaves the whole store as it was, the staging tables it had
    already reloaded included, and records the exception in the summary. *)
Theorem ingest_all_or_nothing (raw : IngestToStaging.raw_data)
    (now : option Z) (d : database) (flt : option nat) :
  let r := IngestToStaging.main raw now d flt in
  production r.2 = production d
  /\ warehouse r.2 = warehouse d
  /\ (forall e, r.1.1 = Some e ->
        r.2 = d /\ IngestToStaging.summary_error r.1.2 = Some e)
  /\ (r.1.1 = None -> IngestToStaging.summary_error r.1.2 = None).
Proof.
  unfold IngestToStaging.main.
  pose proof (ingest_body_keeps raw now d (IngestToStaging.Run (Conn d 0 flt) ∅))
    as Hk.
  destruct (IngestToStaging.main_body raw now _) as [[[]|e] s] eqn:E;
    destruct (Hk _ _ (ingest_invariant_init raw d flt) eq_refl) as (Hp & Hw & _);
    cbn [fst snd IngestToStaging.summary_error].
  - repeat split; try done.
  - rewrite (rollback_same_warehouse d _ Hw).
    repeat split; try done; intros; congruence.
Qed.

(** X25. The summary never reports a failed table: in every outcome of a
    run, each entry of [tables_loaded] has status success and no error
    message, and its [rows_loaded] is the number of rows of the table's
    file. The count read back inside the transaction always equals the
    number of rows just inserted, so the branch that reports a row count
    mismatch is never taken. *)
Theorem ingest_entries_always_success (raw : IngestToStaging.raw_data)
    (now : option Z) (d : database) (flt : option nat)
    (key : string) (e : IngestToStaging.entry) :
  IngestToStaging.tables_loaded (IngestToStaging.main raw now d flt).1.2 !! key
  = Some e ->
  IngestToStaging.status e = "success"%string
  /\ IngestToStaging.error_message e = None
  /\ file_rows raw key = Some (IngestToStaging.rows_loaded e).
Proof.
  unfold IngestToStaging.main.
  pose proof (ingest_body_keeps raw now d (IngestToStaging.Run (Conn d 0 flt) ∅))
    as Hk.
  destruct (IngestToStaging.main_body raw now _) as [[[]|e'] s] eqn:E;
    destruct (Hk _ _ (ingest_invariant_init raw d flt) eq_refl) as (_ & _ & He);
    cbn [fst snd IngestToStaging.tables_loaded]; apply He.
Qed.

Lemma ingest_entries_always_success_witness :
  IngestToStaging.tables_loaded
    (IngestToStaging.main ex_raw_missing None ex_empty None).1.2
    !! "staging.products"%string
  = Some (IngestToStaging.Entry 2 "success" None)
  /\ file_rows ex_raw_missing "staging.products" = Some 2%nat.
Proof.
  assert (IngestToStaging.tables_loaded
            (IngestToStaging.main ex_raw_missing None ex_empty None).1.2
            !! "staging.products"%string
          = Some (IngestToStaging.Entry 2 "success" None)) as H
    by (vm_compute; reflexivity).
  split; [exact H|].
  exact (proj2 (proj2 (ingest_entries_always_success ex_raw_missing None
                         ex_empty None "staging.products" _ H))).
Defined.

(** X26. A run of the loader that completes has found all four files and
    leaves every staging table with exactly the rows of its file, in the
    order of the file, each stamped by the store; what staging held before
    is gone. The summary has an entry for each of the four tables. *)
Theorem ingest_snapshot (raw : IngestToStaging.raw_data) (now : option Z)
    (d d' : database) (flt : option nat) (s : IngestToStaging.summary) :
  IngestToStaging.main raw now d flt = (None, s, d') ->
  exists customers products transactions items,
    raw = IngestToStaging.RawData (Some customers) (Some products)
            (Some transactions) (Some items)
    /\ staging d'
       = StagingSchema (IngestToStaging.stamp now customers)
           (IngestToStaging.stamp now products)
           (IngestToStaging.stamp now transactions)
           (IngestToStaging.stamp now items)
    /\ payload <$> staging_customers (staging d') = customers
    /\ payload <$> staging_products (staging d') = products
    /\ payload <$> staging_transactions (staging d') = transactions
    /\ payload <$> staging_transaction_items (staging d') = items
    /\ dom (IngestToStaging.tables_loaded s)
       = ({[ "staging.customers"; "staging.products"; "staging.transactions";
             "staging.transaction_items" ]} : gset string)%string.
Proof.
  unfold IngestToStaging.main.
  destruct (IngestToStaging.main_body raw now _) as [[[]|e] s4] eqn:E;
    [|discriminate].
  intros [= <- <-]. unfold IngestToStaging.main_body in E.
  apply I_bind_Returned in E as ([] & s1 & E1 & E).
  apply I_bind_Returned in E as ([] & s2 & E2 & E).
  apply I_bind_Returned in E as ([] & s3 & E3 & E4).
  pose proof (load_one_outcome "customers" "customers.csv"
                IngestToStaging.TRUNCATE_customers
                (IngestToStaging.to_sql_customers now)
                IngestToStaging.COUNT_customers
                (COUNT_after_load_customers now)
                (IngestToStaging.customers_csv raw)
                (IngestToStaging.Run (Conn d 0 flt) ∅)) as O1.
  rewrite E1 in O1. destruct O1 as (c & Hc & D1 & _ & _ & L1).
  pose proof (load_one_outcome "products" "products.csv"
                IngestToStaging.TRUNCATE_products
                (IngestToStaging.to_sql_products now)
                IngestToStaging.COUNT_products
                (COUNT_after_load_products now)
                (IngestToStaging.products_csv raw) s1) as O2.
  rewrite E2 in O2. destruct O2 as (p & Hp & D2 & _ & _ & L2).
  pose proof (load_one_outcome "transactions" "transactions.csv"
                IngestToStaging.TRUNCATE_transactions
                (IngestToStaging.to_sql_transactions now)
                IngestToStaging.COUNT_transactions
                (COUNT_after_load_transactions now)
                (IngestToStaging.transactions_csv raw) s2) as O3.
  rewrite E3 in O3. destruct O3 as (t & Ht & D3 & _ & _ & L3).
  pose proof (load_one_outcome "transaction_items" "transaction_items.csv"
                IngestToStaging.TRUNCATE_transaction_items
                (IngestToStaging.to_sql_transaction_items now)
                IngestToStaging.COUNT_transaction_items
                (COUNT_after_load_transaction_items now)
                (IngestToStaging.transaction_items_csv raw) s3) as O4.
  rewrite E4 in O4. destruct O4 as (i & Hi & D4 & _ & _ & L4).
  clear E1 E2 E3 E4. exists c, p, t, i.
  cbn [IngestToStaging.tables_loaded].
  rewrite D4, D3, D2, D1, L4, L3, L2, L1.
  cbn [IngestToStaging.connection IngestToStaging.loaded db].
  split; [by destruct raw; cbn in *; subst|].
  split; [reflexivity|].
  assert (forall R (df : list R), payload <$> IngestToStaging.stamp now df = df)
    as Hpayload.
  { intros R df. unfold IngestToStaging.stamp. rewrite <- list_fmap_compose.
    apply list_fmap_id. }
  repeat (split; [cbn; apply Hpayload|]).
  rewrite !dom_insert_L, dom_empty_L. set_solver.
Qed.

Lemma ingest_snapshot_witness :
  payload <$> staging_customers
                (staging (IngestToStaging.main ex_raw None ex_empty None).2)
  = payload <$> staging_customers ex_staging.
Proof.
  pose proof (ingest_snapshot ex_raw None ex_empty
                (IngestToStaging.main ex_raw None ex_empty None).2 None
                (IngestToStaging.main ex_raw None ex_empty None).1.2) as H.
  destruct H as (c & p & t & i & Hraw & _ & Hc & _); [vm_compute; reflexivity|].
  unfold ex_raw in Hraw. injection Hraw as <- _ _ _. exact Hc.
Defined.

(** X27. When transactions.csv is missing while customers.csv and
    products.csv are there, and the store does not fail, the run raises
    FileNotFoundError and the store is left as it was - staging.customers
    and staging.products hold their old rows - yet the summary written to
    ingestion_summary.json lists both tables as loaded with status success
    and the row counts of the files, next to the error. *)
Theorem ingest_missing_file_reported_success
    (customers : list customer_row) (products : list product_row)
    (items : option (list item_row)) (now : option Z) (d : database) :
  let raw :=
    IngestToStaging.RawData (Some customers) (Some products) None items in
  let r := IngestToStaging.main raw now d None in
  r.1.1 = Some (IngestToStaging.FileNotFoundError "Missing file: transactions.csv")
  /\ r.2 = d
  /\ IngestToStaging.summary_error r.1.2 = r.1.1
  /\ IngestToStaging.tables_loaded r.1.2 !! "staging.customers"%string
     = Some (IngestToStaging.Entry (length customers) "success" None)
  /\ IngestToStaging.tables_loaded r.1.2 !! "staging.products"%string
     = Some (IngestToStaging.Entry (length products) "success" None)
  /\ IngestToStaging.tables_loaded r.1.2 !! "staging.transactions"%string = None
  /\ IngestToStaging.tables_loaded r.1.2 !! "staging.transaction_items"%string
     = None.
Proof.
  cbv zeta. unfold IngestToStaging.main, IngestToStaging.main_body.
  unfold mbind, IngestToStaging.I_bind.
  cbn [IngestToStaging.customers_csv IngestToStaging.products_csv
       IngestToStaging.transactions_csv].
  rewrite (load_one_run "customers" "customers.csv"
             IngestToStaging.TRUNCATE_customers
             (IngestToStaging.to_sql_customers now)
             IngestToStaging.COUNT_customers (COUNT_after_load_customers now)).
  rewrite (load_one_run "products" "products.csv"
             IngestToStaging.TRUNCATE_products
             (IngestToStaging.to_sql_products now)
             IngestToStaging.COUNT_products (COUNT_after_load_products now)).
  lazy beta iota delta [IngestToStaging.load_one IngestToStaging.raise].
  cbn [fst snd IngestToStaging.summary_error IngestToStaging.tables_loaded
       IngestToStaging.loaded IngestToStaging.connection db].
  split; [reflexivity|]. split; [by apply rollback_same_warehouse|].
  split; [reflexivity|].
  change ("staging." +:+ "customers")%string with "staging.customers"%string.
  change ("staging." +:+ "products")%string with "staging.products"%string.
  repeat split.
Qed.

(** X28. The loader keeps the store within the states the pipeline can
    reach: after a run of the loader, completed or not, on a reachable
    store, the store is reachable again, so that the rules the cleansing
    stage enforces on production still hold. *)
Theorem ingest_keeps_reachable (raw : IngestToStaging.raw_data)
    (now : option Z) (d : database) (flt : option nat) :
  reachable d -> reachable (IngestToStaging.main raw now d flt).2.
Proof.
  intros Hd. unfold IngestToStaging.main.
  pose proof (ingest_body_keeps raw now d (IngestToStaging.Run (Conn d 0 flt) ∅))
    as Hk.
  destruct (IngestToStaging.main_body raw now _) as [[[]|e] s] eqn:E;
    destruct (Hk _ _ (ingest_invariant_init raw d flt) eq_refl) as (Hp & Hw & _);
    cbn [snd].
  - destruct (db (IngestToStaging.connection s)) as [stg p w]. cbn in Hp, Hw.
    subst p w. by apply reachable_ingest.
  - by rewrite (rollback_same_warehouse d _ Hw).
Qed.

Lemma ingest_keeps_reachable_witness :
  reachable (IngestToStaging.main ex_raw None ex_empty None).2.
Proof. apply ingest_keeps_reachable. apply reachable_empty. Defined.

(** * The generated identifiers *)

Lemma digit_value_char (x : N) :
  (x < 10)%N -> digit_value (pretty_N_char x) = x.
Proof.
  intros Hx.
  assert (x = 0 \/ x = 1 \/ x = 2 \/ x = 3 \/ x = 4 \/ x = 5 \/ x = 6 \/ x = 7
          \/ x = 8 \/ x = 9)%N as H by lia.
  destruct H as [-> |[-> |[-> |[-> |[-> |[-> |[-> |[-> |[-> | ->]]]]]]]]];
    reflexivity.
Qed.

Lemma decimal_value_go (x : N) (s : string) :
  decimal_value (pretty_N_go x s)
  = (x * 10 ^ N.of_nat (String.length s) + decimal_value s)%N.
Proof.
  revert s. induction (N.lt_wf_0 x) as [x _ IH]. intros s.
  assert (x = 0 \/ 0 < x)%N as [-> |Hx] by lia.
  - rewrite pretty_N_go_0. lia.
  - rewrite pretty_N_go_step by done.
    rewrite IH by (apply N.div_lt; lia).
    cbn [decimal_value String.length].
    rewrite digit_value_char by (apply N.mod_lt; lia).
    rewrite Nat2N.inj_succ, N.pow_succ_r by lia.
    set (P := (10 ^ N.of_nat (String.length s))%N).
    pose proof (N.div_mod x 10 ltac:(lia)) as E.
    set (q := (x `div` 10)%N) in *. set (r := (x `mod` 10)%N) in *.
    rewrite E. ring.
Qed.

Lemma decimal_value_pretty (x : N) : decimal_value (pretty x) = x.
Proof.
  unfold pretty, pretty_N. destruct (decide (x = 0%N)) as [-> |_]; [done|].
  rewrite decimal_value_go. cbn. lia.
Qed.

Lemma decimal_value_zeros (k : nat) (s : string) :
  decimal_value (GenerateData.zeros k +:+ s) = decimal_value s.
Proof.
  induction k as [|k IH]; [done|].
  cbn [GenerateData.zeros]. rewrite string_app_cons.
  cbn [decimal_value]. rewrite IH. change (digit_value "0") with 0%N. lia.
Qed.

Lemma pretty_no_sign (x : N) (s : string) : pretty x <> String "-" s.
Proof.
  unfold pretty, pretty_N. destruct (decide (x = 0%N)); [done|].
  apply (pretty_N_go_ne_dash x "" s). done.
Qed.

Lemma zeros_pretty_no_sign (k : nat) (x : N) (s : string) :
  GenerateData.zeros k +:+ pretty x <> String "-" s.
Proof.
  destruct k as [|k]; [apply pretty_no_sign|].
  cbn [GenerateData.zeros]. rewrite string_app_cons. intros H. discriminate H.
Qed.

Lemma format_0d_inj (pad : nat) (n m : Z) :
  GenerateData.format_0d n pad = GenerateData.format_0d m pad -> n = m.
Proof.
  assert (forall k1 k2 (x y : N),
            GenerateData.zeros k1 +:+ pretty x = GenerateData.zeros k2 +:+ pretty y ->
            x = y) as Hval.
  { intros k1 k2 x y H. apply (f_equal decimal_value) in H.
    by rewrite !decimal_value_zeros, !decimal_value_pretty in H. }
  unfold GenerateData.format_0d.
  destruct n as [|p|p], m as [|q|q]; intros H; try done.
  - apply Hval in H. lia.
  - by apply zeros_pretty_no_sign in H.
  - apply Hval in H. lia.
  - apply Hval in H. lia.
  - by apply zeros_pretty_no_sign in H.
  - symmetry in H. by apply zeros_pretty_no_sign in H.
  - symmetry in H. by apply zeros_pretty_no_sign in H.
  - injection H as H. apply Hval in H. by injection H as ->.
Qed.

(** X29. [generate_id] gives distinct numbers distinct identifiers, for
    every prefix and every width: also for the numbers that have more
    digits than the width, and for negative ones. *)
Theorem generate_id_injective (prefix : string) (pad : nat) (n m : Z) :
  GenerateData.generate_id prefix n pad = GenerateData.generate_id prefix m pad
  <-> n = m.
Proof.
  split; [|by intros ->].
  unfold GenerateData.generate_id. intros H%(inj (append prefix)).
  by apply format_0d_inj in H.
Qed.

(** X30. The keys of the generated record sets are pairwise distinct,
    however many records are generated: the customer ids, the product ids,
    the transaction ids and the item ids. *)
Theorem generated_ids_distinct (count : Z) (items : nat) :
  NoDup (GenerateData.customer_ids count)
  /\ NoDup (GenerateData.product_ids count)
  /\ NoDup (GenerateData.transaction_ids count)
  /\ NoDup (GenerateData.item_ids items).
Proof.
  assert (forall prefix pad,
            Inj (=) (=) (fun i => GenerateData.generate_id prefix i pad)) as Hinj.
  { intros prefix pad n m H. unfold GenerateData.generate_id in H.
    apply (inj (append prefix)) in H. by apply format_0d_inj in H. }
  repeat split.
  - apply (NoDup_fmap_2 _), NoDup_seqZ.
  - apply (NoDup_fmap_2 _), NoDup_seqZ.
  - apply (NoDup_fmap_2 _), NoDup_seqZ.
  - unfold GenerateData.item_ids. apply NoDup_fmap_2_strong; [|apply NoDup_seq].
    intros i j _ _ H. apply Hinj in H. lia.
Qed.
